(** * Company registrations fetcher: a shallow embedding of [cmd/cli/main.go]

    The program crawls the search interface of the German register
    announcements, follows the links of the results page and turns the free
    text of every detail page into a [CompanyRegistration].

    Go strings are byte strings: they are embedded as [string] (a list of
    8-bit [ascii]).  The parts of the Go standard library and of colly the
    program calls are modelled in the modules [GoStrings], [GoRegexp],
    [GoTime] and in the section [Collector]; the functions of [main.go] keep
    their names. *)

From Stdlib Require Import Ascii ZArith Lia DecimalString.
From Stdlib Require DecimalZ DecimalPos.
From stdpp Require Import base option list strings gmap.

Local Open Scope stdpp_scope.

(** ** Byte strings *)

Definition LF : ascii := "010"%char.
Definition NL : string := String LF "".

Module Str.

Fixpoint all (p : ascii → bool) (s : string) : bool :=
  match s with
  | "" => true
  | String c s' => p c && all p s'
  end.

(** [strip p s] is the rest of [s] after its prefix [p], when it has it. *)
Fixpoint strip (p s : string) : option string :=
  match p with
  | "" => Some s
  | String c p' =>
      match s with
      | String d s' => if Ascii.eqb c d then strip p' s' else None
      | "" => None
      end
  end.

(** [contains sub s]: Go's [strings.Contains(s, sub)]. *)
Fixpoint contains (sub s : string) : bool :=
  match strip sub s with
  | Some _ => true
  | None => match s with String _ s' => contains sub s' | "" => false end
  end.

(** [take n s] is [s[:n]] (the whole of [s] when it is shorter) and
    [drop n s] is [s[n:]]. *)
Fixpoint take (n : nat) (s : string) : string :=
  match n, s with
  | S n', String c s' => String c (take n' s')
  | _, _ => ""
  end.

(** Any byte but [c]. *)
Definition not_byte (c x : ascii) : bool := negb (Ascii.eqb x c).

(** How often the byte [c] occurs in [s]. *)
Fixpoint count_byte (c : ascii) (s : string) : nat :=
  match s with
  | "" => 0
  | String x s' => (if Ascii.eqb x c then 1 else 0) + count_byte c s'
  end.

Fixpoint drop (n : nat) (s : string) : string :=
  match n, s with
  | S n', String _ s' => drop n' s'
  | _, _ => s
  end.

End Str.

(** ** Go's [strings] package, as far as the program uses it *)

Module GoStrings.

(** [Index s substr]: the byte offset of the first occurrence, [None] for
    Go's [-1]. *)
Fixpoint Index (s substr : string) : option nat :=
  match Str.strip substr s with
  | Some _ => Some 0
  | None =>
      match s with
      | String _ s' => S <$> Index s' substr
      | "" => None
      end
  end.

(** The loop of [genSplit]: cut at the first occurrence of [sep], go on
    behind it, at most [n] times; the rest is the last element. *)
Fixpoint genSplit (n : nat) (s sep : string) : list string :=
  match n with
  | 0 => [s]
  | S n' =>
      match Index s sep with
      | None => [s]
      | Some m => Str.take m s :: genSplit n' (Str.drop (m + String.length sep) s) sep
      end
  end.

(** [Split s sep] for a non-empty [sep] (the program only splits on [","]
    and [": "]).  Go bounds the loop by [Count(s, sep)]; every round removes
    at least one byte, so [len(s)] rounds are never exhausted before [Index]
    fails. *)
Definition Split (s sep : string) : list string :=
  genSplit (String.length s) s sep.

(** White space, [unicode.IsSpace]: the ASCII bytes [\t \n \v \f \r ' '] and
    the UTF-8 encodings of U+0085, U+00A0, U+1680, U+2000..U+200A, U+2028,
    U+2029, U+202F, U+205F and U+3000. *)
Definition asciiSpace (c : ascii) : bool :=
  match c with
  | "009" | "010" | "011" | "012" | "013" | " " => true
  | _ => false
  end%char.

Definition space2 (c1 c2 : ascii) : bool :=
  match c1, c2 with
  | "194", "133" | "194", "160" => true
  | _, _ => false
  end%char.

Definition space3 (c1 c2 c3 : ascii) : bool :=
  let c := N_of_ascii c3 in
  match N_of_ascii c1, N_of_ascii c2 with
  | 225, 154 => c =? 128
  | 226, 128 => (128 <=? c) && (c <=? 138) || (c =? 168) || (c =? 169) || (c =? 175)
  | 226, 129 => c =? 159
  | 227, 128 => c =? 128
  | _, _ => false
  end%N.

(** [TrimLeftFunc(s, unicode.IsSpace)]: runes are decoded from the left
    while they are white space.  A byte that starts no white-space rune
    (any other rune, or an invalid byte, decoded as U+FFFD) stops it. *)
Fixpoint TrimLeftSpace (s : string) : string :=
  match s with
  | "" => ""
  | String c1 r1 =>
      if asciiSpace c1 then TrimLeftSpace r1 else
      match r1 with
      | "" => s
      | String c2 r2 =>
          if space2 c1 c2 then TrimLeftSpace r2 else
          match r2 with
          | "" => s
          | String c3 r3 => if space3 c1 c2 c3 then TrimLeftSpace r3 else s
          end
      end
  end.

(** The same from the right, on the reversed string: [DecodeLastRune] finds
    a white-space rune exactly when the string ends with its encoding. *)
Fixpoint trimRevSpace (s : string) : string :=
  match s with
  | "" => ""
  | String c1 r1 =>
      if asciiSpace c1 then trimRevSpace r1 else
      match r1 with
      | "" => s
      | String c2 r2 =>
          if space2 c2 c1 then trimRevSpace r2 else
          match r2 with
          | "" => s
          | String c3 r3 => if space3 c3 c2 c1 then trimRevSpace r3 else s
          end
      end
  end.

Definition TrimRightSpace (s : string) : string :=
  String.rev (trimRevSpace (String.rev s)).

Definition TrimSpace (s : string) : string :=
  TrimRightSpace (TrimLeftSpace s).

End GoStrings.

(** ** Go's [regexp] package

    The four expressions of the program are built from literals, the
    classes [.], [\s] and [\d], a greedy star or a counted repetition of a
    class, concatenation and one capture group.  [regex] is that fragment.
    Matching is leftmost-first: alternatives are tried in the order Perl
    would try them (a greedy star takes as much as it can and gives back
    one byte at a time), which is the match Go's engine reports.

    All literals of the expressions are ASCII, so matching byte by byte
    agrees with matching rune by rune: [.] then stands for any byte but a
    line feed. *)

Module GoRegexp.

Inductive regex : Type :=
| Lit (l : string)                    (* a literal string *)
| Class (p : ascii → bool)            (* one byte of a class *)
| Star (p : ascii → bool)             (* x*, x a class *)
| Repeat (n : nat) (p : ascii → bool) (* x{n}, x a class *)
| Group (r : regex)                   (* ( r ), the capture group *)
| Cat (r1 r2 : regex).

Definition dot (c : ascii) : bool := negb (Ascii.eqb c LF).           (* . *)
Definition perl_s (c : ascii) : bool :=                               (* \s *)
  match c with
  | "009" | "010" | "012" | "013" | " " => true
  | _ => false
  end%char.
Definition perl_d (c : ascii) : bool :=                               (* \d *)
  (48 <=? nat_of_ascii c) && (nat_of_ascii c <=? 57).

Section Matcher.
Context {R : Type}.

(** Greedy star with backtracking: the continuation [k] is tried on the
    longest run first. *)
Fixpoint star (p : ascii → bool) (k : string → option R) (s : string) : option R :=
  match s with
  | String c s' =>
      if p c then
        match star p k s' with
        | Some r => Some r
        | None => k s
        end
      else k s
  | "" => k s
  end.

Fixpoint repeat (n : nat) (p : ascii → bool) (k : string → option R) (s : string) : option R :=
  match n with
  | 0 => k s
  | S n' =>
      match s with
      | String c s' => if p c then repeat n' p k s' else None
      | "" => None
      end
  end.

(** [run r s g k]: match [r] at the start of [s]; [g] is the text of the
    capture group so far; [k] receives the rest of the input and the group. *)
Fixpoint run (r : regex) (s : string) (g : string) (k : string → string → option R) : option R :=
  match r with
  | Lit l => match Str.strip l s with Some s' => k s' g | None => None end
  | Class p =>
      match s with
      | String c s' => if p c then k s' g else None
      | "" => None
      end
  | Star p => star p (λ s', k s' g) s
  | Repeat n p => repeat n p (λ s', k s' g) s
  | Group r1 =>
      run r1 s g (λ s' _, k s' (Str.take (String.length s - String.length s') s))
  | Cat r1 r2 => run r1 s g (λ s' g', run r2 s' g' k)
  end.

End Matcher.

(** The match starting at the first byte of [s]: the text of group 1. *)
Definition match_here (r : regex) (s : string) : option string :=
  run r s "" (λ _ g, Some g).

(** [FindStringSubmatch], reduced to what the program reads of it: [None]
    when the result is empty ([len(matches) = 0]), else [matches[1]].  The
    search is unanchored: the leftmost start that matches wins. *)
Fixpoint FindStringSubmatch1 (r : regex) (s : string) : option string :=
  match match_here r s with
  | Some g => Some g
  | None =>
      match s with
      | String _ s' => FindStringSubmatch1 r s'
      | "" => None
      end
  end.

End GoRegexp.

(** ** Go's [time] package: [time.Parse] for the two layouts of the program *)

Module GoTime.

(** A [time.Time] in UTC with zero seconds, which is all that either layout
    can produce. *)
Record Time : Type := mkTime {
  Year : Z;
  Month : Z;
  Day : Z;
  Hour : Z;
  Minute : Z
}.

(** The elements [nextStdChunk] cuts a layout into: a literal prefix or one
    of the standard fields. *)
Inductive chunk : Type :=
| Prefix (lit : string)
| stdZeroDay        (* 02 *)
| stdZeroMonth      (* 01 *)
| stdLongYear       (* 2006 *)
| stdHour           (* 15 *)
| stdZeroMinute.    (* 04 *)

(** ["02.01.2006 15:04"] *)
Definition layout_announcement : list chunk :=
  [stdZeroDay; Prefix "."; stdZeroMonth; Prefix "."; stdLongYear;
   Prefix " "; stdHour; Prefix ":"; stdZeroMinute].

(** ["2006-01-02"] *)
Definition layout_flag : list chunk :=
  [stdLongYear; Prefix "-"; stdZeroMonth; Prefix "-"; stdZeroDay].

Definition isDigit (c : ascii) : bool :=
  (48 <=? nat_of_ascii c) && (nat_of_ascii c <=? 57).

Definition digit (c : ascii) : Z := Z.of_nat (nat_of_ascii c) - 48.

(** [getnum]: one or two digits; exactly two when [fixed]. *)
Definition getnum (s : string) (fixed : bool) : option (Z * string) :=
  match s with
  | String c0 r0 =>
      if isDigit c0 then
        match r0 with
        | String c1 r1 =>
            if isDigit c1 then Some (digit c0 * 10 + digit c1, r1)
            else if fixed then None else Some (digit c0, r0)
        | "" => if fixed then None else Some (digit c0, r0)
        end
      else None
  | "" => None
  end%Z.

(** [stdLongYear]: four bytes, all digits ([atoi] of [value[0:4]] after the
    check that the first is a digit). *)
Definition getyear (s : string) : option (Z * string) :=
  match s with
  | String a (String b (String c (String d r))) =>
      if isDigit a && isDigit b && isDigit c && isDigit d
      then Some (digit a * 1000 + digit b * 100 + digit c * 10 + digit d, r)
      else None
  | _ => None
  end%Z.

Fixpoint cutspace (s : string) : string :=
  match s with
  | String c s' => if Ascii.eqb c " " then cutspace s' else s
  | "" => ""
  end.

(** [skip value prefix]: the literal text between two fields.  A run of
    spaces in the layout stands for a run of spaces (or the end) in the
    value; [inspace] says that the run of the layout was entered already. *)
Fixpoint skip_go (inspace : bool) (value prefix : string) : option string :=
  match prefix with
  | "" => Some value
  | String p prefix' =>
      if Ascii.eqb p " " then
        if inspace then skip_go true value prefix'
        else
          match value with
          | String v _ =>
              if Ascii.eqb v " " then skip_go true (cutspace value) prefix' else None
          | "" => skip_go true "" prefix'
          end
      else
        match value with
        | String v value' => if Ascii.eqb v p then skip_go false value' prefix' else None
        | "" => None
        end
  end.

Definition skip (value prefix : string) : option string := skip_go false value prefix.

Definition isLeap (year : Z) : bool :=
  ((year mod 4 =? 0) && (negb (year mod 100 =? 0) || (year mod 400 =? 0)))%Z.

Definition daysIn (m year : Z) : Z :=
  (if (m =? 2) && isLeap year then 29
   else if (m =? 2) then 28
   else if (m =? 4) || (m =? 6) || (m =? 9) || (m =? 11) then 30
   else 31)%Z.

(** The fields [Parse] collects, with Go's initial values (month and day
    unset). *)
Definition unset : Time := mkTime 0 (-1) (-1) 0 0.

(** One element of the layout against the value: the updated fields and the
    rest of the value; [None] for [errBad] or a field out of range. *)
Definition parse_chunk (c : chunk) (value : string) (t : Time) : option (Time * string) :=
  match c with
  | Prefix lit => v ← skip value lit; Some (t, v)
  | stdZeroDay =>
      '(n, v) ← getnum value true;
      Some (mkTime (Year t) (Month t) n (Hour t) (Minute t), v)
  | stdZeroMonth =>
      '(n, v) ← getnum value true;
      if ((n <=? 0) || (12 <? n))%Z then None
      else Some (mkTime (Year t) n (Day t) (Hour t) (Minute t), v)
  | stdLongYear =>
      '(n, v) ← getyear value;
      Some (mkTime n (Month t) (Day t) (Hour t) (Minute t), v)
  | stdHour =>
      '(n, v) ← getnum value false;
      if ((n <? 0) || (24 <=? n))%Z then None
      else Some (mkTime (Year t) (Month t) (Day t) n (Minute t), v)
  | stdZeroMinute =>
      '(n, v) ← getnum value true;
      if ((n <? 0) || (60 <=? n))%Z then None
      else Some (mkTime (Year t) (Month t) (Day t) (Hour t) n, v)
  end.

Fixpoint parse_chunks (layout : list chunk) (value : string) (t : Time) : option (Time * string) :=
  match layout with
  | [] => Some (t, value)
  | c :: layout' => '(t', v) ← parse_chunk c value t; parse_chunks layout' v t'
  end.

(** [Parse layout value]: [None] when Go returns a [*ParseError] (a bad
    element, a field out of range, extra text behind the last element, or a
    day the month does not have). *)
Definition Parse (layout : list chunk) (value : string) : option Time :=
  match parse_chunks layout value unset with
  | Some (t, "") =>
      if ((Day t <? 1) || (daysIn (Month t) (Year t) <? Day t))%Z then None
      else Some t
  | _ => None
  end.

End GoTime.

(** ** [fmt]: the verb [%d] *)

Definition Sprintf_d (n : Z) : string := NilZero.string_of_int (Z.to_int n).

(** ** The program's data and effects *)

Record CompanyRegistration : Type := mkReg {
  RegNo : string;
  Date : option GoTime.Time;      (* *time.Time, nil = None *)
  Address : string;
  City : string;
  PostalCode : string;
  Name : string
}.

(** The zero value [CompanyRegistration{}]. *)
Definition zeroReg : CompanyRegistration := mkReg "" None "" "" "" "".

(** A Go [error]: [None] is [nil], [Some msg] an error whose [Error()] is
    [msg]. *)
Definition error : Type := option string.

Inductive request : Type :=
| GET (url : string)
| POST (url : string) (data : gmap string string).

(** What the run does to the outside, in order. *)
Inductive event : Type :=
| Stdout (text : string)        (* bytes written by fmt.Println / fmt.Printf *)
| LogPrintln (line : string)    (* log.Println(line) *)
| Http (r : request).           (* a request sent by the collector *)

(** A fetched document, as the two selectors of the program see it: the
    [href] of every element matching ["li>a[href]"], and for every [font]
    element the [Text] of each [tr] below it, both in document order. *)
Record Page : Type := mkPage {
  li_a_href : list string;
  font_tr : list (list string)
}.

Inductive panic : Type :=
| IndexOutOfRange (i len : nat).   (* runtime error: index out of range [i] with length len *)

Inductive outcome (A : Type) : Type :=
| Return (a : A)
| Panic (p : panic)
| OutOfFuel.                       (* the bound of the model on nested visits was reached *)
Arguments Return {A} a.
Arguments Panic {A} p.
Arguments OutOfFuel {A}.

(** The state the callbacks share: the collector's set of visited URLs, the
    slice [registrations] the closures append to, and the events so far. *)
Record State : Type := mkState {
  trace : list event;
  visited : gset string;
  registrations : list CompanyRegistration
}.

Definition Go (A : Type) : Type := State → outcome A * State.

Definition ret {A} (a : A) : Go A := λ st, (Return a, st).

Definition bind {A B} (m : Go A) (f : A → Go B) : Go B :=
  λ st,
    match m st with
    | (Return a, st') => f a st'
    | (Panic p, st') => (Panic p, st')
    | (OutOfFuel, st') => (OutOfFuel, st')
    end.

(** [x ← m; k] and [m;; k] are stdpp's notations for [bind]. *)
#[global] Instance Go_ret : MRet Go := @ret.
#[global] Instance Go_bind : MBind Go := λ A B f m, bind m f.

Definition raise {A} (p : panic) : Go A := λ st, (Panic p, st).

Definition out_of_fuel {A} : Go A := λ st, (OutOfFuel, st).

Definition emit (e : event) : Go unit :=
  λ st, (Return tt, mkState (trace st ++ [e]) (visited st) (registrations st)).

(** [l[i]] with Go's bounds check. *)
Definition index {A} (l : list A) (i : nat) : Go A :=
  match l !! i with
  | Some x => ret x
  | None => raise (IndexOutOfRange i (length l))
  end.

Fixpoint forEach {A} (l : list A) (f : A → Go unit) : Go unit :=
  match l with
  | [] => ret tt
  | x :: l' => f x ;; forEach l' f
  end.

(** [if err != nil { log.Println(err.Error()) }] *)
Definition log_error (err : error) : Go unit :=
  match err with
  | Some msg => emit (LogPrintln msg)
  | None => ret tt
  end.

Definition Println (text : string) : Go unit := emit (Stdout (text +:+ NL)).

(** The state a run starts in. *)
Definition initial : State := mkState [] ∅ [].

(** The state after the events [t]. *)
Definition add_events (t : list event) (st : State) : State :=
  mkState (trace st ++ t) (visited st) (registrations st).

(** A computation that only adds events to the trace. *)
Definition appends {A} (m : Go A) : Prop :=
  ∀ st o st', m st = (o, st') → ∃ t, trace st' = trace st ++ t.

(** The log lines [log_error] writes. *)
Definition log_of (err : error) : list event :=
  match err with
  | Some msg => [LogPrintln msg]
  | None => []
  end.

(** ** The field extractors *)

Import GoRegexp GoStrings.

(** The four expressions, written with blanks around the group, which are
    not part of them.

    [.*:\s( .* )\n.*] *)
Definition re_number : regex :=
  Cat (Star dot) (Cat (Lit ":") (Cat (Class perl_s)
    (Cat (Group (Star dot)) (Cat (Lit NL) (Star dot))))).

(** [.*Bekannt gemacht am:( .* )Uhr] *)
Definition re_date : regex :=
  Cat (Star dot) (Cat (Lit "Bekannt gemacht am:") (Cat (Group (Star dot)) (Lit "Uhr"))).

(** [.*( \d{5} ).*] *)
Definition re_postal : regex :=
  Cat (Star dot) (Cat (Group (Repeat 5 perl_d)) (Star dot)).

(** [.*], an apostrophe, [rb_id=( .* )\&.*] *)
Definition re_rb_id : regex :=
  Cat (Star dot) (Cat (Lit "'rb_id=") (Cat (Group (Star dot)) (Cat (Lit "&") (Star dot)))).

Definition extractCompanyNumber (text : string) : string * error :=
  match FindStringSubmatch1 re_number text with
  | Some m1 => (m1, None)
  | None => ("", Some ("unable to extract company registration number: " +:+ text))
  end.

Definition extractCompanyName (text : string) : Go (string * error) :=
  let sections := Split text "," in
  s0 ← index sections 0;
  let parts := Split s0 ": " in
  p1 ← index parts 1;
  ret (p1, None).

Definition extractCompanyAddress (text : string) : Go (string * error) :=
  let sections := Split text "," in
  s2 ← index sections 2;
  (if 35 <? String.length s2 then Println text else ret tt);;
  s2' ← index sections 2;
  ret (s2', None).

Definition extractCity (text : string) : Go (string * error) :=
  let sections := Split text "," in
  s1 ← index sections 1;
  ret (s1, None).

Definition extractPostalCode (text : string) : string * error :=
  match FindStringSubmatch1 re_postal text with
  | Some m1 => (m1, None)
  | None => ("", Some ("unable to extract company postal code: " +:+ text))
  end.

Section Program.

(** The text of the [*time.ParseError] that [time.Parse] returns for a value
    it rejects: the program only passes it on to the log and to the caller. *)
Variable ParseError_Error : list GoTime.chunk → string → string.

(** How the two output formats render a record: [json.Marshal] and the verb
    [%v] of a [*time.Time]. *)
Variable json_Marshal : CompanyRegistration → string.
Variable Sprintf_v : option GoTime.Time → string.

Definition extractCompanyRegistrationDate (text : string) : option GoTime.Time * error :=
  match FindStringSubmatch1 re_date text with
  | Some m1 =>
      match GoTime.Parse GoTime.layout_announcement (TrimSpace m1) with
      | None =>
          (None, Some ("unable to extract company reg date: "
                       +:+ ParseError_Error GoTime.layout_announcement (TrimSpace m1)))
      | Some t => (Some t, None)
      end
  | None => (None, Some "unable to extract company registration date")
  end.

(** ** The two callbacks of [collectRegistrations] *)

Definition regURL (regID : string) : string :=
  "https://www.handelsregisterbekanntmachungen.de/skripte/hrb.php?rb_id="
  +:+ regID +:+ "&land_abk=bw".

(** [c.OnHTML("li>a[href]", ...)]; [c_Visit] is the collector's [Visit],
    whose error the callback drops. *)
Definition onLink (c_Visit : string → Go unit) (href : string) : Go unit :=
  match FindStringSubmatch1 re_rb_id href with
  | Some regID => c_Visit (regURL regID)
  | None => ret tt
  end.

Definition get_registrations : Go (list CompanyRegistration) :=
  λ st, (Return (registrations st), st).

Definition append_registration (reg : CompanyRegistration) : Go unit :=
  λ st, (Return tt, mkState (trace st) (visited st) (registrations st ++ [reg])).

(** [c.OnHTML("font", ...)]; [lines] is what [e.ForEach("tr", ...)]
    collected. *)
Definition onFont (lines : list string) : Go unit :=
  if bool_decide (0 < length lines) then
    l0 ← index lines 0;
    let '(courtFileNumber, err) := extractCompanyNumber l0 in
    log_error err;;
    let regNo := TrimSpace courtFileNumber in
    l0 ← index lines 0;
    let '(companyRegistrationDate, err) := extractCompanyRegistrationDate l0 in
    log_error err;;
    l5 ← index lines 5;
    '(companyName, err) ← extractCompanyName l5;
    log_error err;;
    l5 ← index lines 5;
    '(companyAddress, err) ← extractCompanyAddress l5;
    log_error err;;
    l5 ← index lines 5;
    '(companyCity, err) ← extractCity l5;
    log_error err;;
    l5 ← index lines 5;
    let '(postalCode, err) := extractPostalCode l5 in
    log_error err;;
    append_registration
      (mkReg regNo companyRegistrationDate (TrimSpace companyAddress)
             (TrimSpace companyCity) (TrimSpace postalCode) (TrimSpace companyName))
  else ret tt.

(** ** The search request *)

Definition searchURL : string :=
  "https://www.handelsregisterbekanntmachungen.de/?aktion=suche#Ergebnis".

Definition data (startDate endDate : GoTime.Time) : gmap string string :=
  list_to_map [
    ("suchart", "uneingeschr");
    ("button", "Suche+starten");
    ("vt", Sprintf_d (GoTime.Day startDate));
    ("vm", Sprintf_d (GoTime.Month startDate));
    ("vj", Sprintf_d (GoTime.Year startDate));
    ("bt", Sprintf_d (GoTime.Day endDate));
    ("bm", Sprintf_d (GoTime.Month endDate));
    ("bj", Sprintf_d (GoTime.Year endDate));
    ("land", "");
    ("gericht", "");
    ("gericht_name", "");
    ("seite", "");
    ("l", "");
    ("r", "");
    ("all", "false");
    ("rubrik", "");
    ("az", "");
    ("gegenstand", "0");
    ("order", "4")
  ].

(** ** The collector

    colly's default collector, as the program uses it: requests are
    synchronous; a response that is an HTML document runs the callbacks in
    the order they were registered, each on all the elements its selector
    matches; [Visit] refuses a URL it has visited.  A callback that visits
    runs the whole nested fetch before it returns. *)

Section Collector.

(** The remote service: the document a request is answered with, [None] when
    the fetch fails (the error goes back to the caller of [Visit] or [Post],
    which drops it). *)
Variable serve : request → option Page.

Definition c_Visit_with (scrape : request → Go unit) (url : string) : Go unit :=
  λ st,
    if bool_decide (url ∈ visited st) then (Return tt, st)
    else scrape (GET url) (mkState (trace st) ({[url]} ∪ visited st) (registrations st)).

(** [fuel] bounds how deep visits nest. *)
Fixpoint scrape (fuel : nat) (r : request) : Go unit :=
  match fuel with
  | 0 => out_of_fuel
  | S n =>
      emit (Http r);;
      match serve r with
      | None => ret tt
      | Some page =>
          forEach (li_a_href page) (onLink (c_Visit_with (scrape n)));;
          forEach (font_tr page) onFont
      end
  end.

Definition c_Visit (fuel : nat) : string → Go unit := c_Visit_with (scrape fuel).

Definition c_Post (fuel : nat) (url : string) (d : gmap string string) : Go unit :=
  scrape fuel (POST url d).

(** A fresh collector and a fresh slice, the search, and what the callbacks
    have appended by the time [Post] returns. *)
Definition collectRegistrations (fuel : nat) (startDate endDate : GoTime.Time)
  : Go (list CompanyRegistration) :=
  λ st,
    (c_Post fuel searchURL (data startDate endDate);;
     get_registrations)
    (mkState (trace st) ∅ []).

(** ** [main]: the action of the command-line application *)

Definition csv_row (r : CompanyRegistration) : string :=
  RegNo r +:+ ";" +:+ Sprintf_v (Date r) +:+ ";" +:+ Name r +:+ ";"
  +:+ Address r +:+ ";" +:+ City r +:+ ";" +:+ PostalCode r +:+ NL.

(** [Action]; the arguments are the values of the flags [output],
    [start_date] and [end_date]. *)
Definition Action (fuel : nat) (output start_date end_date : string) : Go error :=
  match GoTime.Parse GoTime.layout_flag (TrimSpace start_date) with
  | None =>
      ret (Some ("unable to parse start date parameter: "
                 +:+ ParseError_Error GoTime.layout_flag (TrimSpace start_date)))
  | Some startDate =>
      match GoTime.Parse GoTime.layout_flag (TrimSpace end_date) with
      | None =>
          ret (Some ("unable to parse end date parameter: "
                     +:+ ParseError_Error GoTime.layout_flag (TrimSpace end_date)))
      | Some endDate =>
          regs ← collectRegistrations fuel startDate endDate;
          if String.eqb output "jsonl" then
            forEach regs (λ r, emit (Stdout (json_Marshal r +:+ NL)));;
            ret None
          else if String.eqb output "csv" then
            Println "RegNo;Date;Name;Address;City;PostalCode";;
            forEach regs (λ r, emit (Stdout (csv_row r)));;
            ret None
          else ret (Some "output not supported")
      end
  end.

(** [main]: [log.Fatal(err)] logs the error and exits with status 1. *)
Definition main (fuel : nat) (output start_date end_date : string) : Go Z :=
  err ← Action fuel output start_date end_date;
  match err with
  | Some msg => emit (LogPrintln msg) ;; ret 1%Z
  | None => ret 0%Z
  end.

End Collector.

End Program.

(** ** Vocabulary of the specification *)

Module Spec.
Import GoRegexp.

(** What an expression of the fragment matches: [Match r m g g'] says that
    [r] matches exactly the text [m], turning the group text [g] into
    [g']. *)
Fixpoint Match (r : regex) (m g g' : string) : Prop :=
  match r with
  | Lit l => m = l ∧ g' = g
  | Class p => (∃ c, m = String c "" ∧ p c = true) ∧ g' = g
  | Star p => Str.all p m = true ∧ g' = g
  | Repeat n p => (String.length m = n ∧ Str.all p m = true) ∧ g' = g
  | Group r1 => (∃ g0, Match r1 m g g0) ∧ g' = m
  | Cat r1 r2 => ∃ m1 m2 g1, m = m1 +:+ m2 ∧ Match r1 m1 g g1 ∧ Match r2 m2 g1 g'
  end.

(** [sub] occurs in [s]. *)
Definition occurs (sub s : string) : Prop := ∃ a b, s = a +:+ sub +:+ b.

(** A run of five consecutive decimal digits. *)
Definition digit_run5 (d : string) : Prop :=
  String.length d = 5 ∧ Str.all perl_d d = true.

Definition has_digit_run5 (s : string) : Prop :=
  ∃ a d b, s = a +:+ d +:+ b ∧ digit_run5 d.

(** A colon, one white-space byte, a value without line feed and a line
    feed: what the expression for the registration number looks for. *)
Definition colon_value_line (text : string) : Prop :=
  ∃ a w v b, text = a +:+ ":" +:+ String w (v +:+ NL +:+ b)
             ∧ perl_s w = true ∧ Str.contains NL v = false.

(** The marker of the announcement date and, behind it on the same line,
    the time-unit marker. *)
Definition marker_then_unit (text : string) : Prop :=
  ∃ a mid b, text = a +:+ "Bekannt gemacht am:" +:+ mid +:+ "Uhr" +:+ b
             ∧ Str.contains NL mid = false.

Import GoTime.

Definition bytes (l : list ascii) : string := String.string_of_list_ascii l.

Definition two (a b : ascii) : Z := digit a * 10 + digit b.

Definition four (a b c d : ascii) : Z :=
  digit a * 1000 + digit b * 100 + digit c * 10 + digit d.

(** One or two digits that read as the hour [h]. *)
Definition hour_text (hh : string) (h : Z) : Prop :=
  (∃ a, hh = bytes [a] ∧ isDigit a = true ∧ h = digit a)
  ∨ (∃ a b, hh = bytes [a; b] ∧ isDigit a = true ∧ isDigit b = true ∧ h = two a b).

(** The format of the announcement date, DD.MM.YYYY, blanks, H or HH, a
    colon, MM, for a date and a time that exist; [t] is what it reads as. *)
Definition announcement_format (s : string) (t : Time) : Prop :=
  ∃ d1 d2 m1 m2 y1 y2 y3 y4 sp hh mi1 mi2,
    s = bytes [d1; d2] +:+ "." +:+ bytes [m1; m2] +:+ "." +:+ bytes [y1; y2; y3; y4]
        +:+ " " +:+ sp +:+ hh +:+ ":" +:+ bytes [mi1; mi2]
    ∧ Str.all isDigit (bytes [d1; d2; m1; m2; y1; y2; y3; y4; mi1; mi2]) = true
    ∧ Str.all (Ascii.eqb " ") sp = true
    ∧ hour_text hh (Hour t)
    ∧ Day t = two d1 d2 ∧ Month t = two m1 m2 ∧ Year t = four y1 y2 y3 y4
    ∧ Minute t = two mi1 mi2
    ∧ (1 ≤ Month t ≤ 12 ∧ 1 ≤ Day t ≤ daysIn (Month t) (Year t)
       ∧ Hour t < 24 ∧ Minute t < 60)%Z.

End Spec.


(** ** The defaults of the date flags, and further vocabulary *)

(** The [Value] of the flags [start_date] and [end_date] when they are not
    given: [fmt.Sprintf("%d-%d-%d", ...)] of the year, the month and the day
    [time.Now()] reports. *)
Definition default_date (year month day : Z) : string :=
  Sprintf_d year +:+ "-" +:+ Sprintf_d month +:+ "-" +:+ Sprintf_d day.

(** [%d] prints [n] as exactly one, two or four decimal digits. *)
Definition prints_one_digit (n : Z) : bool :=
  match Sprintf_d n with
  | String a "" => GoTime.isDigit a && (GoTime.digit a =? n)%Z
  | _ => false
  end.

Definition prints_two_digits (n : Z) : bool :=
  match Sprintf_d n with
  | String a (String b "") =>
      GoTime.isDigit a && GoTime.isDigit b && (Spec.two a b =? n)%Z
  | _ => false
  end.

Definition prints_four_digits (n : Z) : bool :=
  match Sprintf_d n with
  | String a (String b (String c (String d ""))) =>
      GoTime.isDigit a && GoTime.isDigit b && GoTime.isDigit c && GoTime.isDigit d
      && (Spec.four a b c d =? n)%Z
  | _ => false
  end.

(** A computation that only appends to [registrations] and only adds to the
    visited URLs. *)
Definition keeps_records {A} (m : Go A) : Prop :=
  ∀ st o st', m st = (o, st') →
    (∃ new, registrations st' = registrations st ++ new) ∧ visited st ⊆ visited st'.

(** No ASCII white space at either end. *)
Definition trimmed (s : string) : Prop :=
  (∀ c r, s = String c r → GoStrings.asciiSpace c = false)
  ∧ (∀ r c, s = r +:+ String c "" → GoStrings.asciiSpace c = false).

Definition trimmed_record (reg : CompanyRegistration) : Prop :=
  trimmed (RegNo reg) ∧ trimmed (Address reg) ∧ trimmed (City reg)
  ∧ trimmed (PostalCode reg) ∧ trimmed (Name reg).

(** A service for the examples: the search is answered with a page that
    holds one announcement, every other request fails. *)
Definition one_announcement (r : request) : option Page :=
  match r with
  | POST _ _ =>
      Some (mkPage []
              [["Aktenzeichen: HRB 1" +:+ NL +:+ "Bekannt gemacht am: 01.02.2024 14:30 Uhr";
                ""; ""; ""; ""; "HRB 1: Acme GmbH, Ulm, Weg 1, 89073 Ulm"]])
  | GET _ => None
  end.

(** Another: the search is answered with a link to another site and one
    link to an announcement, and the detail page this one leads to has a
    link back to the search form and an announcement of three rows only. *)
Definition one_short_page (r : request) : option Page :=
  match r with
  | POST _ _ =>
      Some (mkPage ["https://www.bundesanzeiger.de";
                    "javascript:NeuFenster('rb_id=7&land_abk=bw')"] [])
  | GET _ => Some (mkPage ["suche.php"] [["Aktenzeichen: HRB 7"; ""; ""]])
  end.

(** The requests among the events, in order. *)
Fixpoint requests (t : list event) : list request :=
  match t with
  | [] => []
  | Http r :: t' => r :: requests t'
  | _ :: t' => requests t'
  end.

(** A computation that sends no request, leaves the visited URLs alone and
    does not run into the bound of the model. *)
Definition quiet {A} (m : Go A) : Prop :=
  ∀ st o st', m st = (o, st') →
    visited st' = visited st ∧ o ≠ OutOfFuel
    ∧ ∃ t, trace st' = trace st ++ t ∧ requests t = [].





(** * Facts about the library models *)

Module StrFacts.
Import Str.

Lemma app_nil_l s : "" +:+ s = s.
Proof. reflexivity. Qed.

Lemma app_cons c a b : String c a +:+ b = String c (a +:+ b).
Proof. reflexivity. Qed.

Lemma app_nil_r s : s +:+ "" = s.
Proof. induction s as [|c s IH]; [reflexivity|]. rewrite app_cons, IH. reflexivity. Qed.

Lemma app_assoc a b c : (a +:+ b) +:+ c = a +:+ (b +:+ c).
Proof.
  induction a as [|x a IH]; [reflexivity|].
  rewrite !app_cons, IH. reflexivity.
Qed.

Lemma length_app a b : String.length (a +:+ b) = String.length a + String.length b.
Proof.
  induction a as [|x a IH]; [reflexivity|].
  rewrite app_cons. simpl. rewrite IH. reflexivity.
Qed.

Lemma all_app p a b : all p (a +:+ b) = all p a && all p b.
Proof.
  induction a as [|x a IH]; [reflexivity|].
  rewrite app_cons. simpl. rewrite IH, andb_assoc. reflexivity.
Qed.

Lemma strip_Some p s r : strip p s = Some r ↔ s = p +:+ r.
Proof.
  revert s. induction p as [|c p IH]; intros s; simpl.
  - rewrite app_nil_l. split; congruence.
  - rewrite app_cons. destruct s as [|d s]; [split; discriminate|].
    destruct (Ascii.eqb_spec c d) as [->|Hne].
    + rewrite IH. split; [intros ->; reflexivity|congruence].
    + split; [discriminate|]. intros [= ? ?]. congruence.
Qed.

Lemma strip_app p r : strip p (p +:+ r) = Some r.
Proof. apply strip_Some. reflexivity. Qed.

Lemma contains_true sub s :
  contains sub s = true ↔ ∃ a b, s = a +:+ sub +:+ b.
Proof.
  induction s as [|c s IH].
  - simpl. destruct (strip sub "") as [r|] eqn:E.
    + apply strip_Some in E. split; [|reflexivity].
      intros _. exists "", r. exact E.
    + split; [discriminate|]. intros ([|x a] & b & H); [|discriminate].
      rewrite app_nil_l in H. apply strip_Some in H. congruence.
  - simpl. destruct (strip sub (String c s)) as [r|] eqn:E.
    + apply strip_Some in E. split; [|reflexivity].
      intros _. exists "", r. exact E.
    + rewrite IH. split.
      * intros (a & b & ->). exists (String c a), b. reflexivity.
      * intros ([|x a] & b & H).
        -- rewrite app_nil_l in H. apply strip_Some in H. congruence.
        -- rewrite app_cons in H. injection H as _ ->. eauto.
Qed.

Lemma contains_false sub s :
  contains sub s = false ↔ ∀ a b, s ≠ a +:+ sub +:+ b.
Proof.
  split.
  - intros H a b E. assert (contains sub s = true) as H'
      by (apply contains_true; eauto). congruence.
  - intros H. destruct (contains sub s) eqn:E; [|reflexivity].
    apply contains_true in E as (a & b & E). destruct (H _ _ E).
Qed.

Lemma take_app a b : take (String.length a) (a +:+ b) = a.
Proof.
  induction a as [|x a IH]; simpl.
  - destruct b; reflexivity.
  - rewrite IH. reflexivity.
Qed.

(** Splitting an append against a cons. *)
Lemma app_eq_cons a b c s :
  a +:+ b = String c s →
  (a = "" ∧ b = String c s) ∨ (∃ a', a = String c a' ∧ s = a' +:+ b).
Proof.
  destruct a as [|x a]; [left; auto|].
  rewrite app_cons. intros [= -> <-]. right. eauto.
Qed.

End StrFacts.

Module RegexpFacts.
Import Str StrFacts GoRegexp Spec.

Section Matching.
Context {R : Type}.
Implicit Types (p : ascii → bool) (k : string → option R).

Lemma star_None p k s :
  star p k s = None ↔ ∀ a b, s = a +:+ b → all p a = true → k b = None.
Proof.
  induction s as [|c s IH]; simpl.
  - split.
    + intros H [|x a] b E _; [rewrite app_nil_l in E; congruence|discriminate].
    + intros H. apply (H "" ""); reflexivity.
  - destruct (p c) eqn:Hc.
    + destruct (star p k s) as [r|] eqn:Hs.
      * split; [discriminate|]. intros H.
        assert (Some r = None) as E; [|discriminate].
        apply IH. intros a b -> Ha.
        apply (H (String c a) b); [reflexivity|]. simpl. rewrite Hc. exact Ha.
      * split.
        -- intros Hk a b E Ha. symmetry in E.
           apply app_eq_cons in E as [[-> ->]|(a' & -> & ->)].
           ++ exact Hk.
           ++ simpl in Ha. rewrite Hc in Ha.
              destruct IH as [IH _]. apply (IH eq_refl a' b); [reflexivity|exact Ha].
        -- intros H. apply (H "" (String c s)); reflexivity.
    + split.
      * intros Hk a b E Ha. symmetry in E.
        apply app_eq_cons in E as [[-> ->]|(a' & -> & ->)].
        -- exact Hk.
        -- simpl in Ha. rewrite Hc in Ha. discriminate.
      * intros H. apply (H "" (String c s)); reflexivity.
Qed.

Lemma star_Some_inv p k s r :
  star p k s = Some r → ∃ a b, s = a +:+ b ∧ all p a = true ∧ k b = Some r.
Proof.
  revert r. induction s as [|c s IH]; simpl; intros r H.
  - exists "", "". auto.
  - destruct (p c) eqn:Hc.
    + destruct (star p k s) as [r'|] eqn:Hs.
      * injection H as ->. destruct (IH _ eq_refl) as (a & b & -> & Ha & Hk).
        exists (String c a), b. simpl. rewrite Hc. auto.
      * exists "", (String c s). auto.
    + exists "", (String c s). auto.
Qed.

(** Greedy: what the star finds after a run it can take is what it finds. *)
Lemma star_later p k a s r :
  all p a = true → star p k s = Some r → star p k (a +:+ s) = Some r.
Proof.
  induction a as [|c a IH]; simpl; intros Ha Hs; [exact Hs|].
  apply andb_prop in Ha as [Hc Ha]. rewrite Hc, (IH Ha Hs). reflexivity.
Qed.

(** A star in front of a byte it cannot take has no choice. *)
Lemma star_stop p k c s : p c = false → star p k (String c s) = k (String c s).
Proof. simpl. intros ->. reflexivity. Qed.

Lemma star_total p s (r : R) : star p (λ _, Some r) s = Some r.
Proof.
  induction s as [|c s IH]; simpl; [reflexivity|].
  rewrite IH. destruct (p c); reflexivity.
Qed.

Lemma repeat_Some n p k s r :
  repeat n p k s = Some r ↔
  ∃ a b, s = a +:+ b ∧ String.length a = n ∧ all p a = true ∧ k b = Some r.
Proof.
  revert s. induction n as [|n IH]; intros s; simpl.
  - split.
    + intros H. exists "", s. auto.
    + intros ([|x a] & b & -> & Hl & _ & Hk); [exact Hk|discriminate].
  - destruct s as [|c s].
    + split; [discriminate|].
      intros ([|x a] & b & E & Hl & _); discriminate.
    + destruct (p c) eqn:Hc.
      * rewrite IH. split.
        -- intros (a & b & -> & Hl & Ha & Hk). exists (String c a), b.
           simpl. rewrite Hc, Hl. auto.
        -- intros ([|x a] & b & E & Hl & Ha & Hk); [discriminate|].
           injection E as <- ->. simpl in Ha. rewrite Hc in Ha.
           injection Hl as Hl. exists a, b. auto.
      * split; [discriminate|].
        intros ([|x a] & b & E & Hl & Ha & Hk); [discriminate|].
        injection E as <- ->. simpl in Ha. rewrite Hc in Ha. discriminate.
Qed.

(** Whatever the engine answers comes from a match of the expression. *)
Lemma run_sound r : ∀ s g (k : string → string → option R) x,
  run r s g k = Some x →
  ∃ m s' g', s = m +:+ s' ∧ Match r m g g' ∧ k s' g' = Some x.
Proof.
  induction r as [l|p|p|n p|r1 IH1|r1 IH1 r2 IH2]; intros s g k x H; simpl in *.
  - destruct (strip l s) as [s'|] eqn:E; [|discriminate].
    apply strip_Some in E. exists l, s', g. auto.
  - destruct s as [|c s]; [discriminate|].
    destruct (p c) eqn:Hc; [|discriminate].
    exists (String c ""), s, g. eauto 6.
  - apply star_Some_inv in H as (a & b & -> & Ha & Hk). exists a, b, g. auto.
  - apply repeat_Some in H as (a & b & -> & Hl & Ha & Hk). exists a, b, g. auto.
  - apply IH1 in H as (m & s' & g0 & -> & Hm & Hk).
    rewrite length_app, Nat.add_sub, take_app in Hk.
    exists m, s', m. eauto.
  - apply IH1 in H as (m1 & s1 & g1 & -> & Hm1 & H).
    apply IH2 in H as (m2 & s2 & g2 & -> & Hm2 & Hk).
    exists (m1 +:+ m2), s2, g2. rewrite app_assoc. eauto 8.
Qed.

(** A match the continuation accepts makes the engine answer (with that
    match or one it prefers). *)
Lemma run_complete r : ∀ s g (k : string → string → option R) m s' g',
  s = m +:+ s' → Match r m g g' → is_Some (k s' g') → is_Some (run r s g k).
Proof.
  induction r as [l|p|p|n p|r1 IH1|r1 IH1 r2 IH2];
    intros s g k m s' g' -> Hm Hk; simpl in *.
  - destruct Hm as [-> ->]. rewrite strip_app. exact Hk.
  - destruct Hm as [(c & -> & Hc) ->]. simpl. rewrite Hc. exact Hk.
  - destruct Hm as [Ha ->].
    destruct (star p (λ s'0, k s'0 g) (m +:+ s')) eqn:E; [eauto|].
    rewrite star_None in E. rewrite (E m s' eq_refl Ha) in Hk.
    destruct Hk; discriminate.
  - destruct Hm as [[Hl Ha] ->]. destruct Hk as [x Hk].
    exists x. apply repeat_Some. eauto 6.
  - destruct Hm as [[g0 Hm] ->].
    eapply IH1; [reflexivity|exact Hm|].
    rewrite length_app, Nat.add_sub, take_app. exact Hk.
  - destruct Hm as (m1 & m2 & g1 & -> & Hm1 & Hm2).
    rewrite app_assoc. eapply IH1; [reflexivity|exact Hm1|].
    eapply IH2; [reflexivity|exact Hm2|exact Hk].
Qed.

End Matching.

Lemma match_here_Some r s g :
  match_here r s = Some g → ∃ m s', s = m +:+ s' ∧ Match r m "" g.
Proof.
  intros H. apply run_sound in H as (m & s' & g' & -> & Hm & [= ->]). eauto.
Qed.

Lemma match_here_complete r m s' g :
  Match r m "" g → is_Some (match_here r (m +:+ s')).
Proof. intros Hm. eapply run_complete; [reflexivity|exact Hm|eauto]. Qed.

Lemma Find_None r s :
  FindStringSubmatch1 r s = None ↔ ∀ a b, s = a +:+ b → match_here r b = None.
Proof.
  induction s as [|c s IH]; simpl.
  - destruct (match_here r "") eqn:E.
    + split; [discriminate|]. intros H. rewrite (H "" "" eq_refl) in E. discriminate.
    + split; [|reflexivity]. intros _ [|x a] b E'; [|discriminate].
      rewrite app_nil_l in E'. subst b. exact E.
  - destruct (match_here r (String c s)) eqn:E.
    + split; [discriminate|]. intros H. rewrite (H "" _ eq_refl) in E. discriminate.
    + rewrite IH. split.
      * intros H a b E'. symmetry in E'.
        apply app_eq_cons in E' as [[-> ->]|(a' & -> & ->)]; [exact E|].
        apply (H a' b). reflexivity.
      * intros H a b ->. apply (H (String c a) b). reflexivity.
Qed.

Lemma Find_Some_inv r s g :
  FindStringSubmatch1 r s = Some g → ∃ a b, s = a +:+ b ∧ match_here r b = Some g.
Proof.
  induction s as [|c s IH]; simpl.
  - destruct (match_here r "") eqn:E; [|discriminate].
    intros [= ->]. exists "", "". auto.
  - destruct (match_here r (String c s)) eqn:E.
    + intros [= ->]. exists "", (String c s). auto.
    + intros H. destruct (IH H) as (a & b & -> & Hb). exists (String c a), b. auto.
Qed.

(** The leftmost start wins: a match at the first byte is the answer. *)
Lemma Find_here r s g : match_here r s = Some g → FindStringSubmatch1 r s = Some g.
Proof. destruct s; simpl; intros ->; reflexivity. Qed.

(** The search answers exactly when some part of the input matches, and
    its answer is the group of a match. *)
Lemma Find_Some_Match r s g :
  FindStringSubmatch1 r s = Some g → ∃ a m b, s = a +:+ m +:+ b ∧ Match r m "" g.
Proof.
  intros H. apply Find_Some_inv in H as (a & b & -> & H).
  apply match_here_Some in H as (m & s' & -> & Hm). eauto.
Qed.

Lemma Find_is_Some r s :
  is_Some (FindStringSubmatch1 r s) ↔ ∃ a m b g, s = a +:+ m +:+ b ∧ Match r m "" g.
Proof.
  split.
  - intros [g H]. apply Find_Some_Match in H as (a & m & b & E & Hm).
    exists a, m, b, g. auto.
  - intros (a & m & b & g & -> & Hm).
    destruct (FindStringSubmatch1 r (a +:+ m +:+ b)) eqn:E; [eauto|].
    rewrite Find_None in E. specialize (E a (m +:+ b) eq_refl).
    destruct (match_here_complete r m b g Hm) as [x Hx]. congruence.
Qed.

End RegexpFacts.

(** * The field extractors *)

Import Str StrFacts GoRegexp GoStrings Spec RegexpFacts.

Lemma Match_re_postal m g :
  Match re_postal m "" g ↔
  ∃ m1 m3, m = m1 +:+ g +:+ m3 ∧ all dot m1 = true ∧ digit_run5 g ∧ all dot m3 = true.
Proof.
  unfold re_postal, digit_run5. simpl. split.
  - intros (m1 & m2 & g1 & -> & [H1 ->] & d & m3 & g2 & -> & [[g0 [Hd _]] ->] & [H3 ->]).
    exists m1, m3. auto.
  - intros (m1 & m3 & -> & H1 & Hd & H3).
    exists m1, (g +:+ m3), "". repeat split; [exact H1|].
    exists g, m3, g. repeat split; eauto. 
Qed.

Lemma Find_re_postal_is_Some text :
  is_Some (FindStringSubmatch1 re_postal text) ↔ has_digit_run5 text.
Proof.
  rewrite Find_is_Some. split.
  - intros (a & m & b & g & -> & Hm).
    apply Match_re_postal in Hm as (m1 & m3 & -> & _ & Hd & _).
    exists (a +:+ m1), g, (m3 +:+ b). split; [|exact Hd].
    rewrite !app_assoc. reflexivity.
  - intros (a & d & b & -> & Hd).
    exists a, d, b, d. split; [reflexivity|].
    apply Match_re_postal. exists "", "". rewrite app_nil_r. auto.
Qed.

(** C9: [extractPostalCode] returns a run of five consecutive digits of the
    input when there is one (["10115"] for ["Berlin, 10115 Germany"]), and
    it fails exactly when the input has no such run. *)
Theorem extractPostalCode_spec :
  extractPostalCode "Berlin, 10115 Germany" = ("10115", None) ∧
  ∀ text,
    (has_digit_run5 text →
     ∃ d, extractPostalCode text = (d, None) ∧ digit_run5 d ∧ occurs d text) ∧
    ((∃ msg, extractPostalCode text = ("", Some msg)) ↔ ¬ has_digit_run5 text) ∧
    ((extractPostalCode text).2 ≠ None ↔ ¬ has_digit_run5 text).
Proof.
  split; [reflexivity|]. intros text. unfold extractPostalCode.
  pose proof (Find_re_postal_is_Some text) as Hiff.
  destruct (FindStringSubmatch1 re_postal text) as [g|] eqn:E.
  - assert (has_digit_run5 text) as Hrun by (apply Hiff; eauto).
    apply Find_Some_Match in E as (a & m & b & -> & Hm).
    apply Match_re_postal in Hm as (m1 & m3 & -> & _ & Hd & _).
    split; [|split].
    + intros _. exists g. repeat split; [apply Hd..|].
      exists (a +:+ m1), (m3 +:+ b). rewrite !app_assoc. reflexivity.
    + split; [intros [msg [=]]|intros H; destruct (H Hrun)].
    + simpl. split; [intros H; destruct (H eq_refl)|intros H; destruct (H Hrun)].
  - assert (¬ has_digit_run5 text) as Hno.
    { intros H. apply Hiff in H as [x Hx]. discriminate. }
    split; [|split].
    + intros H. destruct (Hno H).
    + split; [intros _; exact Hno|]. intros _. eauto.
    + simpl. split; [intros _; exact Hno|]. intros _. discriminate.
Qed.

Lemma extractPostalCode_spec_witness :
  ∃ d, extractPostalCode "x 12345" = (d, None) ∧ digit_run5 d ∧ occurs d "x 12345".
Proof.
  apply (proj2 extractPostalCode_spec "x 12345").
  exists "x ", "12345", "". split; [reflexivity|]. split; reflexivity.
Defined.

Lemma contains_byte_false c s :
  contains (String c "") s = false ↔ all (not_byte c) s = true.
Proof.
  induction s as [|d s IH]; simpl; [tauto|].
  unfold not_byte at 1. rewrite (Ascii.eqb_sym d c).
  destruct (Ascii.eqb c d); simpl; [split; discriminate|exact IH].
Qed.

Lemma no_NL_dot s : contains NL s = false ↔ all dot s = true.
Proof. apply contains_byte_false. Qed.

(** A run without line feed in front of a line feed: a prefix without line
    feed of the whole lies inside the run. *)
Lemma dot_prefix_inside x rest a b :
  x +:+ NL +:+ rest = a +:+ b → all dot x = true → all dot a = true →
  ∃ x2, x = a +:+ x2 ∧ b = x2 +:+ NL +:+ rest.
Proof.
  revert a. induction x as [|c x IH]; intros a E Hx Ha.
  - destruct a as [|d a]; [exists ""; rewrite !app_nil_l in *; auto|].
    injection E as <- _. simpl in Ha. discriminate.
  - destruct a as [|d a]; [exists (String c x); rewrite !app_nil_l in *; auto|].
    injection E as <- E. simpl in Hx, Ha.
    apply andb_prop in Hx as [_ Hx]. apply andb_prop in Ha as [_ Ha].
    destruct (IH a E Hx Ha) as (x2 & -> & ->). exists x2. auto.
Qed.

Lemma strip_byte_None c rest x :
  all (not_byte c) x = true → not_byte c LF = true →
  strip (String c "") (x +:+ NL +:+ rest) = None.
Proof.
  intros Hx Hc. destruct x as [|d x]; simpl in *.
  - unfold not_byte in Hc. rewrite Ascii.eqb_sym in Hc.
    destruct (Ascii.eqb c LF); [discriminate|reflexivity].
  - apply andb_prop in Hx as [Hd _]. unfold not_byte in Hd.
    rewrite Ascii.eqb_sym in Hd. destruct (Ascii.eqb c d); [discriminate|reflexivity].
Qed.

Lemma star_cons {R} p (k : string → option R) c s :
  star p k (String c s) =
  if p c then match star p k s with Some r => Some r | None => k (String c s) end
  else k (String c s).
Proof. reflexivity. Qed.

Lemma Find_re_number_last pre v rest :
  contains NL pre = false → contains ":" v = false → contains NL v = false →
  FindStringSubmatch1 re_number (pre +:+ ": " +:+ v +:+ NL +:+ rest) = Some v.
Proof.
  intros Hpre Hcol Hv. apply no_NL_dot in Hpre, Hv. apply contains_byte_false in Hcol.
  apply Find_here. unfold match_here, re_number. cbn [run].
  match goal with |- star dot ?k _ = _ => set (k0 := k) end.
  apply star_later; [exact Hpre|].
  change (": " +:+ v +:+ NL +:+ rest) with (String ":" (String " " (v +:+ NL +:+ rest))).
  rewrite star_cons. change (dot ":") with true. cbv iota.
  assert (star dot k0 (String " " (v +:+ NL +:+ rest)) = None) as ->.
  { apply star_None. intros a b E Ha.
    change (String " " (v +:+ NL +:+ rest)) with (String " " v +:+ NL +:+ rest) in E.
    apply dot_prefix_inside in E as (x2 & E & ->); [|exact Hv|exact Ha].
    assert (all (not_byte ":") x2 = true) as Hx2.
    { assert (all (not_byte ":") (String " " v) = true) as H by (simpl; exact Hcol).
      rewrite E, all_app in H. apply andb_prop in H as [_ H]. exact H. }
    unfold k0. rewrite (strip_byte_None ":" rest x2 Hx2 eq_refl).
    reflexivity. }
  unfold k0. cbn [strip]. change (Ascii.eqb ":" ":") with true. cbv iota.
  change (perl_s " ") with true. cbv iota.
  match goal with |- star dot ?k _ = _ => set (k1 := k) end.
  apply star_later; [exact Hv|].
  change (NL +:+ rest) with (String LF rest).
  rewrite star_stop by reflexivity.
  unfold k1. cbn [strip NL]. change (Ascii.eqb LF LF) with true. cbv iota.
  rewrite star_total. f_equal.
  change (String LF rest) with (NL +:+ rest).
  rewrite length_app, Nat.add_sub. apply take_app.
Qed.

Lemma Match_re_number m g :
  Match re_number m "" g →
  ∃ m1 w m3, m = m1 +:+ ":" +:+ String w (g +:+ NL +:+ m3)
             ∧ perl_s w = true ∧ contains NL g = false.
Proof.
  unfold re_number. simpl.
  intros (m1 & ? & ? & -> & [_ ->] & ? & ? & ? & -> & [-> ->] & ? & ? & ? & ->
          & [(w & -> & Hw) ->] & v & ? & ? & -> & [[? [Hv _]] ->]
          & ? & m3 & ? & -> & [-> ->] & [_ ->]).
  exists m1, w, m3. split; [reflexivity|]. split; [exact Hw|].
  apply no_NL_dot. exact Hv.
Qed.

Lemma Find_re_number_None text :
  contains ":" text = false ∨ (∀ a b, text = a +:+ ":" +:+ b → contains NL b = false) →
  FindStringSubmatch1 re_number text = None.
Proof.
  intros H. destruct (FindStringSubmatch1 re_number text) as [g|] eqn:E; [|reflexivity].
  exfalso. apply Find_Some_Match in E as (a & m & b & -> & Hm).
  apply Match_re_number in Hm as (m1 & w & m3 & -> & _ & _).
  rewrite !app_assoc, <- (app_assoc a m1) in H. destruct H as [H|H].
  - rewrite contains_false in H. eapply H. reflexivity.
  - specialize (H _ _ eq_refl). rewrite contains_false in H.
    apply (H (String w g) (m3 +:+ b)). rewrite !app_cons, !app_assoc. reflexivity.
Qed.

Lemma Find_re_number_is_Some text :
  is_Some (FindStringSubmatch1 re_number text) ↔ colon_value_line text.
Proof.
  rewrite Find_is_Some. unfold colon_value_line. split.
  - intros (a & m & b & g & -> & Hm).
    apply Match_re_number in Hm as (m1 & w & m3 & -> & Hw & Hg).
    exists (a +:+ m1), w, g, (m3 +:+ b). split; [|auto].
    rewrite !app_assoc, !app_cons, !app_assoc. reflexivity.
  - intros (a & w & v & b & -> & Hw & Hv).
    exists a, (":" +:+ String w (v +:+ NL)), b, v. split.
    + rewrite !app_assoc, !app_cons, !app_assoc. reflexivity.
    + unfold re_number. simpl. apply no_NL_dot in Hv.
      exists "", (":" +:+ String w (v +:+ NL)), "". repeat split.
      exists ":", (String w (v +:+ NL)), "". repeat split.
      exists (String w ""), (v +:+ NL), "". repeat split; [eauto|].
      exists v, NL, v. repeat split; [eauto|].
      exists NL, "", v. repeat split.
Qed.

(** C6, as the spec states it, fails: of ["a: b: c\nd"] the text between the
    first colon-space and the line break is ["b: c"], but the greedy [.*] in
    front of the colon makes the expression capture ["c"]. *)
Lemma extractCompanyNumber_first_colon_refuted :
  contains ": " "a" = false ∧ contains NL "b: c" = false ∧
  extractCompanyNumber ("a" +:+ ": " +:+ "b: c" +:+ NL +:+ "d") = ("c", None) ∧
  extractCompanyNumber ("a" +:+ ": " +:+ "b: c" +:+ NL +:+ "d") ≠ ("b: c", None).
Proof. repeat split; try reflexivity. discriminate. Qed.

(** C6 (amended): [extractCompanyNumber "Foo: HRB 12345\nbar"] returns
    ["HRB 12345"]; in general, when the first line ends in a colon-space
    followed by a value without colon, the value is returned, that is the
    text between the last colon-space of the line and the line break; the
    extraction fails, with the input echoed in the message, exactly when the
    input has no colon followed by a white-space byte, a value and a line
    break, in particular when it has no colon, or no line break behind any
    of its colons. *)
Theorem extractCompanyNumber_spec :
  extractCompanyNumber ("Foo: HRB 12345" +:+ NL +:+ "bar") = ("HRB 12345", None) ∧
  (∀ pre v rest,
     contains NL pre = false → contains ":" v = false → contains NL v = false →
     extractCompanyNumber (pre +:+ ": " +:+ v +:+ NL +:+ rest) = (v, None)) ∧
  (∀ text,
     contains ":" text = false
     ∨ (∀ a b, text = a +:+ ":" +:+ b → contains NL b = false) →
     extractCompanyNumber text
     = ("", Some ("unable to extract company registration number: " +:+ text))) ∧
  (∀ text,
     extractCompanyNumber text
     = ("", Some ("unable to extract company registration number: " +:+ text))
     ↔ ¬ colon_value_line text) ∧
  (∀ text, (∃ v, extractCompanyNumber text = (v, None)) ↔ colon_value_line text).
Proof.
  split; [reflexivity|]. split; [|split; [|split]].
  - intros pre v rest Hpre Hcol Hv. unfold extractCompanyNumber.
    rewrite Find_re_number_last by assumption. reflexivity.
  - intros text H. unfold extractCompanyNumber.
    rewrite Find_re_number_None by assumption. reflexivity.
  - intros text. rewrite <- Find_re_number_is_Some. unfold extractCompanyNumber.
    destruct (FindStringSubmatch1 re_number text) as [g|].
    + split; [discriminate|]. intros H. destruct H. eauto.
    + split; [|reflexivity]. intros _ [x Hx]. discriminate.
  - intros text. rewrite <- Find_re_number_is_Some. unfold extractCompanyNumber.
    destruct (FindStringSubmatch1 re_number text) as [g|].
    + split; eauto.
    + split; [intros [v Hv]; discriminate|intros [x Hx]; discriminate].
Qed.

Lemma extractCompanyNumber_spec_witness :
  extractCompanyNumber ("a: b" +:+ ": " +:+ "c" +:+ NL +:+ "d") = ("c", None) ∧
  extractCompanyNumber "Foo HRB 12345"
  = ("", Some ("unable to extract company registration number: " +:+ "Foo HRB 12345")).
Proof.
  split.
  - apply (proj1 (proj2 extractCompanyNumber_spec) "a: b" "c" "d"); reflexivity.
  - apply (proj1 (proj2 (proj2 extractCompanyNumber_spec)) "Foo HRB 12345").
    left. reflexivity.
Defined.

Module SplitFacts.
Import Str StrFacts GoStrings.

Lemma Index_None s sub : Index s sub = None ↔ contains sub s = false.
Proof.
  induction s as [|c s IH]; simpl.
  - destruct (strip sub ""); split; congruence.
  - destruct (strip sub (String c s)); [split; discriminate|].
    rewrite <- IH. destruct (Index s sub); simpl; split; congruence.
Qed.

Lemma Index_is_Some s sub : contains sub s = true → is_Some (Index s sub).
Proof.
  intros H. destruct (Index s sub) eqn:E; [eauto|].
  apply Index_None in E. congruence.
Qed.

Lemma genSplit_nonempty n s sep : 0 < length (genSplit n s sep).
Proof. destruct n; simpl; [lia|]. destruct (Index s sep); simpl; lia. Qed.

(** Without the separator there is one section, the text itself. *)
Lemma Split_without s sep : contains sep s = false → Split s sep = [s].
Proof.
  intros H. apply Index_None in H. unfold Split.
  destruct (String.length s); simpl; [reflexivity|]. rewrite H. reflexivity.
Qed.

(** With a (non-empty) separator in it there are at least two. *)
Lemma Split_with s c sep :
  contains (String c sep) s = true → 2 ≤ length (Split s (String c sep)).
Proof.
  intros H. unfold Split. destruct s as [|d s].
  - simpl in H. discriminate.
  - destruct (Index_is_Some _ _ H) as [m Hm]. simpl String.length.
    cbn [genSplit]. rewrite Hm. simpl.
    pose proof (genSplit_nonempty (String.length s)
      (drop (m + S (String.length sep)) (String d s)) (String c sep)). lia.
Qed.

Lemma Split_first s sep : is_Some (Split s sep !! 0).
Proof.
  apply lookup_lt_is_Some. apply genSplit_nonempty.
Qed.

End SplitFacts.

Module CountFacts.
Import Str StrFacts GoStrings SplitFacts.

Lemma count_byte_app c a b : count_byte c (a +:+ b) = count_byte c a + count_byte c b.
Proof.
  induction a as [|x a IH]; [reflexivity|].
  rewrite app_cons. simpl. rewrite IH. lia.
Qed.

Lemma count_byte_0 c s : all (not_byte c) s = true → count_byte c s = 0.
Proof.
  induction s as [|x s IH]; simpl; [reflexivity|].
  intros H. apply andb_prop in H as [Hx Hs]. unfold not_byte in Hx.
  destruct (Ascii.eqb x c); [discriminate|]. rewrite (IH Hs). reflexivity.
Qed.

(** The first occurrence of a byte cuts the text in a part without it and
    the rest. *)
Lemma Index_byte c s m :
  Index s (String c "") = Some m →
  ∃ b, s = take m s +:+ String c b ∧ all (not_byte c) (take m s) = true
       ∧ drop (m + 1) s = b.
Proof.
  revert m. induction s as [|d s IH]; intros m; simpl; [discriminate|].
  destruct (Ascii.eqb_spec c d) as [->|Hne].
  - intros [= <-]. exists s. auto.
  - destruct (Index s (String c "")) as [m'|] eqn:E; [|discriminate].
    simpl. intros [= <-]. destruct (IH m' eq_refl) as (b & Hs & Ha & Hb).
    exists b. simpl. split; [rewrite app_cons, <- Hs; reflexivity|]. split; [|exact Hb].
    unfold not_byte at 1. destruct (Ascii.eqb_spec d c); [congruence|exact Ha].
Qed.

Lemma length_genSplit_byte c n s :
  String.length s ≤ n →
  length (genSplit n s (String c "")) = S (count_byte c s).
Proof.
  revert s. induction n as [|n IH]; intros s Hn.
  - destruct s; [reflexivity|simpl in Hn; lia].
  - simpl. destruct (Index s (String c "")) as [m|] eqn:E.
    + destruct (Index_byte c s m E) as (b & Hs & Ha & Hb).
      simpl. rewrite Hb. rewrite IH.
      * assert (count_byte c s = S (count_byte c b)) as ->; [|reflexivity].
        rewrite Hs at 1. rewrite count_byte_app, (count_byte_0 _ _ Ha). simpl.
        rewrite Ascii.eqb_refl. lia.
      * rewrite Hs in Hn. rewrite length_app in Hn. simpl in Hn. lia.
    + apply Index_None, contains_byte_false in E.
      rewrite (count_byte_0 _ _ E). reflexivity.
Qed.

(** The number of sections is one more than the number of separators. *)
Lemma length_Split_byte c s : length (Split s (String c "")) = S (count_byte c s).
Proof. apply length_genSplit_byte. lia. Qed.

End CountFacts.

(** * Facts about the effects *)

Module GoFacts.

Lemma add_events_nil st : add_events [] st = st.
Proof. destruct st. unfold add_events. simpl. rewrite List.app_nil_r. reflexivity. Qed.

Lemma add_events_app t1 t2 st : add_events t2 (add_events t1 st) = add_events (t1 ++ t2) st.
Proof. unfold add_events. simpl. rewrite List.app_assoc. reflexivity. Qed.

Lemma bind_Return {A B} (m : Go A) (f : A → Go B) st a st' :
  m st = (Return a, st') → (m ≫= f) st = f a st'.
Proof. intros H. unfold mbind, Go_bind, bind. rewrite H. reflexivity. Qed.

Lemma bind_Panic {A B} (m : Go A) (f : A → Go B) st p st' :
  m st = (Panic p, st') → (m ≫= f) st = (Panic p, st').
Proof. intros H. unfold mbind, Go_bind, bind. rewrite H. reflexivity. Qed.

Lemma bind_OutOfFuel {A B} (m : Go A) (f : A → Go B) st st' :
  m st = (OutOfFuel, st') → (m ≫= f) st = (OutOfFuel, st').
Proof. intros H. unfold mbind, Go_bind, bind. rewrite H. reflexivity. Qed.

Lemma index_Some {A} (l : list A) i x st : l !! i = Some x → index l i st = (Return x, st).
Proof. intros H. unfold index. rewrite H. reflexivity. Qed.

Lemma index_None {A} (l : list A) i st :
  length l ≤ i → index l i st = (Panic (IndexOutOfRange i (length l)), st).
Proof.
  intros H. unfold index. rewrite (lookup_ge_None_2 l i H). reflexivity.
Qed.

Lemma emit_add e st : emit e st = (Return tt, add_events [e] st).
Proof. reflexivity. Qed.

Lemma log_error_add err st : log_error err st = (Return tt, add_events (log_of err) st).
Proof. destruct err; simpl; [reflexivity|]. rewrite add_events_nil. reflexivity. Qed.

End GoFacts.

(** * The positional extractors *)

Import SplitFacts CountFacts GoFacts.

Lemma extractCompanyName_run text s0 st :
  Split text "," !! 0 = Some s0 →
  extractCompanyName text st =
  match Split s0 ": " !! 1 with
  | Some p1 => (Return (p1, None), st)
  | None => (Panic (IndexOutOfRange 1 (length (Split s0 ": "))), st)
  end.
Proof.
  intros H0. unfold extractCompanyName.
  rewrite (bind_Return _ _ _ _ _ (index_Some _ _ _ st H0)).
  unfold mbind, Go_bind, bind, index.
  destruct (Split s0 ": " !! 1); reflexivity.
Qed.

Lemma extractCity_run text st :
  extractCity text st =
  match Split text "," !! 1 with
  | Some s1 => (Return (s1, None), st)
  | None => (Panic (IndexOutOfRange 1 (length (Split text ","))), st)
  end.
Proof.
  unfold extractCity, mbind, Go_bind, bind, index.
  destruct (Split text "," !! 1); reflexivity.
Qed.

Lemma extractCompanyAddress_run text st :
  extractCompanyAddress text st =
  match Split text "," !! 2 with
  | Some s2 =>
      (Return (s2, None),
       if 35 <? String.length s2 then add_events [Stdout (text +:+ NL)] st else st)
  | None => (Panic (IndexOutOfRange 2 (length (Split text ","))), st)
  end.
Proof.
  unfold extractCompanyAddress, mbind, Go_bind, bind, index.
  destruct (Split text "," !! 2) as [s2|] eqn:E; [|reflexivity].
  unfold ret. cbn beta iota. destruct (35 <? String.length s2); reflexivity.
Qed.

(** C8, as the spec states it, fails: the sections are returned as they
    stand between the commas, so the city and the address of
    ["A: Foo, Berlin, Street 1"] come back with their leading blank. *)
Lemma extractCity_extractCompanyAddress_untrimmed :
  extractCity "A: Foo, Berlin, Street 1" initial = (Return (" Berlin", None), initial) ∧
  extractCity "A: Foo, Berlin, Street 1" initial ≠ (Return ("Berlin", None), initial) ∧
  extractCompanyAddress "A: Foo, Berlin, Street 1" initial
  = (Return (" Street 1", None), initial) ∧
  extractCompanyAddress "A: Foo, Berlin, Street 1" initial
  ≠ (Return ("Street 1", None), initial).
Proof. repeat split; try reflexivity; discriminate. Qed.

(** C10: the positional extractors never return a non-nil error, and they
    panic with an index out of range when the delimiters are missing:
    [extractCompanyName] when the first section has no [": "],
    [extractCity] when the input has no comma, [extractCompanyAddress] when
    it has fewer than three sections (fewer than two commas). *)
Theorem positional_extractors_fault (text : string) (st : State) :
  (∀ v err st', extractCompanyName text st = (Return (v, err), st') → err = None) ∧
  (∀ v err st', extractCity text st = (Return (v, err), st') → err = None) ∧
  (∀ v err st', extractCompanyAddress text st = (Return (v, err), st') → err = None) ∧
  (∃ s0, Split text "," !! 0 = Some s0 ∧
     (contains ": " s0 = false →
      extractCompanyName text st = (Panic (IndexOutOfRange 1 1), st))) ∧
  (contains "," text = false →
   extractCity text st = (Panic (IndexOutOfRange 1 1), st)) ∧
  (length (Split text ",") < 3 →
   extractCompanyAddress text st
   = (Panic (IndexOutOfRange 2 (length (Split text ","))), st)) ∧
  length (Split text ",") = S (count_byte "," text).
Proof.
  destruct (Split_first text ",") as [s0 H0].
  repeat split.
  - intros v err st'. rewrite (extractCompanyName_run text s0 st H0).
    destruct (Split s0 ": " !! 1); congruence.
  - intros v err st'. rewrite extractCity_run.
    destruct (Split text "," !! 1); congruence.
  - intros v err st'. rewrite extractCompanyAddress_run.
    destruct (Split text "," !! 2); congruence.
  - exists s0. split; [exact H0|]. intros Hno.
    rewrite (extractCompanyName_run text s0 st H0), (Split_without _ _ Hno).
    reflexivity.
  - intros Hno. rewrite extractCity_run, (Split_without _ _ Hno). reflexivity.
  - intros Hlt. rewrite extractCompanyAddress_run.
    rewrite (lookup_ge_None_2 (Split text ",") 2) by lia. reflexivity.
  - apply length_Split_byte.
Qed.

Lemma positional_extractors_fault_witness :
  extractCity "Acme GmbH" initial = (Panic (IndexOutOfRange 1 1), initial) ∧
  extractCompanyAddress "Acme GmbH, Berlin" initial
  = (Panic (IndexOutOfRange 2 (length (Split "Acme GmbH, Berlin" ","))), initial).
Proof.
  split.
  - apply (positional_extractors_fault "Acme GmbH" initial). reflexivity.
  - apply (positional_extractors_fault "Acme GmbH, Berlin" initial). simpl. lia.
Defined.

(** * The callbacks *)

Section Callbacks.
Variable ParseError_Error : list GoTime.chunk → string → string.

Local Abbreviation extractDate := (extractCompanyRegistrationDate ParseError_Error).
Local Abbreviation onFont' := (onFont ParseError_Error).

(** [onFont] up to the first access to [lines[5]]. *)
Lemma onFont_missing_line5 lines l0 st :
  lines !! 0 = Some l0 → length lines ≤ 5 →
  onFont' lines st =
  (Panic (IndexOutOfRange 5 (length lines)),
   add_events (log_of (extractCompanyNumber l0).2 ++ log_of (extractDate l0).2) st).
Proof.
  intros H0 Hlen. unfold onFont.
  rewrite bool_decide_true by (apply lookup_lt_Some in H0; lia).
  rewrite (bind_Return _ _ _ _ _ (index_Some _ _ _ _ H0)).
  destruct (extractCompanyNumber l0) as [num e1].
  rewrite (bind_Return _ _ _ _ _ (log_error_add _ _)).
  rewrite (bind_Return _ _ _ _ _ (index_Some _ _ _ _ H0)).
  destruct (extractDate l0) as [date e2].
  rewrite (bind_Return _ _ _ _ _ (log_error_add _ _)).
  rewrite (bind_Panic _ _ _ _ _ (index_None _ _ _ Hlen)).
  rewrite add_events_app. reflexivity.
Qed.

(** [onFont] on a page whose line 5 has all its sections. *)
Lemma onFont_run lines l0 l5 s0 name city addr st :
  lines !! 0 = Some l0 → lines !! 5 = Some l5 →
  Split l5 "," !! 0 = Some s0 → Split s0 ": " !! 1 = Some name →
  Split l5 "," !! 1 = Some city → Split l5 "," !! 2 = Some addr →
  onFont' lines st =
  (Return tt,
   mkState
     (trace st ++ (log_of (extractCompanyNumber l0).2 ++ log_of (extractDate l0).2
                   ++ (if 35 <? String.length addr then [Stdout (l5 +:+ NL)] else [])
                   ++ log_of (extractPostalCode l5).2))
     (visited st)
     (registrations st ++
      [mkReg (TrimSpace (extractCompanyNumber l0).1) (extractDate l0).1
             (TrimSpace addr) (TrimSpace city)
             (TrimSpace (extractPostalCode l5).1) (TrimSpace name)])).
Proof.
  intros H0 H5 Hs0 Hname Hcity Haddr. unfold onFont.
  rewrite bool_decide_true by (apply lookup_lt_Some in H0; lia).
  rewrite (bind_Return _ _ _ _ _ (index_Some _ _ _ _ H0)).
  destruct (extractCompanyNumber l0) as [num e1].
  rewrite (bind_Return _ _ _ _ _ (log_error_add _ _)).
  rewrite (bind_Return _ _ _ _ _ (index_Some _ _ _ _ H0)).
  destruct (extractDate l0) as [date e2].
  rewrite (bind_Return _ _ _ _ _ (log_error_add _ _)).
  rewrite (bind_Return _ _ _ _ _ (index_Some _ _ _ _ H5)).
  erewrite bind_Return
    by (rewrite (extractCompanyName_run _ _ _ Hs0), Hname; reflexivity).
  cbv beta iota.
  rewrite (bind_Return _ _ _ _ _ (log_error_add _ _)).
  rewrite (bind_Return _ _ _ _ _ (index_Some _ _ _ _ H5)).
  erewrite bind_Return by (rewrite extractCompanyAddress_run, Haddr; reflexivity).
  cbv beta iota.
  rewrite (bind_Return _ _ _ _ _ (log_error_add _ _)).
  rewrite (bind_Return _ _ _ _ _ (index_Some _ _ _ _ H5)).
  erewrite bind_Return by (rewrite extractCity_run, Hcity; reflexivity).
  cbv beta iota.
  rewrite (bind_Return _ _ _ _ _ (log_error_add _ _)).
  rewrite (bind_Return _ _ _ _ _ (index_Some _ _ _ _ H5)).
  destruct (extractPostalCode l5) as [postal e4].
  rewrite (bind_Return _ _ _ _ _ (log_error_add _ _)).
  unfold append_registration. cbn [log_of fst snd].
  rewrite !add_events_nil.
  destruct (35 <? String.length addr);
    rewrite ?add_events_nil, !add_events_app; unfold add_events; cbn;
    rewrite ?List.app_nil_r; reflexivity.
Qed.

(** C1 (the code faults): a page with at least one and fewer than six lines
    makes [onFont] panic at [lines[5]], after the number and the date of
    line 0 were extracted; no registration is appended. *)
Theorem onFont_short_page_panics lines st :
  0 < length lines → length lines < 6 →
  ∃ t, onFont' lines st = (Panic (IndexOutOfRange 5 (length lines)), add_events t st)
       ∧ registrations (add_events t st) = registrations st.
Proof.
  intros Hpos Hlt. destruct (lookup_lt_is_Some_2 lines 0 Hpos) as [l0 H0].
  eexists. split; [apply (onFont_missing_line5 lines l0 st H0); lia|reflexivity].
Qed.

(** C3: on a page with a line 0 and a line 5 that has its delimiters (two
    commas, and [": "] in the first section), [onFont] returns and appends
    exactly one registration; an extractor of the number, the date or the
    postal code that fails has its error logged and leaves its field at the
    zero value. *)
Theorem onFont_tolerates_field_failures lines l0 l5 st :
  lines !! 0 = Some l0 → lines !! 5 = Some l5 →
  2 ≤ count_byte "," l5 →
  (∀ s0, Split l5 "," !! 0 = Some s0 → contains ": " s0 = true) →
  ∃ reg t,
    onFont' lines st
    = (Return tt, mkState (trace st ++ t) (visited st) (registrations st ++ [reg])) ∧
    (∀ e, (extractCompanyNumber l0).2 = Some e →
          RegNo reg = "" ∧ In (LogPrintln e) t) ∧
    (∀ e, (extractDate l0).2 = Some e →
          Date reg = None ∧ In (LogPrintln e) t) ∧
    (∀ e, (extractPostalCode l5).2 = Some e →
          PostalCode reg = "" ∧ In (LogPrintln e) t).
Proof.
  intros H0 H5 Hcommas Hcolon.
  pose proof (length_Split_byte "," l5) as Hlen.
  destruct (lookup_lt_is_Some_2 (Split l5 ",") 0 ltac:(lia)) as [s0 Hs0].
  destruct (lookup_lt_is_Some_2 (Split l5 ",") 1 ltac:(lia)) as [city Hcity].
  destruct (lookup_lt_is_Some_2 (Split l5 ",") 2 ltac:(lia)) as [addr Haddr].
  pose proof (Split_with s0 ":" " " (Hcolon s0 Hs0)) as Hparts.
  destruct (lookup_lt_is_Some_2 (Split s0 ": ") 1 ltac:(lia)) as [name Hname].
  eexists _, _. split; [apply (onFont_run lines l0 l5 s0 name city addr st); assumption|].
  cbn [RegNo Date PostalCode]. repeat split.
  - unfold extractCompanyNumber in *.
    destruct (FindStringSubmatch1 re_number l0); [discriminate|reflexivity].
  - rewrite H. apply in_or_app. left. left. reflexivity.
  - unfold extractCompanyRegistrationDate in *.
    destruct (FindStringSubmatch1 re_date l0) as [m1|]; [|reflexivity].
    destruct (GoTime.Parse _ _); [discriminate|reflexivity].
  - rewrite H. apply in_or_app. right. apply in_or_app. left. left. reflexivity.
  - unfold extractPostalCode in *.
    destruct (FindStringSubmatch1 re_postal l5); [discriminate|reflexivity].
  - rewrite H. do 3 (apply in_or_app; right). left. reflexivity.
Qed.

End Callbacks.

Lemma onFont_short_page_panics_witness :
  ∃ t, onFont (λ _ value, value) ["Nr: HRB 1"; "b"; "c"] initial
       = (Panic (IndexOutOfRange 5 3), add_events t initial)
       ∧ registrations (add_events t initial) = registrations initial.
Proof.
  apply (onFont_short_page_panics (λ _ value, value) ["Nr: HRB 1"; "b"; "c"] initial);
    simpl; lia.
Defined.

Lemma onFont_tolerates_field_failures_witness :
  ∃ reg t,
    onFont (λ _ value, value) ["x"; "b"; "c"; "d"; "e"; "n: Acme, Ulm, Weg 1"] initial
    = (Return tt, mkState (trace initial ++ t) (visited initial)
                          (registrations initial ++ [reg])) ∧
    (∀ e, (extractCompanyNumber "x").2 = Some e →
          RegNo reg = "" ∧ In (LogPrintln e) t) ∧
    (∀ e, (extractCompanyRegistrationDate (λ _ value, value) "x").2 = Some e →
          Date reg = None ∧ In (LogPrintln e) t) ∧
    (∀ e, (extractPostalCode "n: Acme, Ulm, Weg 1").2 = Some e →
          PostalCode reg = "" ∧ In (LogPrintln e) t).
Proof.
  apply (onFont_tolerates_field_failures (λ _ value, value)
           ["x"; "b"; "c"; "d"; "e"; "n: Acme, Ulm, Weg 1"] "x" "n: Acme, Ulm, Weg 1"
           initial); [reflexivity|reflexivity|simpl; lia|].
  intros s0 [= <-]. reflexivity.
Defined.

(** C8 (amended): on ["A: Foo, Berlin, Street 1"] [extractCity] returns
    [" Berlin"] and [extractCompanyAddress] returns [" Street 1"], the second
    and the third section verbatim, with the blank behind the comma; the
    record parser, on a page whose row 5 is this line, stores them trimmed, as
    the city ["Berlin"] and the address ["Street 1"], and on every page
    whose row 5 has its sections it stores [TrimSpace] of the second and of
    the third section; for every input with at least three sections the
    third is returned with a nil error, and when it is longer than 35 bytes
    the input is printed first. *)
Theorem extractCity_extractCompanyAddress_spec :
  (∀ st, extractCity "A: Foo, Berlin, Street 1" st = (Return (" Berlin", None), st)) ∧
  (∀ st, extractCompanyAddress "A: Foo, Berlin, Street 1" st
         = (Return (" Street 1", None), st)) ∧
  TrimSpace " Berlin" = "Berlin" ∧ TrimSpace " Street 1" = "Street 1" ∧
  (∀ text s1 st, Split text "," !! 1 = Some s1 →
     extractCity text st = (Return (s1, None), st)) ∧
  (∀ text s2 st, Split text "," !! 2 = Some s2 →
     extractCompanyAddress text st
     = (Return (s2, None),
        if 35 <? String.length s2 then add_events [Stdout (text +:+ NL)] st else st)) ∧
  (∀ PE lines l0 st,
     lines !! 0 = Some l0 → lines !! 5 = Some "A: Foo, Berlin, Street 1" →
     ∃ reg t,
       onFont PE lines st
       = (Return tt, mkState (trace st ++ t) (visited st) (registrations st ++ [reg]))
       ∧ City reg = "Berlin" ∧ Address reg = "Street 1"
       ∧ ∀ text, ¬ In (Stdout text) t) ∧
  (∀ PE lines l0 l5 s0 name s1 s2 st,
     lines !! 0 = Some l0 → lines !! 5 = Some l5 →
     Split l5 "," !! 0 = Some s0 → Split s0 ": " !! 1 = Some name →
     Split l5 "," !! 1 = Some s1 → Split l5 "," !! 2 = Some s2 →
     ∃ reg t,
       onFont PE lines st
       = (Return tt, mkState (trace st ++ t) (visited st) (registrations st ++ [reg]))
       ∧ City reg = TrimSpace s1 ∧ Address reg = TrimSpace s2
       ∧ (35 < String.length s2 → In (Stdout (l5 +:+ NL)) t)).
Proof.
  split; [|split; [|split; [|split; [|split; [|split; [|split]]]]]];
    try reflexivity.
  - intros text s1 st H. rewrite extractCity_run, H. reflexivity.
  - intros text s2 st H. rewrite extractCompanyAddress_run, H. reflexivity.
  - intros PE lines l0 st H0 H5. eexists _, _. split.
    + apply (onFont_run PE lines l0 "A: Foo, Berlin, Street 1" "A: Foo" "Foo"
               " Berlin" " Street 1" st H0 H5); reflexivity.
    + cbn [City Address]. split; [reflexivity|]. split; [reflexivity|].
      intros text Hin. apply in_app_or in Hin as [Hin|Hin].
      { destruct (extractCompanyNumber l0) as [? [?|]]; simpl in Hin;
          intuition congruence. }
      apply in_app_or in Hin as [Hin|Hin].
      { destruct (extractCompanyRegistrationDate PE l0) as [? [?|]]; simpl in Hin;
          intuition congruence. }
      vm_compute in Hin. intuition congruence.
  - intros PE lines l0 l5 s0 name s1 s2 st H0 H5 Hs0 Hname Hs1 Hs2.
    eexists _, _. split.
    + apply (onFont_run PE lines l0 l5 s0 name s1 s2 st); assumption.
    + cbn [City Address]. split; [reflexivity|]. split; [reflexivity|].
      intros Hlong. apply Nat.ltb_lt in Hlong. rewrite Hlong.
      do 2 (apply in_or_app; right). left. reflexivity.
Qed.

Lemma extractCity_extractCompanyAddress_spec_witness :
  extractCity "a,b,c" initial = (Return ("b", None), initial) ∧
  extractCompanyAddress "x,y,0123456789012345678901234567890123456789" initial
  = (Return ("0123456789012345678901234567890123456789", None),
     add_events [Stdout ("x,y,0123456789012345678901234567890123456789" +:+ NL)] initial) ∧
  ∃ reg t,
    onFont (λ _ value, value) ["x"; "b"; "c"; "d"; "e"; "A: Foo, Berlin, Street 1"] initial
    = (Return tt, mkState (trace initial ++ t) (visited initial)
                          (registrations initial ++ [reg]))
    ∧ City reg = "Berlin" ∧ Address reg = "Street 1"
    ∧ ∀ text, ¬ In (Stdout text) t.
Proof.
  split; [|split].
  - apply (proj1 (proj2 (proj2 (proj2 (proj2 extractCity_extractCompanyAddress_spec))))).
    reflexivity.
  - apply (proj1 (proj2 (proj2 (proj2 (proj2 (proj2
             extractCity_extractCompanyAddress_spec)))))
             "x,y,0123456789012345678901234567890123456789"
             "0123456789012345678901234567890123456789" initial).
    reflexivity.
  - apply (proj1 (proj2 (proj2 (proj2 (proj2 (proj2 (proj2
             extractCity_extractCompanyAddress_spec))))))
             (λ _ value, value) ["x"; "b"; "c"; "d"; "e"; "A: Foo, Berlin, Street 1"]
             "x" initial); reflexivity.
Defined.

(** * Following the links *)



Lemma bind_ret_l {B} (f : unit → Go B) st : (ret tt ≫= f) st = f tt st.
Proof. reflexivity. Qed.


Lemma onLink_Some V href regID :
  FindStringSubmatch1 re_rb_id href = Some regID → onLink V href = V (regURL regID).
Proof. intros E. unfold onLink. rewrite E. reflexivity. Qed.

Lemma onLink_None V href :
  FindStringSubmatch1 re_rb_id href = None → onLink V href = ret tt.
Proof. intros E. unfold onLink. rewrite E. reflexivity. Qed.



(** Links the pattern does not match are passed over. *)
Lemma forEach_onLink_skip V skipped hrefs st :
  Forall (λ h, FindStringSubmatch1 re_rb_id h = None) skipped →
  forEach (skipped ++ hrefs) (onLink V) st = forEach hrefs (onLink V) st.
Proof.
  induction 1 as [|h l Hh _ IH]; [reflexivity|].
  rewrite <- List.app_comm_cons. cbn [forEach].
  rewrite (onLink_None V h Hh), bind_ret_l. exact IH.
Qed.

Lemma forEach_onLink_none V hrefs st :
  Forall (λ h, FindStringSubmatch1 re_rb_id h = None) hrefs →
  forEach hrefs (onLink V) st = (Return tt, st).
Proof.
  intros H. rewrite <- (List.app_nil_r hrefs) at 1.
  rewrite (forEach_onLink_skip V hrefs [] st H). reflexivity.
Qed.

(** * The trace only grows *)

Module TraceFacts.

Lemma appends_ret {A} (a : A) : appends (ret a).
Proof. intros st o st' [= <- <-]. exists []. rewrite List.app_nil_r. reflexivity. Qed.

Lemma appends_raise {A} p : appends (@raise A p).
Proof. intros st o st' [= <- <-]. exists []. rewrite List.app_nil_r. reflexivity. Qed.

Lemma appends_out_of_fuel {A} : appends (@out_of_fuel A).
Proof. intros st o st' [= <- <-]. exists []. rewrite List.app_nil_r. reflexivity. Qed.

Lemma appends_emit e : appends (emit e).
Proof. intros st o st' [= <- <-]. exists [e]. reflexivity. Qed.

Lemma appends_bind {A B} (m : Go A) (f : A → Go B) :
  appends m → (∀ a, appends (f a)) → appends (m ≫= f).
Proof.
  intros Hm Hf st o st'. unfold mbind, Go_bind, bind.
  destruct (m st) as [[a|p|] st1] eqn:E; destruct (Hm _ _ _ E) as [t1 H1].
  - intros H. destruct (Hf a _ _ _ H) as [t2 H2]. exists (t1 ++ t2).
    rewrite H2, H1, List.app_assoc. reflexivity.
  - intros [= <- <-]. eauto.
  - intros [= <- <-]. eauto.
Qed.

Lemma appends_index {A} (l : list A) i : appends (index l i).
Proof. unfold index. destruct (l !! i); [apply appends_ret|apply appends_raise]. Qed.

Lemma appends_log_error err : appends (log_error err).
Proof. destruct err; [apply appends_emit|apply appends_ret]. Qed.

Lemma appends_forEach {A} (l : list A) (f : A → Go unit) :
  (∀ x, appends (f x)) → appends (forEach l f).
Proof.
  intros Hf. induction l as [|x l IH]; simpl; [apply appends_ret|].
  apply appends_bind; [apply Hf|intros _; exact IH].
Qed.

Ltac appends_prim :=
  first [ apply appends_ret | apply appends_raise | apply appends_out_of_fuel
        | apply appends_emit | apply appends_index | apply appends_log_error ].

Ltac appends_with tac :=
  repeat first
    [ apply appends_bind; [|intros ?]
    | appends_prim
    | tac
    | match goal with
      | |- appends (match ?x with _ => _ end) => destruct x
      | |- appends (if ?b then _ else _) => destruct b
      end ].

Ltac appends := appends_with fail.

Lemma appends_extractCompanyName text : appends (extractCompanyName text).
Proof. unfold extractCompanyName. appends. Qed.

Lemma appends_extractCompanyAddress text : appends (extractCompanyAddress text).
Proof. unfold extractCompanyAddress, Println. appends. Qed.

Lemma appends_extractCity text : appends (extractCity text).
Proof. unfold extractCity. appends. Qed.

Lemma appends_append_registration reg : appends (append_registration reg).
Proof. intros st o st' [= <- <-]. exists []. simpl. rewrite List.app_nil_r. reflexivity. Qed.

Section Engine.
Variable ParseError_Error : list GoTime.chunk → string → string.
Variable serve : request → option Page.

Lemma appends_onFont lines : appends (onFont ParseError_Error lines).
Proof.
  unfold onFont.
  appends_with ltac:(first
    [ apply appends_extractCompanyName | apply appends_extractCompanyAddress
    | apply appends_extractCity | apply appends_append_registration ]).
Qed.

Lemma appends_onLink V href : (∀ url, appends (V url)) → appends (onLink V href).
Proof. intros HV. unfold onLink. destruct (_ : option string); [apply HV|apply appends_ret]. Qed.

Lemma appends_c_Visit_with sc url :
  (∀ r, appends (sc r)) → appends (c_Visit_with sc url).
Proof.
  intros Hsc st o st'. unfold c_Visit_with. case_bool_decide.
  - intros [= <- <-]. exists []. rewrite List.app_nil_r. reflexivity.
  - intros E. apply Hsc in E. exact E.
Qed.

Lemma appends_scrape fuel : ∀ r, appends (scrape ParseError_Error serve fuel r).
Proof.
  induction fuel as [|n IH]; intros r; cbn [scrape]; [apply appends_out_of_fuel|].
  apply appends_bind; [apply appends_emit|intros _].
  destruct (serve r) as [page|]; [|apply appends_ret].
  apply appends_bind; [|intros _].
  - apply appends_forEach. intros href. apply appends_onLink. intros url.
    apply appends_c_Visit_with. exact IH.
  - apply appends_forEach. intros lines. apply appends_onFont.
Qed.

(** The search request is the first thing [collectRegistrations] does. *)
Lemma collectRegistrations_posts fuel startDate endDate st :
  ∃ o st' t,
    collectRegistrations ParseError_Error serve (S fuel) startDate endDate st = (o, st')
    ∧ trace st' = trace st ++ Http (POST searchURL (data startDate endDate)) :: t.
Proof.
  unfold collectRegistrations, c_Post. cbn [scrape].
  set (body := match serve _ with Some _ => _ | None => _ end).
  assert (appends body) as Hbody.
  { unfold body. destruct (serve _) as [page|]; [|apply appends_ret].
    apply appends_bind; [|intros _].
    - apply appends_forEach. intros href. apply appends_onLink. intros url.
      apply appends_c_Visit_with. apply appends_scrape.
    - apply appends_forEach. intros lines. apply appends_onFont. }
  unfold mbind, Go_bind, bind, emit. cbn [trace visited registrations].
  destruct (body _) as [[[]|p|] st1] eqn:E; apply Hbody in E as [t Ht];
    cbn [trace] in Ht; rewrite <- List.app_assoc in Ht;
    eexists _, _, t; (split; [reflexivity|]); simpl; exact Ht.
Qed.

End Engine.

End TraceFacts.

Import TraceFacts.

(** * The requests a page causes *)

Module RequestFacts.

Lemma requests_app t1 t2 : requests (t1 ++ t2) = requests t1 ++ requests t2.
Proof.
  induction t1 as [|[text|line|r] t1 IH]; simpl; [reflexivity|exact IH|exact IH|].
  rewrite IH. reflexivity.
Qed.

Lemma quiet_same {A} (m : Go A) :
  (∀ st o st', m st = (o, st') → st' = st ∧ o ≠ OutOfFuel) → quiet m.
Proof.
  intros H st o st' E. destruct (H _ _ _ E) as [-> Ho].
  split; [reflexivity|]. split; [exact Ho|].
  exists []. rewrite List.app_nil_r. split; reflexivity.
Qed.

Lemma quiet_ret {A} (a : A) : quiet (ret a).
Proof. apply quiet_same. intros st o st' [= <- <-]. split; [reflexivity|discriminate]. Qed.

Lemma quiet_raise {A} p : quiet (@raise A p).
Proof. apply quiet_same. intros st o st' [= <- <-]. split; [reflexivity|discriminate]. Qed.

Lemma quiet_Stdout text : quiet (emit (Stdout text)).
Proof.
  intros st o st' [= <- <-]. split; [reflexivity|]. split; [discriminate|].
  exists [Stdout text]. split; reflexivity.
Qed.

Lemma quiet_LogPrintln line : quiet (emit (LogPrintln line)).
Proof.
  intros st o st' [= <- <-]. split; [reflexivity|]. split; [discriminate|].
  exists [LogPrintln line]. split; reflexivity.
Qed.

Lemma quiet_bind {A B} (m : Go A) (f : A → Go B) :
  quiet m → (∀ a, quiet (f a)) → quiet (m ≫= f).
Proof.
  intros Hm Hf st o st'. unfold mbind, Go_bind, bind.
  destruct (m st) as [[a|p|] st1] eqn:E;
    destruct (Hm _ _ _ E) as (V1 & O1 & t1 & H1 & R1).
  - intros H. destruct (Hf a _ _ _ H) as (V2 & O2 & t2 & H2 & R2).
    split; [congruence|]. split; [exact O2|].
    exists (t1 ++ t2). rewrite H2, H1, List.app_assoc, requests_app, R1, R2.
    split; reflexivity.
  - intros [= <- <-]. split; [exact V1|]. split; [discriminate|]. eauto.
  - contradiction.
Qed.

Lemma quiet_index {A} (l : list A) i : quiet (index l i).
Proof. unfold index. destruct (l !! i); [apply quiet_ret|apply quiet_raise]. Qed.

Lemma quiet_log_error err : quiet (log_error err).
Proof. destruct err; [apply quiet_LogPrintln|apply quiet_ret]. Qed.


Lemma quiet_append_registration reg : quiet (append_registration reg).
Proof.
  intros st o st' [= <- <-]. split; [reflexivity|]. split; [discriminate|].
  exists []. simpl. rewrite List.app_nil_r. split; reflexivity.
Qed.

Ltac quiet_prim :=
  first [ apply quiet_ret | apply quiet_raise | apply quiet_Stdout
        | apply quiet_LogPrintln | apply quiet_index | apply quiet_log_error
        | apply quiet_append_registration ].

Ltac quiet :=
  repeat first
    [ apply quiet_bind; [|intros ?]
    | quiet_prim
    | match goal with
      | |- quiet (match ?x with _ => _ end) => destruct x
      | |- quiet (if ?b then _ else _) => destruct b
      end ].

Section Engine.
Variable ParseError_Error : list GoTime.chunk → string → string.
Variable serve : request → option Page.


Local Abbreviation scrape' := (scrape ParseError_Error serve).
Local Abbreviation c_Visit' := (c_Visit ParseError_Error serve).








End Engine.
End RequestFacts.




(** * The search request and the order of validation *)

(** C5, as the spec states it, fails: the scope flag and the subject code
    are not empty strings; they are sent as ["false"] and ["0"]. *)
Lemma data_filter_block_not_all_empty :
  data (GoTime.mkTime 2024 1 5 0 0) (GoTime.mkTime 2024 1 6 0 0) !! "all" = Some "false" ∧
  data (GoTime.mkTime 2024 1 5 0 0) (GoTime.mkTime 2024 1 6 0 0) !! "all" ≠ Some "" ∧
  data (GoTime.mkTime 2024 1 5 0 0) (GoTime.mkTime 2024 1 6 0 0) !! "gegenstand" = Some "0" ∧
  data (GoTime.mkTime 2024 1 5 0 0) (GoTime.mkTime 2024 1 6 0 0) !! "gegenstand" ≠ Some "".
Proof. repeat split; try reflexivity; discriminate. Qed.

(** C5 (amended): for every pair of dates the search is posted with exactly
    nineteen parameters: the search mode, the button label, day, month and
    year of both dates in decimal, empty strings for jurisdiction, court,
    court name, page, the two sort fields, category and file reference, the
    scope flag ["false"], the subject code ["0"] and the ordering code
    ["4"]. *)
Theorem data_spec (startDate endDate : GoTime.Time) :
  let d := data startDate endDate in
  size d = 19 ∧
  d !! "suchart" = Some "uneingeschr" ∧
  d !! "button" = Some "Suche+starten" ∧
  d !! "vt" = Some (Sprintf_d (GoTime.Day startDate)) ∧
  d !! "vm" = Some (Sprintf_d (GoTime.Month startDate)) ∧
  d !! "vj" = Some (Sprintf_d (GoTime.Year startDate)) ∧
  d !! "bt" = Some (Sprintf_d (GoTime.Day endDate)) ∧
  d !! "bm" = Some (Sprintf_d (GoTime.Month endDate)) ∧
  d !! "bj" = Some (Sprintf_d (GoTime.Year endDate)) ∧
  d !! "land" = Some "" ∧
  d !! "gericht" = Some "" ∧
  d !! "gericht_name" = Some "" ∧
  d !! "seite" = Some "" ∧
  d !! "l" = Some "" ∧
  d !! "r" = Some "" ∧
  d !! "all" = Some "false" ∧
  d !! "rubrik" = Some "" ∧
  d !! "az" = Some "" ∧
  d !! "gegenstand" = Some "0" ∧
  d !! "order" = Some "4" ∧
  Sprintf_d 5 = "5" ∧ Sprintf_d 12 = "12" ∧ Sprintf_d 2024 = "2024" ∧
  ∀ ParseError_Error serve fuel st,
    ∃ o st' t,
      collectRegistrations ParseError_Error serve (S fuel) startDate endDate st = (o, st')
      ∧ trace st' = trace st ++ Http (POST searchURL d) :: t.
Proof.
  cbv zeta. repeat split; try reflexivity.
  intros. apply collectRegistrations_posts.
Qed.

Section Main.
Variable ParseError_Error : list GoTime.chunk → string → string.
Variable json_Marshal : CompanyRegistration → string.
Variable Sprintf_v : option GoTime.Time → string.
Variable serve : request → option Page.

Local Abbreviation Action' := (Action ParseError_Error json_Marshal Sprintf_v serve).

(** C2 (the code validates too late): with dates that parse and an output
    selector that is neither ["csv"] nor ["jsonl"], [Action] first posts the
    search (and lets the collector follow the result links), and only when
    that has returned does it answer ["output not supported"]. *)
Theorem Action_rejects_output_after_the_crawl fuel output start_date end_date
    startDate endDate st :
  GoTime.Parse GoTime.layout_flag (TrimSpace start_date) = Some startDate →
  GoTime.Parse GoTime.layout_flag (TrimSpace end_date) = Some endDate →
  output ≠ "csv" → output ≠ "jsonl" →
  ∃ o st' t,
    Action' (S fuel) output start_date end_date st = (o, st')
    ∧ trace st' = trace st ++ Http (POST searchURL (data startDate endDate)) :: t
    ∧ (∀ err, o = Return err → err = Some "output not supported").
Proof.
  intros Hs He Hcsv Hjsonl. unfold Action. rewrite Hs, He.
  destruct (collectRegistrations_posts ParseError_Error serve fuel startDate endDate st)
    as (o & st1 & t & Hrun & Ht).
  unfold mbind, Go_bind, bind. rewrite Hrun.
  apply String.eqb_neq in Hcsv, Hjsonl.
  destruct o as [regs|p|].
  - rewrite Hcsv, Hjsonl. exists (Return (Some "output not supported")), st1, t.
    split; [reflexivity|]. split; [exact Ht|]. intros err [= <-]. reflexivity.
  - exists (Panic p), st1, t. split; [reflexivity|]. split; [exact Ht|]. discriminate.
  - exists OutOfFuel, st1, t. split; [reflexivity|]. split; [exact Ht|]. discriminate.
Qed.

End Main.

Lemma Action_rejects_output_after_the_crawl_witness :
  ∃ o st' t,
    Action (λ _ value, value) (λ _, "") (λ _, "") (λ _, None) 1
           "xml" "2024-01-01" "2024-01-02" initial = (o, st')
    ∧ trace st' = trace initial
        ++ Http (POST searchURL (data (GoTime.mkTime 2024 1 1 0 0) (GoTime.mkTime 2024 1 2 0 0)))
        :: t
    ∧ (∀ err, o = Return err → err = Some "output not supported").
Proof.
  apply (Action_rejects_output_after_the_crawl (λ _ value, value) (λ _, "") (λ _, "")
           (λ _, None) 0 "xml" "2024-01-01" "2024-01-02"
           (GoTime.mkTime 2024 1 1 0 0) (GoTime.mkTime 2024 1 2 0 0) initial);
    [reflexivity|reflexivity|discriminate|discriminate].
Defined.

(** The run of C2's failing input, with a service that answers nothing: the
    search has been sent when the selector is rejected. *)
Example Action_xml_run :
  Action (λ _ value, value) (λ _, "") (λ _, "") (λ _, None) 1
         "xml" "2024-01-01" "2024-01-02" initial
  = (Return (Some "output not supported"),
     mkState
       [Http (POST searchURL (data (GoTime.mkTime 2024 1 1 0 0) (GoTime.mkTime 2024 1 2 0 0)))]
       ∅ []).
Proof. reflexivity. Qed.

(** * The announcement date *)

Module TimeFacts.
Import Str StrFacts GoTime Spec.

Lemma getnum_fixed s n r :
  getnum s true = Some (n, r) ↔
  ∃ a b, s = String a (String b r) ∧ isDigit a = true ∧ isDigit b = true ∧ n = two a b.
Proof.
  unfold getnum, two. split.
  - destruct s as [|a [|b s]]; try discriminate.
    + destruct (isDigit a); discriminate.
    + destruct (isDigit a) eqn:Ha; [|discriminate].
      destruct (isDigit b) eqn:Hb; [|discriminate].
      intros [= <- <-]. exists a, b. auto.
  - intros (a & b & -> & Ha & Hb & ->). rewrite Ha, Hb. reflexivity.
Qed.

Lemma getnum_free s n r :
  getnum s false = Some (n, r) ↔
  (∃ a b, s = String a (String b r) ∧ isDigit a = true ∧ isDigit b = true ∧ n = two a b)
  ∨ (∃ a, s = String a r ∧ isDigit a = true ∧ n = digit a
          ∧ ∀ b r', r = String b r' → isDigit b = false).
Proof.
  unfold getnum, two. split.
  - destruct s as [|a [|b s]]; try discriminate.
    + destruct (isDigit a) eqn:Ha; [|discriminate].
      intros [= <- <-]. right. exists a. repeat split; auto. discriminate.
    + destruct (isDigit a) eqn:Ha; [|discriminate].
      destruct (isDigit b) eqn:Hb.
      * intros [= <- <-]. left. exists a, b. auto.
      * intros [= <- <-]. right. exists a. repeat split; auto.
        intros b' r' [= <- <-]. exact Hb.
  - intros [(a & b & -> & Ha & Hb & ->)|(a & -> & Ha & -> & Hr)].
    + rewrite Ha, Hb. reflexivity.
    + rewrite Ha. destruct r as [|b r']; [reflexivity|].
      rewrite (Hr b r' eq_refl). reflexivity.
Qed.

Lemma getyear_Some s n r :
  getyear s = Some (n, r) ↔
  ∃ a b c d, s = String a (String b (String c (String d r)))
             ∧ all isDigit (bytes [a; b; c; d]) = true ∧ n = four a b c d.
Proof.
  unfold getyear, four. split.
  - destruct s as [|a [|b [|c [|d s]]]]; try discriminate.
    destruct (isDigit a && isDigit b && isDigit c && isDigit d) eqn:H; [|discriminate].
    intros [= <- <-]. exists a, b, c, d. repeat split. simpl.
    rewrite andb_true_r, !andb_assoc. exact H.
  - intros (a & b & c & d & -> & H & ->). simpl in H.
    rewrite andb_true_r, !andb_assoc in H. rewrite H. reflexivity.
Qed.

Lemma skip_byte c s r :
  Ascii.eqb c " " = false → skip s (String c "") = Some r ↔ s = String c r.
Proof.
  intros Hc. unfold skip. simpl. rewrite Hc. destruct s as [|v s].
  - split; discriminate.
  - destruct (Ascii.eqb_spec v c) as [->|Hne].
    + split; [intros [= ->]; reflexivity|intros [= ->]; reflexivity].
    + split; [discriminate|]. intros [= -> _]. congruence.
Qed.

Lemma cutspace_spec s :
  ∃ sp, s = sp +:+ cutspace s ∧ all (Ascii.eqb " ") sp = true
        ∧ ∀ r', cutspace s ≠ String " " r'.
Proof.
  induction s as [|c s (sp & Hs & Hsp & Hr)]; simpl.
  - exists "". repeat split. discriminate.
  - destruct (Ascii.eqb_spec c " ") as [->|Hne].
    + exists (String " " sp). rewrite app_cons, <- Hs. repeat split; auto.
    + exists "". repeat split. intros r' [= ? _]. congruence.
Qed.

Lemma cutspace_app sp r :
  all (Ascii.eqb " ") sp = true → (∀ r', r ≠ String " " r') → cutspace (sp +:+ r) = r.
Proof.
  intros Hsp Hr. induction sp as [|c sp IH]; simpl.
  - rewrite app_nil_l. destruct r as [|d r]; [reflexivity|]. simpl.
    destruct (Ascii.eqb_spec d " ") as [->|_]; [destruct (Hr r eq_refl)|reflexivity].
  - cbn [all] in Hsp. apply andb_prop in Hsp as [Hc Hsp].
    apply Ascii.eqb_eq in Hc as <-. simpl. apply IH. exact Hsp.
Qed.

Lemma skip_space s r :
  skip s " " = Some r ↔ (s = "" ∧ r = "") ∨ (∃ s', s = String " " s' ∧ r = cutspace s').
Proof.
  unfold skip. simpl. destruct s as [|v s].
  - split; [intros [= <-]; auto|]. intros [[_ ->]|(s' & [=] & _)]. reflexivity.
  - destruct (Ascii.eqb_spec v " ") as [->|Hne].
    + simpl. split; [intros [= <-]; right; eauto|].
      intros [[[=] _]|(s' & [= <-] & ->)]. reflexivity.
    + split; [discriminate|]. intros [[[=] _]|(s' & [= -> _] & _)]. congruence.
Qed.

Lemma parse_chunks_cons c l v t :
  parse_chunks (c :: l) v t =
  match parse_chunk c v t with
  | Some (t', v') => parse_chunks l v' t'
  | None => None
  end.
Proof. cbn [parse_chunks]. destruct (parse_chunk c v t) as [[? ?]|]; reflexivity. Qed.

Lemma parse_stdZeroDay v t t' v' :
  parse_chunk stdZeroDay v t = Some (t', v') ↔
  ∃ a b, v = String a (String b v') ∧ isDigit a = true ∧ isDigit b = true
         ∧ t' = mkTime (Year t) (Month t) (two a b) (Hour t) (Minute t).
Proof.
  cbn [parse_chunk]. split.
  - destruct (getnum v true) as [[n r]|] eqn:E; [|discriminate].
    apply getnum_fixed in E as (a & b & -> & Ha & Hb & ->).
    intros [= <- <-]. exists a, b. auto.
  - intros (a & b & -> & Ha & Hb & ->).
    rewrite (proj2 (getnum_fixed _ _ _)) by (exists a, b; auto). reflexivity.
Qed.

Lemma parse_stdZeroMonth v t t' v' :
  parse_chunk stdZeroMonth v t = Some (t', v') ↔
  ∃ a b, v = String a (String b v') ∧ isDigit a = true ∧ isDigit b = true
         ∧ (1 ≤ two a b ≤ 12)%Z
         ∧ t' = mkTime (Year t) (two a b) (Day t) (Hour t) (Minute t).
Proof.
  cbn [parse_chunk]. split.
  - destruct (getnum v true) as [[n r]|] eqn:E; [|discriminate].
    apply getnum_fixed in E as (a & b & -> & Ha & Hb & ->). cbn.
    destruct ((two a b <=? 0) || (12 <? two a b))%Z eqn:Hr; [discriminate|].
    intros [= <- <-]. exists a, b. repeat split; auto; lia.
  - intros (a & b & -> & Ha & Hb & Hr & ->).
    rewrite (proj2 (getnum_fixed _ _ _)) by (exists a, b; auto). cbn.
    destruct ((two a b <=? 0) || (12 <? two a b))%Z eqn:Hr'; [lia|reflexivity].
Qed.

Lemma parse_stdZeroMinute v t t' v' :
  parse_chunk stdZeroMinute v t = Some (t', v') ↔
  ∃ a b, v = String a (String b v') ∧ isDigit a = true ∧ isDigit b = true
         ∧ (0 ≤ two a b < 60)%Z
         ∧ t' = mkTime (Year t) (Month t) (Day t) (Hour t) (two a b).
Proof.
  cbn [parse_chunk]. split.
  - destruct (getnum v true) as [[n r]|] eqn:E; [|discriminate].
    apply getnum_fixed in E as (a & b & -> & Ha & Hb & ->). cbn.
    destruct ((two a b <? 0) || (60 <=? two a b))%Z eqn:Hr; [discriminate|].
    intros [= <- <-]. exists a, b. repeat split; auto; lia.
  - intros (a & b & -> & Ha & Hb & Hr & ->).
    rewrite (proj2 (getnum_fixed _ _ _)) by (exists a, b; auto). cbn.
    destruct ((two a b <? 0) || (60 <=? two a b))%Z eqn:Hr'; [lia|reflexivity].
Qed.

Lemma parse_stdLongYear v t t' v' :
  parse_chunk stdLongYear v t = Some (t', v') ↔
  ∃ a b c d, v = String a (String b (String c (String d v')))
             ∧ all isDigit (bytes [a; b; c; d]) = true
             ∧ t' = mkTime (four a b c d) (Month t) (Day t) (Hour t) (Minute t).
Proof.
  cbn [parse_chunk]. split.
  - destruct (getyear v) as [[n r]|] eqn:E; [|discriminate].
    apply getyear_Some in E as (a & b & c & d & -> & H & ->).
    intros [= <- <-]. exists a, b, c, d. auto.
  - intros (a & b & c & d & -> & H & ->).
    rewrite (proj2 (getyear_Some _ _ _)) by (exists a, b, c, d; auto). reflexivity.
Qed.

Lemma parse_stdHour v t t' v' :
  parse_chunk stdHour v t = Some (t', v') ↔
  ∃ n, getnum v false = Some (n, v') ∧ (0 ≤ n < 24)%Z
       ∧ t' = mkTime (Year t) (Month t) (Day t) n (Minute t).
Proof.
  cbn [parse_chunk]. split.
  - destruct (getnum v false) as [[n r]|] eqn:E; [|discriminate]. cbn.
    destruct ((n <? 0) || (24 <=? n))%Z eqn:Hr; [discriminate|].
    intros [= <- <-]. exists n. repeat split; auto; lia.
  - intros (n & -> & Hr & ->). cbn.
    destruct ((n <? 0) || (24 <=? n))%Z eqn:Hr'; [lia|reflexivity].
Qed.

Lemma parse_Prefix lit v t t' v' :
  parse_chunk (Prefix lit) v t = Some (t', v') ↔ skip v lit = Some v' ∧ t' = t.
Proof.
  cbn [parse_chunk]. destruct (skip v lit) as [r|]; cbn.
  - split; [intros [= <- <-]; auto|intros [[= <-] ->]; reflexivity].
  - split; [discriminate|intros [[=] _]].
Qed.

Lemma isDigit_range c : isDigit c = true → (0 ≤ digit c ≤ 9)%Z.
Proof.
  unfold isDigit, digit. intros H. apply andb_prop in H as [H1 H2].
  apply Nat.leb_le in H1, H2. lia.
Qed.

Lemma isDigit_not_space c : isDigit c = true → c ≠ " "%char.
Proof. intros H ->. discriminate. Qed.

Lemma step_day a b v l t :
  isDigit a = true → isDigit b = true →
  parse_chunks (stdZeroDay :: l) (String a (String b v)) t
  = parse_chunks l v (mkTime (Year t) (Month t) (two a b) (Hour t) (Minute t)).
Proof.
  intros Ha Hb. rewrite parse_chunks_cons.
  rewrite (proj2 (parse_stdZeroDay (String a (String b v)) t
                    (mkTime (Year t) (Month t) (two a b) (Hour t) (Minute t)) v));
    [reflexivity|exists a, b; auto].
Qed.

Lemma step_month a b v l t :
  isDigit a = true → isDigit b = true → (1 ≤ two a b ≤ 12)%Z →
  parse_chunks (stdZeroMonth :: l) (String a (String b v)) t
  = parse_chunks l v (mkTime (Year t) (two a b) (Day t) (Hour t) (Minute t)).
Proof.
  intros Ha Hb Hr. rewrite parse_chunks_cons.
  rewrite (proj2 (parse_stdZeroMonth (String a (String b v)) t
                    (mkTime (Year t) (two a b) (Day t) (Hour t) (Minute t)) v));
    [reflexivity|exists a, b; auto].
Qed.

Lemma step_minute a b v l t :
  isDigit a = true → isDigit b = true → (two a b < 60)%Z →
  parse_chunks (stdZeroMinute :: l) (String a (String b v)) t
  = parse_chunks l v (mkTime (Year t) (Month t) (Day t) (Hour t) (two a b)).
Proof.
  intros Ha Hb Hr. rewrite parse_chunks_cons.
  rewrite (proj2 (parse_stdZeroMinute (String a (String b v)) t
                    (mkTime (Year t) (Month t) (Day t) (Hour t) (two a b)) v));
    [reflexivity|].
  exists a, b. repeat split; auto.
  apply isDigit_range in Ha, Hb. unfold two. lia.
Qed.

Lemma step_year a b c d v l t :
  isDigit a = true → isDigit b = true → isDigit c = true → isDigit d = true →
  parse_chunks (stdLongYear :: l) (String a (String b (String c (String d v)))) t
  = parse_chunks l v (mkTime (four a b c d) (Month t) (Day t) (Hour t) (Minute t)).
Proof.
  intros Ha Hb Hc Hd. rewrite parse_chunks_cons.
  rewrite (proj2 (parse_stdLongYear (String a (String b (String c (String d v)))) t
                    (mkTime (four a b c d) (Month t) (Day t) (Hour t) (Minute t)) v));
    [reflexivity|].
  exists a, b, c, d. repeat split. simpl. rewrite Ha, Hb, Hc, Hd. reflexivity.
Qed.

Lemma step_byte c v l t :
  Ascii.eqb c " " = false →
  parse_chunks (Prefix (String c "") :: l) (String c v) t = parse_chunks l v t.
Proof.
  intros Hc. rewrite parse_chunks_cons.
  rewrite (proj2 (parse_Prefix (String c "") (String c v) t t v)); [reflexivity|].
  split; [apply skip_byte; [exact Hc|reflexivity]|reflexivity].
Qed.

Lemma step_blanks sp v l t :
  all (Ascii.eqb " ") sp = true → (∀ r', v ≠ String " " r') →
  parse_chunks (Prefix " " :: l) (String " " (sp +:+ v)) t = parse_chunks l v t.
Proof.
  intros Hsp Hv. rewrite parse_chunks_cons.
  rewrite (proj2 (parse_Prefix " " (String " " (sp +:+ v)) t t v)); [reflexivity|].
  split; [|reflexivity]. apply skip_space. right. eexists. split; [reflexivity|].
  rewrite cutspace_app; auto.
Qed.

Lemma step_hour hh h c v l t :
  hour_text hh h → isDigit c = false → (h < 24)%Z →
  parse_chunks (stdHour :: l) (hh +:+ String c v) t
  = parse_chunks l (String c v) (mkTime (Year t) (Month t) (Day t) h (Minute t)).
Proof.
  intros Hhh Hc Hr. rewrite parse_chunks_cons.
  rewrite (proj2 (parse_stdHour (hh +:+ String c v) t
                    (mkTime (Year t) (Month t) (Day t) h (Minute t)) (String c v)));
    [reflexivity|].
  exists h. split; [|split; [|reflexivity]].
  - apply getnum_free.
    destruct Hhh as [(a & -> & Ha & ->)|(a & b & -> & Ha & Hb & ->)].
    + right. exists a. repeat split; auto. intros b r' [= <- _]. exact Hc.
    + left. exists a, b. auto.
  - destruct Hhh as [(a & -> & Ha & ->)|(a & b & -> & Ha & Hb & ->)].
    + apply isDigit_range in Ha. lia.
    + apply isDigit_range in Ha, Hb. unfold two in *. lia.
Qed.

Lemma hour_text_no_blank hh h v r' : hour_text hh h → hh +:+ v ≠ String " " r'.
Proof.
  intros [(a & -> & Ha & _)|(a & b & -> & Ha & _ & _)] E;
    injection E as -> _; discriminate.
Qed.

(** What [Parse] accepts for the layout of the announcement date. *)
Lemma Parse_announcement s t :
  Parse layout_announcement s = Some t ↔ announcement_format s t.
Proof.
  split.
  - unfold Parse, layout_announcement.
    destruct (parse_chunks _ s unset) as [[t' v]|] eqn:E; [|discriminate].
    destruct v; [|discriminate].
    destruct ((Day t' <? 1) || (daysIn (Month t') (Year t') <? Day t'))%Z eqn:Hday;
      [discriminate|].
    intros [= <-].
    rewrite parse_chunks_cons in E.
    destruct (parse_chunk stdZeroDay s unset) as [[t1 v1]|] eqn:E1; [|discriminate].
    apply parse_stdZeroDay in E1 as (d1 & d2 & -> & Hd1 & Hd2 & ->).
    rewrite parse_chunks_cons in E.
    destruct (parse_chunk (Prefix ".") v1 _) as [[t2 v2]|] eqn:E2; [|discriminate].
    apply parse_Prefix in E2 as [E2 ->]. apply skip_byte in E2 as ->; [|reflexivity].
    rewrite parse_chunks_cons in E.
    destruct (parse_chunk stdZeroMonth v2 _) as [[t3 v3]|] eqn:E3; [|discriminate].
    apply parse_stdZeroMonth in E3 as (m1 & m2 & -> & Hm1 & Hm2 & Hm & ->).
    rewrite parse_chunks_cons in E.
    destruct (parse_chunk (Prefix ".") v3 _) as [[t4 v4]|] eqn:E4; [|discriminate].
    apply parse_Prefix in E4 as [E4 ->]. apply skip_byte in E4 as ->; [|reflexivity].
    rewrite parse_chunks_cons in E.
    destruct (parse_chunk stdLongYear v4 _) as [[t5 v5]|] eqn:E5; [|discriminate].
    apply parse_stdLongYear in E5 as (y1 & y2 & y3 & y4 & -> & Hy & ->).
    rewrite parse_chunks_cons in E.
    destruct (parse_chunk (Prefix " ") v5 _) as [[t6 v6]|] eqn:E6; [|discriminate].
    apply parse_Prefix in E6 as [E6 ->].
    rewrite parse_chunks_cons in E.
    destruct (parse_chunk stdHour v6 _) as [[t7 v7]|] eqn:E7; [|discriminate].
    apply parse_stdHour in E7 as (h & Hh & Hhr & ->).
    rewrite parse_chunks_cons in E.
    destruct (parse_chunk (Prefix ":") v7 _) as [[t8 v8]|] eqn:E8; [|discriminate].
    apply parse_Prefix in E8 as [E8 ->]. apply skip_byte in E8 as ->; [|reflexivity].
    rewrite parse_chunks_cons in E.
    destruct (parse_chunk stdZeroMinute v8 _) as [[t9 v9]|] eqn:E9; [|discriminate].
    apply parse_stdZeroMinute in E9 as (mi1 & mi2 & -> & Hmi1 & Hmi2 & Hmi & ->).
    cbn [parse_chunks] in E. injection E as <- ->.
    cbn [Year Month Day Hour Minute unset] in *.
    apply skip_space in E6 as [[-> ->]|(s' & -> & ->)]; [discriminate|].
    destruct (cutspace_spec s') as (sp & Hs' & Hsp & _).
    set (w := cutspace s') in *. clearbody w. subst s'.
    simpl in Hy. rewrite andb_true_r in Hy.
    apply andb_prop in Hy as [Hy1 Hy]. apply andb_prop in Hy as [Hy2 Hy].
    apply andb_prop in Hy as [Hy3 Hy4].
    assert (all isDigit (bytes [d1; d2; m1; m2; y1; y2; y3; y4; mi1; mi2]) = true) as Hdig.
    { simpl. rewrite Hd1, Hd2, Hm1, Hm2, Hy1, Hy2, Hy3, Hy4, Hmi1, Hmi2. reflexivity. }
    apply getnum_free in Hh as [(a & b & -> & Ha & Hb & ->)|(a & -> & Ha & -> & _)].
    + exists d1, d2, m1, m2, y1, y2, y3, y4, sp, (bytes [a; b]), mi1, mi2.
      cbn [Year Month Day Hour Minute]. repeat split; try assumption; try lia.
      right. exists a, b. auto.
    + exists d1, d2, m1, m2, y1, y2, y3, y4, sp, (bytes [a]), mi1, mi2.
      cbn [Year Month Day Hour Minute]. repeat split; try assumption; try lia.
      left. exists a. auto.
  - intros (d1 & d2 & m1 & m2 & y1 & y2 & y3 & y4 & sp & hh & mi1 & mi2
            & -> & Hdig & Hsp & Hhh & Hd & Hm & Hy & Hmi & Hrm & Hrd & Hrh & Hrmi).
    simpl in Hdig. rewrite andb_true_r in Hdig.
    repeat match type of Hdig with
           | _ && _ = true => let H := fresh "D" in apply andb_prop in Hdig as [H Hdig]
           end.
    unfold Parse, layout_announcement.
    cbn [bytes String.string_of_list_ascii]. rewrite !app_cons, !app_nil_l.
    rewrite step_day, step_byte, step_month, step_byte, step_year
      by (try assumption; try reflexivity; rewrite <- Hm; exact Hrm).
    rewrite step_blanks by (try assumption; intros r'; apply hour_text_no_blank with (Hour t); exact Hhh).
    rewrite (step_hour hh (Hour t)) by (assumption || reflexivity).
    rewrite step_byte by reflexivity.
    rewrite step_minute by (try assumption; rewrite <- Hmi; exact Hrmi).
    cbn [parse_chunks Year Month Day Hour Minute unset].
    rewrite <- Hd, <- Hm, <- Hy, <- Hmi.
    destruct ((Day t <? 1) || (daysIn (Month t) (Year t) <? Day t))%Z eqn:Hday; [lia|].
    destruct t; reflexivity.
Qed.

End TimeFacts.

Import TimeFacts.

Lemma Match_re_date m g :
  Match re_date m "" g ↔
  ∃ m1, m = m1 +:+ "Bekannt gemacht am:" +:+ g +:+ "Uhr"
        ∧ all dot m1 = true ∧ all dot g = true.
Proof.
  unfold re_date. simpl. split.
  - intros (m1 & ? & ? & -> & [H1 ->] & ? & ? & ? & -> & [-> ->]
            & v & ? & ? & -> & [[? [Hv _]] ->] & [-> ->]).
    exists m1. auto.
  - intros (m1 & -> & H1 & Hg).
    exists m1, ("Bekannt gemacht am:" +:+ g +:+ "Uhr"), "". repeat split; [exact H1|].
    exists "Bekannt gemacht am:", (g +:+ "Uhr"), "". repeat split.
    exists g, "Uhr", g. repeat split; eauto.
Qed.

Lemma Find_re_date_is_Some text :
  is_Some (FindStringSubmatch1 re_date text) ↔ marker_then_unit text.
Proof.
  rewrite Find_is_Some. unfold marker_then_unit. split.
  - intros (a & m & b & g & -> & Hm).
    apply Match_re_date in Hm as (m1 & -> & _ & Hg).
    exists (a +:+ m1), g, b. split; [|apply no_NL_dot; exact Hg].
    rewrite !app_assoc. reflexivity.
  - intros (a & mid & b & -> & Hmid).
    exists a, ("Bekannt gemacht am:" +:+ mid +:+ "Uhr"), b, mid. split.
    + rewrite !app_assoc. reflexivity.
    + apply Match_re_date. exists "". repeat split. apply no_NL_dot. exact Hmid.
Qed.

Lemma Find_re_date_Some text cap :
  FindStringSubmatch1 re_date text = Some cap →
  ∃ a b, text = a +:+ "Bekannt gemacht am:" +:+ cap +:+ "Uhr" +:+ b
         ∧ contains NL cap = false.
Proof.
  intros H. apply Find_Some_Match in H as (a & m & b & -> & Hm).
  apply Match_re_date in Hm as (m1 & -> & _ & Hg).
  exists (a +:+ m1), b. split; [|apply no_NL_dot; exact Hg].
  rewrite !app_assoc. reflexivity.
Qed.

(** C7, as the spec states it, fails: in ["Bekannt gemacht am: 01.02.2024
    14:30"] the marker is present and the text behind it has the format,
    but without ["Uhr"] nothing is captured and the extraction fails. *)
Lemma extractCompanyRegistrationDate_needs_time_unit :
  occurs "Bekannt gemacht am:" "Bekannt gemacht am: 01.02.2024 14:30" ∧
  GoTime.Parse GoTime.layout_announcement (TrimSpace " 01.02.2024 14:30")
  = Some (GoTime.mkTime 2024 2 1 14 30) ∧
  (∀ a cap b,
     "Bekannt gemacht am: 01.02.2024 14:30"
     ≠ a +:+ "Bekannt gemacht am:" +:+ cap +:+ "Uhr" +:+ b) ∧
  extractCompanyRegistrationDate (λ _ value, value) "Bekannt gemacht am: 01.02.2024 14:30"
  = (None, Some "unable to extract company registration date").
Proof.
  split; [exists "", " 01.02.2024 14:30"; reflexivity|].
  split; [reflexivity|]. split; [|reflexivity].
  intros a cap b E.
  assert (contains "Uhr" "Bekannt gemacht am: 01.02.2024 14:30" = true) as H; [|discriminate H].
  apply contains_true. exists (a +:+ "Bekannt gemacht am:" +:+ cap), b.
  rewrite E, !app_assoc. reflexivity.
Qed.

(** [time.Parse] is more lenient than an exact match of the layout: a run of
    blanks and an hour of one digit are accepted; the calendar is checked. *)
Example Parse_announcement_lenient :
  GoTime.Parse GoTime.layout_announcement "01.02.2024   7:30"
  = Some (GoTime.mkTime 2024 2 1 7 30)
  ∧ GoTime.Parse GoTime.layout_announcement "31.02.2024 14:30" = None.
Proof. split; reflexivity. Qed.

Section Date.
Variable ParseError_Error : list GoTime.chunk → string → string.
Local Abbreviation extractDate := (extractCompanyRegistrationDate ParseError_Error).

(** C7 (amended): on a line with ["Bekannt gemacht am:"], ["01.02.2024
    14:30"] and ["Uhr"] the result is 2024-02-01T14:30.  For every input the
    expression captures something exactly when some line has the marker and
    ["Uhr"] behind it; the extraction succeeds with [t] exactly when the
    captured text, trimmed, has the format DD.MM.YYYY, blanks, H or HH, a
    colon, MM and reads as [t]; it fails exactly when there is no such line
    or the trimmed capture does not have the format. *)
Theorem extractCompanyRegistrationDate_spec :
  extractDate "... Bekannt gemacht am:01.02.2024 14:30 Uhr"
  = (Some (GoTime.mkTime 2024 2 1 14 30), None) ∧
  (∃ e, extractDate "Bekannt gemacht am:not-a-date Uhr" = (None, Some e)) ∧
  ∀ text,
    (is_Some (FindStringSubmatch1 re_date text) ↔ marker_then_unit text) ∧
    (∀ cap, FindStringSubmatch1 re_date text = Some cap →
       ∃ a b, text = a +:+ "Bekannt gemacht am:" +:+ cap +:+ "Uhr" +:+ b
              ∧ contains NL cap = false) ∧
    (∀ t, extractDate text = (Some t, None) ↔
       ∃ cap, FindStringSubmatch1 re_date text = Some cap
              ∧ announcement_format (TrimSpace cap) t) ∧
    ((∃ e, extractDate text = (None, Some e)) ↔
       ¬ marker_then_unit text
       ∨ ∃ cap, FindStringSubmatch1 re_date text = Some cap
                ∧ ∀ t, ¬ announcement_format (TrimSpace cap) t) ∧
    ((∃ t, extractDate text = (Some t, None)) ∨ (∃ e, extractDate text = (None, Some e))).
Proof.
  split; [reflexivity|]. split; [eexists; reflexivity|].
  intros text. split; [apply Find_re_date_is_Some|].
  split; [apply Find_re_date_Some|].
  pose proof (Find_re_date_is_Some text) as Hiff.
  unfold extractCompanyRegistrationDate.
  destruct (FindStringSubmatch1 re_date text) as [cap|] eqn:E.
  - assert (marker_then_unit text) as Hm by (apply Hiff; eauto).
    destruct (GoTime.Parse GoTime.layout_announcement (TrimSpace cap)) as [t0|] eqn:P.
    + apply Parse_announcement in P as F. split; [|split].
      * intros t. split.
        -- intros [= <-]. eauto.
        -- intros (cap' & [= <-] & F'). apply Parse_announcement in F'.
           rewrite P in F'. injection F' as ->. reflexivity.
      * split; [intros [e [=]]|].
        intros [H|(cap' & [= <-] & H)]; [destruct (H Hm)|destruct (H t0 F)].
      * left. eauto.
    + assert (∀ t, ¬ announcement_format (TrimSpace cap) t) as F.
      { intros t F. apply Parse_announcement in F. congruence. }
      split; [|split].
      * intros t. split; [discriminate|].
        intros (cap' & [= <-] & F'). destruct (F t F').
      * split; [|eauto]. intros _. right. eauto.
      * right. eauto.
  - assert (¬ marker_then_unit text) as Hm.
    { intros H. apply Hiff in H as [x Hx]. discriminate. }
    split; [|split].
    + intros t. split; [discriminate|]. intros (cap' & [=] & _).
    + split; [|eauto]. intros _. left. exact Hm.
    + right. eauto.
Qed.

End Date.

Lemma extractCompanyRegistrationDate_spec_witness :
  ∃ a b, "am 1. Bekannt gemacht am: 01.02.2024 14:30 Uhr"
         = a +:+ "Bekannt gemacht am:" +:+ " 01.02.2024 14:30 " +:+ "Uhr" +:+ b
         ∧ contains NL " 01.02.2024 14:30 " = false.
Proof.
  apply (proj1 (proj2 (proj2 (proj2 (extractCompanyRegistrationDate_spec (λ _ value, value)))
                         "am 1. Bekannt gemacht am: 01.02.2024 14:30 Uhr"))
           " 01.02.2024 14:30 ").
  reflexivity.
Defined.

(** * More about the expressions: which match is reported *)

Module GreedyFacts.
Import Str StrFacts GoRegexp Spec RegexpFacts.

(** Two ways to cut one text: the longer front extends the shorter. *)
Lemma app_eq_app_lt a b a' b' :
  a +:+ b = a' +:+ b' → String.length a < String.length a' →
  ∃ c x, a' = a +:+ String c x ∧ b = String c x +:+ b'.
Proof.
  revert a'. induction a as [|y a IH]; intros a' E Hlt.
  - destruct a' as [|c x]; [simpl in Hlt; lia|]. exists c, x.
    rewrite app_nil_l in *. auto.
  - destruct a' as [|y' a']; [simpl in Hlt; lia|].
    rewrite !app_cons in E. injection E as <- E. simpl in Hlt.
    destruct (IH a' E ltac:(lia)) as (c & x & -> & ->). exists c, x. auto.
Qed.

Section Greedy.
Context {R : Type}.

(** The greedy star reports the continuation on the longest run it accepts. *)
Lemma star_greedy p (k : string → option R) a b r :
  all p a = true → k b = Some r →
  (∀ a' b', a +:+ b = a' +:+ b' → all p a' = true →
            String.length a < String.length a' → k b' = None) →
  star p k (a +:+ b) = Some r.
Proof.
  intros Ha Hk Hlonger. apply star_later; [exact Ha|].
  destruct b as [|c b]; [exact Hk|].
  rewrite star_cons. destruct (p c) eqn:Hc; [|exact Hk].
  assert (star p k b = None) as ->; [|exact Hk].
  apply star_None. intros a1 b1 -> Ha1.
  apply (Hlonger (a +:+ String c a1) b1).
  - rewrite app_assoc. reflexivity.
  - rewrite all_app, Ha. simpl. rewrite Hc, Ha1. reflexivity.
  - rewrite length_app. simpl. lia.
Qed.

End Greedy.

(** A text that starts with a literal contains it. *)
Lemma strip_contains l s s' : strip l s = Some s' → contains l s = true.
Proof.
  intros H. apply contains_true. exists "", s'. apply strip_Some in H. exact H.
Qed.

Lemma contains_app_r sub a b : contains sub b = true → contains sub (a +:+ b) = true.
Proof.
  rewrite !contains_true. intros (x & y & ->). exists (a +:+ x), y.
  rewrite !app_assoc. reflexivity.
Qed.

Lemma contains_app_r_false sub a b :
  contains sub (a +:+ b) = false → contains sub b = false.
Proof.
  intros H. destruct (contains sub b) eqn:E; [|reflexivity].
  rewrite (contains_app_r sub a b E) in H. discriminate.
Qed.

Lemma app_eq_app a b a' b' :
  a +:+ b = a' +:+ b' →
  (∃ x, a' = a +:+ x ∧ b = x +:+ b') ∨ (∃ x, a = a' +:+ x ∧ b' = x +:+ b).
Proof.
  revert a'. induction a as [|y a IH]; intros a' E.
  - left. exists a'. rewrite app_nil_l in *. auto.
  - destruct a' as [|y' a'].
    + right. exists (String y a). rewrite app_nil_l in *. auto.
    + rewrite !app_cons in E. injection E as <- E.
      destruct (IH a' E) as [(x & -> & ->)|(x & -> & ->)]; [left|right];
        exists x; auto.
Qed.

Lemma strip_first_None c l b :
  all (not_byte c) b = true → strip (String c l) b = None.
Proof.
  destruct b as [|d b]; [reflexivity|]. simpl. intros H.
  apply andb_prop in H as [H _]. unfold not_byte in H.
  rewrite Ascii.eqb_sym in H. destruct (Ascii.eqb c d); [discriminate|reflexivity].
Qed.

Lemma all_digits_nondigits a :
  all perl_d a = true → all (λ c, negb (perl_d c)) a = true → a = "".
Proof.
  destruct a as [|c a]; [reflexivity|]. simpl. intros H1 H2.
  apply andb_prop in H1 as [H1 _]. apply andb_prop in H2 as [H2 _].
  rewrite H1 in H2. discriminate.
Qed.

(** The expression for the identifier: the last ["'rb_id="] of the line
    starts the capture and the last [&] behind it ends it. *)
Lemma Find_re_rb_id pre mid post :
  contains NL pre = false → contains NL mid = false →
  contains "'" mid = false → contains "'" post = false → contains "&" post = false →
  FindStringSubmatch1 re_rb_id (pre +:+ "'rb_id=" +:+ mid +:+ "&" +:+ post) = Some mid.
Proof.
  intros Hpre Hmid Hqm Hqp Hap.
  apply no_NL_dot in Hpre, Hmid. apply contains_byte_false in Hqm, Hqp, Hap.
  apply Find_here. unfold match_here, re_rb_id. cbn [run].
  match goal with |- star dot ?k _ = _ => set (k0 := k) end.
  assert (k0 ("'rb_id=" +:+ mid +:+ "&" +:+ post) = Some mid) as Hk0.
  { unfold k0. rewrite strip_app.
    match goal with |- star dot ?k _ = _ => set (k1 := k) end.
    apply star_greedy; [exact Hmid| |].
    - unfold k1. rewrite strip_app, star_total. f_equal.
      rewrite length_app, Nat.add_sub. apply take_app.
    - intros a' b' E Ha' Hlt.
      apply app_eq_app_lt in E as (c & x & -> & E); [|exact Hlt].
      change ("&" +:+ post) with (String "&" post) in E.
      rewrite app_cons in E. injection E as <- ->.
      unfold k1. rewrite strip_first_None; [reflexivity|].
      rewrite all_app in Hap. apply andb_prop in Hap as [_ H]. exact H. }
  apply star_greedy; [exact Hpre|exact Hk0|].
  intros a' b' E Ha' Hlt.
  apply app_eq_app_lt in E as (c & x & -> & E); [|exact Hlt].
  change ("'rb_id=" +:+ mid +:+ "&" +:+ post)
    with (String "'" ("rb_id=" +:+ mid +:+ "&" +:+ post)) in E.
  rewrite app_cons in E. injection E as <- E.
  unfold k0. rewrite strip_first_None; [reflexivity|].
  assert (all (not_byte "'") ("rb_id=" +:+ mid +:+ "&" +:+ post) = true) as H.
  { rewrite !all_app, Hqm, Hqp. reflexivity. }
  assert (all (not_byte "'") (x +:+ b') = true) as H' by (rewrite <- E; exact H).
  rewrite all_app in H'. apply andb_prop in H' as [_ H']. exact H'.
Qed.

(** The expression for the postal code: of the runs of five digits on the
    line, the one that ends last is captured. *)
Lemma Find_re_postal_last pre d post :
  contains NL pre = false → digit_run5 d →
  all (λ c, negb (perl_d c)) post = true →
  FindStringSubmatch1 re_postal (pre +:+ d +:+ post) = Some d.
Proof.
  intros Hpre [Hlen Hd] Hpost. apply no_NL_dot in Hpre.
  apply Find_here. unfold match_here, re_postal. cbn [run].
  match goal with |- star dot ?k _ = _ => set (k0 := k) end.
  apply star_greedy; [exact Hpre| |].
  - unfold k0. apply repeat_Some. exists d, post. repeat split; auto.
    rewrite star_total. f_equal. rewrite length_app, Nat.add_sub. apply take_app.
  - intros a' b' E Ha' Hlt.
    apply app_eq_app_lt in E as (c & x & -> & E); [|exact Hlt].
    unfold k0. destruct (repeat 5 perl_d _ b') as [r|] eqn:Hr; [|reflexivity].
    exfalso. apply repeat_Some in Hr as (a5 & rest & -> & Hl5 & Ha5 & _).
    rewrite <- app_assoc in E.
    apply app_eq_app_lt in E as (c' & x' & E1 & E2);
      [|rewrite length_app; simpl; lia].
    rewrite E2, all_app in Hpost. apply andb_prop in Hpost as [Hcx _].
    symmetry in E1. apply app_eq_app in E1 as [(y & _ & E4)|(y & _ & E4)].
    + (* the run found lies in [post] *)
      rewrite E4, all_app in Hcx. apply andb_prop in Hcx as [_ Hnd].
      rewrite (all_digits_nondigits _ Ha5 Hnd) in Hl5. discriminate.
    + (* the run found reaches into [post] *)
      rewrite E4, all_app in Ha5. apply andb_prop in Ha5 as [_ Hdig].
      pose proof (all_digits_nondigits _ Hdig Hcx). discriminate.
Qed.

(** The expression for the date: the last marker of the line starts the
    capture and the last ["Uhr"] behind it ends it. *)
Lemma Find_re_date pre mid post :
  contains NL pre = false → contains NL mid = false →
  contains "Bekannt gemacht am:" (mid +:+ "Uhr" +:+ post) = false →
  contains "Uhr" post = false →
  FindStringSubmatch1 re_date (pre +:+ "Bekannt gemacht am:" +:+ mid +:+ "Uhr" +:+ post)
  = Some mid.
Proof.
  intros Hpre Hmid Hmk Hu. apply no_NL_dot in Hpre, Hmid.
  apply Find_here. unfold match_here, re_date. cbn [run].
  match goal with |- star dot ?k _ = _ => set (k0 := k) end.
  assert (k0 ("Bekannt gemacht am:" +:+ mid +:+ "Uhr" +:+ post) = Some mid) as Hk0.
  { unfold k0. rewrite strip_app.
    match goal with |- star dot ?k _ = _ => set (k1 := k) end.
    apply star_greedy; [exact Hmid| |].
    - unfold k1. rewrite strip_app. f_equal.
      rewrite length_app, Nat.add_sub. apply take_app.
    - intros a' b' E Ha' Hlt.
      apply app_eq_app_lt in E as (c & x & -> & E); [|exact Hlt].
      unfold k1. destruct (strip "Uhr" b') as [s'|] eqn:Hs; [|reflexivity].
      exfalso.
      change ("Uhr" +:+ post) with (String "U" (String "h" (String "r" post))) in E.
      rewrite app_cons in E. injection E as <- E.
      destruct x as [|c1 x]; [rewrite app_nil_l in E; subst b'; discriminate Hs|].
      rewrite app_cons in E. injection E as <- E.
      destruct x as [|c2 x]; [rewrite app_nil_l in E; subst b'; discriminate Hs|].
      rewrite app_cons in E. injection E as <- E.
      apply strip_contains in Hs.
      rewrite E in Hu. apply contains_app_r_false in Hu. congruence. }
  apply star_greedy; [exact Hpre|exact Hk0|].
  intros a' b' E Ha' Hlt.
  apply app_eq_app_lt in E as (c & x & -> & E); [|exact Hlt].
  unfold k0. destruct (strip "Bekannt gemacht am:" b') as [s'|] eqn:Hs; [|reflexivity].
  exfalso.
  change ("Bekannt gemacht am:" +:+ mid +:+ "Uhr" +:+ post)
    with (String "B" ("ekannt gemacht am:" +:+ mid +:+ "Uhr" +:+ post)) in E.
  rewrite app_cons in E. injection E as <- E.
  do 18 (destruct x as [|? x];
         [rewrite app_nil_l in E; subst b'; discriminate Hs|
          rewrite (app_cons _ x b') in E; injection E as <- E]).
  apply strip_contains in Hs. rewrite app_nil_l in E.
  rewrite E in Hmk. apply contains_app_r_false in Hmk. congruence.
Qed.

End GreedyFacts.

Import GreedyFacts.

(** X1: in an [href] of the form [... 'rb_id=ID&... '] (nothing behind the
    identifier's [&] contains another [&] or an apostrophe) the link callback
    visits the detail page of [ID]; [ID] itself may contain [&], the capture
    runs to the last one. *)
Theorem onLink_visits_identifier (V : string → Go unit) pre regID post st :
  contains NL pre = false → contains NL regID = false →
  contains "'" regID = false → contains "'" post = false → contains "&" post = false →
  onLink V (pre +:+ "'rb_id=" +:+ regID +:+ "&" +:+ post) st = V (regURL regID) st.
Proof.
  intros. rewrite (onLink_Some V _ regID); [reflexivity|]. apply Find_re_rb_id; assumption.
Qed.

Lemma onLink_visits_identifier_witness :
  onLink (λ url, emit (Http (GET url)))
         ("javascript:NeuFenster(" +:+ "'rb_id=" +:+ "815&x=1" +:+ "&" +:+ "land_abk=bw)")
         initial
  = emit (Http (GET (regURL "815&x=1"))) initial.
Proof.
  apply (onLink_visits_identifier (λ url, emit (Http (GET url)))
           "javascript:NeuFenster(" "815&x=1" "land_abk=bw)" initial); reflexivity.
Defined.

(** X2: when the line holds several runs of five digits, [extractPostalCode]
    returns the last: five digits followed only by bytes that are no digits
    are the result, whatever digits come before them on the line. *)
Theorem extractPostalCode_last_run pre d post :
  contains NL pre = false → digit_run5 d →
  all (λ c, negb (perl_d c)) post = true →
  extractPostalCode (pre +:+ d +:+ post) = (d, None).
Proof.
  intros. unfold extractPostalCode. rewrite Find_re_postal_last by assumption.
  reflexivity.
Qed.

Lemma extractPostalCode_last_run_witness :
  extractPostalCode ("HRB 123456: Acme, " +:+ "10115" +:+ " Berlin") = ("10115", None).
Proof.
  apply (extractPostalCode_last_run "HRB 123456: Acme, " "10115" " Berlin");
    [reflexivity|split; reflexivity|reflexivity].
Defined.

Section DateLine.
Variable ParseError_Error : list GoTime.chunk → string → string.

(** X3: on a line whose last marker is followed by [mid] and the last
    ["Uhr"] of the input, the date is read from [mid], trimmed: the result
    is [t] when it has the format and reads as [t], and the parse error of
    the trimmed text otherwise. *)
Theorem extractCompanyRegistrationDate_line pre mid post :
  contains NL pre = false → contains NL mid = false →
  contains "Bekannt gemacht am:" (mid +:+ "Uhr" +:+ post) = false →
  contains "Uhr" post = false →
  let text := pre +:+ "Bekannt gemacht am:" +:+ mid +:+ "Uhr" +:+ post in
  (∀ t, announcement_format (TrimSpace mid) t →
        extractCompanyRegistrationDate ParseError_Error text = (Some t, None)) ∧
  ((∀ t, ¬ announcement_format (TrimSpace mid) t) →
   extractCompanyRegistrationDate ParseError_Error text
   = (None, Some ("unable to extract company reg date: "
                  +:+ ParseError_Error GoTime.layout_announcement (TrimSpace mid)))).
Proof.
  intros Hpre Hmid Hmk Hu text. unfold extractCompanyRegistrationDate, text.
  rewrite Find_re_date by assumption. split.
  - intros t F. apply Parse_announcement in F. rewrite F. reflexivity.
  - intros F. destruct (GoTime.Parse _ _) as [t|] eqn:P; [|reflexivity].
    apply Parse_announcement in P. destruct (F t P).
Qed.

End DateLine.

Lemma extractCompanyRegistrationDate_line_witness :
  extractCompanyRegistrationDate (λ _ value, value)
    ("Aktenzeichen: HRB 1" +:+ "Bekannt gemacht am:" +:+ " 01.02.2024 14:30 " +:+ "Uhr" +:+ "")
  = (Some (GoTime.mkTime 2024 2 1 14 30), None).
Proof.
  apply (proj1 (extractCompanyRegistrationDate_line (λ _ value, value)
                  "Aktenzeichen: HRB 1" " 01.02.2024 14:30 " ""
                  eq_refl eq_refl eq_refl eq_refl)).
  apply Parse_announcement. reflexivity.
Defined.

(** * More about [Split]: the sections of a line *)

Module SectionFacts.
Import Str StrFacts GoStrings SplitFacts CountFacts.

Lemma length_drop n s : String.length (drop n s) = String.length s - n.
Proof.
  revert s. induction n as [|n IH]; intros [|c s]; simpl; auto; lia.
Qed.

Lemma drop_app a x n : drop (String.length a + n) (a +:+ x) = drop n x.
Proof. induction a as [|c a IH]; [reflexivity|]. simpl. exact IH. Qed.

Lemma Index_nonempty s c l m : Index s (String c l) = Some m → 0 < String.length s.
Proof. destruct s; [discriminate|simpl; lia]. Qed.

(** The bound on the rounds of [genSplit] does not matter once it covers the
    length of the text. *)
Lemma genSplit_fuel c l n : ∀ m s,
  String.length s ≤ n → String.length s ≤ m →
  genSplit n s (String c l) = genSplit m s (String c l).
Proof.
  induction n as [|n IH]; intros [|m] s Hn Hm.
  - reflexivity.
  - destruct s; [reflexivity|simpl in Hn; lia].
  - destruct s; [reflexivity|simpl in Hm; lia].
  - cbn [genSplit]. destruct (Index s (String c l)) as [k|] eqn:E; [|reflexivity].
    apply Index_nonempty in E. f_equal.
    apply IH; rewrite length_drop; simpl; lia.
Qed.

Lemma Index_app_byte c a b :
  all (not_byte c) a = true → Index (a +:+ String c b) (String c "") = Some (String.length a).
Proof.
  induction a as [|d a IH]; intros H.
  - rewrite app_nil_l. simpl. rewrite Ascii.eqb_refl. reflexivity.
  - cbn [all] in H. apply andb_prop in H as [Hd Ha]. rewrite app_cons.
    cbn [Index strip]. unfold not_byte in Hd. rewrite Ascii.eqb_sym in Hd.
    destruct (Ascii.eqb c d); [discriminate|]. rewrite (IH Ha). reflexivity.
Qed.

(** A section without comma in front of a comma is the first section. *)
Lemma Split_cons_byte c a b :
  all (not_byte c) a = true →
  Split (a +:+ String c b) (String c "") = a :: Split b (String c "").
Proof.
  intros H. unfold Split. rewrite length_app. simpl String.length.
  rewrite Nat.add_succ_r. cbn [genSplit]. rewrite (Index_app_byte c a b H).
  rewrite take_app. f_equal.
  change (String c b) with (String c "" +:+ b). rewrite <- app_assoc.
  replace (String.length a + String.length (String c ""))
    with (String.length (a +:+ String c "") + 0) by (rewrite length_app; simpl; lia).
  rewrite drop_app. simpl drop. apply genSplit_fuel; lia.
Qed.

Lemma Index_app_colon_space a b :
  contains ": " a = false → Index (a +:+ ": " +:+ b) ": " = Some (String.length a).
Proof.
  induction a as [|c a IH]; intros H; [reflexivity|].
  rewrite app_cons. cbn [Index].
  assert (strip ": " (String c (a +:+ ": " +:+ b)) = None) as ->.
  { cbn [contains] in H. destruct (strip ": " (String c a)) eqn:E; [discriminate|].
    cbn [strip] in *. destruct (Ascii.eqb ":" c); [|reflexivity].
    destruct a as [|d a]; [reflexivity|].
    rewrite app_cons. destruct (Ascii.eqb " " d); [discriminate E|reflexivity]. }
  rewrite IH; [reflexivity|].
  cbn [contains] in H. destruct (strip ": " (String c a)); [discriminate|exact H].
Qed.

Lemma Split_cons_colon_space a b :
  contains ": " a = false → Split (a +:+ ": " +:+ b) ": " = a :: Split b ": ".
Proof.
  intros H. unfold Split.
  replace (String.length (a +:+ ": " +:+ b))
    with (S (String.length a + S (String.length b)))
    by (rewrite !length_app; simpl; lia).
  cbn [genSplit]. rewrite (Index_app_colon_space a b H).
  rewrite take_app. f_equal.
  rewrite drop_app. simpl drop. apply genSplit_fuel; simpl; lia.
Qed.

(** The first section of a text that ends, or goes on with the separator. *)
Lemma Split_head_byte c a tail :
  all (not_byte c) a = true → tail = "" ∨ (∃ t, tail = String c t) →
  Split (a +:+ tail) (String c "") !! 0 = Some a.
Proof.
  intros H [->|[t ->]].
  - rewrite app_nil_r, Split_without; [reflexivity|]. apply contains_byte_false, H.
  - rewrite Split_cons_byte by exact H. reflexivity.
Qed.

Lemma Split_head_colon_space a tail :
  contains ": " a = false → tail = "" ∨ (∃ t, tail = ": " +:+ t) →
  Split (a +:+ tail) ": " !! 0 = Some a.
Proof.
  intros H [->|[t ->]].
  - rewrite app_nil_r, Split_without; [reflexivity|exact H].
  - rewrite Split_cons_colon_space by exact H. reflexivity.
Qed.

End SectionFacts.

Import SectionFacts.

(** X4: for a line [s0,s1,s2] or [s0,s1,s2,...] whose first three sections
    are [s0], [s1] and [s2] (none holds a comma), [extractCity] returns [s1]
    and [extractCompanyAddress] returns [s2]; whatever follows a third comma
    is not part of the address. *)
Theorem city_and_address_are_sections s0 s1 s2 tail st :
  contains "," s0 = false → contains "," s1 = false → contains "," s2 = false →
  tail = "" ∨ (∃ t, tail = "," +:+ t) →
  let text := s0 +:+ "," +:+ s1 +:+ "," +:+ s2 +:+ tail in
  extractCity text st = (Return (s1, None), st) ∧
  extractCompanyAddress text st
  = (Return (s2, None),
     if 35 <? String.length s2 then add_events [Stdout (text +:+ NL)] st else st).
Proof.
  intros H0 H1 H2 Htail text. apply contains_byte_false in H0, H1, H2.
  assert (Split text "," = s0 :: s1 :: Split (s2 +:+ tail) ",") as E.
  { unfold text. change ("," +:+ s1 +:+ "," +:+ s2 +:+ tail)
      with (String "," (s1 +:+ String "," (s2 +:+ tail))).
    rewrite !Split_cons_byte by assumption. reflexivity. }
  pose proof (Split_head_byte "," s2 tail H2 Htail) as E2. split.
  - rewrite extractCity_run, E. reflexivity.
  - assert (Split text "," !! 2 = Some s2) as E' by (rewrite E; exact E2).
    rewrite extractCompanyAddress_run, E'. reflexivity.
Qed.

Lemma city_and_address_are_sections_witness :
  extractCity ("HRB 1: Acme" +:+ "," +:+ " Ulm" +:+ "," +:+ " Weg 1" +:+ ", 2. OG, 89073 Ulm")
              initial
  = (Return (" Ulm", None), initial) ∧
  extractCompanyAddress
    ("HRB 1: Acme" +:+ "," +:+ " Ulm" +:+ "," +:+ " Weg 1" +:+ ", 2. OG, 89073 Ulm") initial
  = (Return (" Weg 1", None),
     if 35 <? String.length " Weg 1"
     then add_events [Stdout (("HRB 1: Acme" +:+ "," +:+ " Ulm" +:+ "," +:+ " Weg 1"
                               +:+ ", 2. OG, 89073 Ulm") +:+ NL)] initial
     else initial).
Proof.
  apply (city_and_address_are_sections "HRB 1: Acme" " Ulm" " Weg 1" ", 2. OG, 89073 Ulm"
           initial); try reflexivity.
  right. exists " 2. OG, 89073 Ulm". reflexivity.
Defined.

(** X5: [extractCompanyName] returns the text between the first [": "] of
    the first section and the next [": "] or the end of that section: a name
    that itself holds [": "] is cut there. *)
Theorem name_is_between_colon_spaces label name more tail st :
  contains ": " label = false → contains ": " name = false →
  contains "," (label +:+ ": " +:+ name +:+ more) = false →
  more = "" ∨ (∃ x, more = ": " +:+ x) →
  tail = "" ∨ (∃ t, tail = "," +:+ t) →
  extractCompanyName (label +:+ ": " +:+ name +:+ more +:+ tail) st
  = (Return (name, None), st).
Proof.
  intros Hl Hn Hc Hmore Htail. apply contains_byte_false in Hc.
  assert (Split (label +:+ ": " +:+ name +:+ more +:+ tail) "," !! 0
          = Some (label +:+ ": " +:+ name +:+ more)) as E0.
  { rewrite <- (Split_head_byte "," _ tail Hc Htail). rewrite !app_assoc. reflexivity. }
  rewrite (extractCompanyName_run _ _ st E0).
  assert (Split (label +:+ ": " +:+ name +:+ more) ": " !! 1 = Some name) as E1.
  { rewrite Split_cons_colon_space by exact Hl.
    exact (Split_head_colon_space name more Hn Hmore). }
  rewrite E1. reflexivity.
Qed.

Lemma name_is_between_colon_spaces_witness :
  extractCompanyName ("HRB 1" +:+ ": " +:+ "Acme" +:+ ": Holding GmbH" +:+ ", Ulm, Weg 1")
                     initial
  = (Return ("Acme", None), initial).
Proof.
  apply (name_is_between_colon_spaces "HRB 1" "Acme" ": Holding GmbH" ", Ulm, Weg 1" initial);
    try reflexivity.
  - right. exists "Holding GmbH". reflexivity.
  - right. exists " Ulm, Weg 1". reflexivity.
Defined.

(** * More about the run: what [Action] prints and when it stops *)

Lemma forEach_emit {A} (f : A → event) (l : list A) st :
  forEach l (λ x, emit (f x)) st = (Return tt, add_events (map f l) st).
Proof.
  revert st. induction l as [|x l IH]; intros st.
  - simpl. rewrite add_events_nil. reflexivity.
  - cbn [forEach map]. rewrite (bind_Return _ _ _ _ _ (emit_add _ _)), IH.
    rewrite add_events_app. reflexivity.
Qed.

Section Run.
Variable ParseError_Error : list GoTime.chunk → string → string.
Variable json_Marshal : CompanyRegistration → string.
Variable Sprintf_v : option GoTime.Time → string.
Variable serve : request → option Page.

Local Abbreviation Action' := (Action ParseError_Error json_Marshal Sprintf_v serve).
Local Abbreviation collect := (collectRegistrations ParseError_Error serve).

(** X6: a start date that does not parse ends [Action] with the error for
    the start date and an end date that does not parse (behind a start date
    that does) with the error for the end date; in both cases nothing has
    been requested, printed or logged: the state is the one before. *)
Theorem Action_rejects_dates_before_any_request fuel output start_date end_date st :
  (GoTime.Parse GoTime.layout_flag (TrimSpace start_date) = None →
   Action' fuel output start_date end_date st
   = (Return (Some ("unable to parse start date parameter: "
                    +:+ ParseError_Error GoTime.layout_flag (TrimSpace start_date))), st)) ∧
  (is_Some (GoTime.Parse GoTime.layout_flag (TrimSpace start_date)) →
   GoTime.Parse GoTime.layout_flag (TrimSpace end_date) = None →
   Action' fuel output start_date end_date st
   = (Return (Some ("unable to parse end date parameter: "
                    +:+ ParseError_Error GoTime.layout_flag (TrimSpace end_date))), st)).
Proof.
  unfold Action. split.
  - intros ->. reflexivity.
  - intros [t ->] ->. reflexivity.
Qed.

(** X7: once the crawl has returned the records [regs], the selector
    ["csv"] prints the header line and one row per record, and ["jsonl"]
    one line per record and no header, both in the order of [regs], and
    [Action] returns nil. *)
Theorem Action_prints_records_in_order fuel output start_date end_date
    startDate endDate regs st st1 :
  GoTime.Parse GoTime.layout_flag (TrimSpace start_date) = Some startDate →
  GoTime.Parse GoTime.layout_flag (TrimSpace end_date) = Some endDate →
  collect fuel startDate endDate st = (Return regs, st1) →
  (output = "csv" →
   Action' fuel output start_date end_date st
   = (Return None,
      add_events (Stdout ("RegNo;Date;Name;Address;City;PostalCode" +:+ NL)
                  :: map (λ r, Stdout (csv_row Sprintf_v r)) regs) st1)) ∧
  (output = "jsonl" →
   Action' fuel output start_date end_date st
   = (Return None, add_events (map (λ r, Stdout (json_Marshal r +:+ NL)) regs) st1)).
Proof.
  intros Hs He Hrun. unfold Action. rewrite Hs, He.
  rewrite (bind_Return _ _ _ _ _ Hrun). split; intros ->.
  - replace (String.eqb "csv" "jsonl") with false by reflexivity.
    rewrite String.eqb_refl. unfold Println.
    rewrite (bind_Return _ _ _ _ _ (emit_add _ _)).
    rewrite (bind_Return _ _ _ _ _ (forEach_emit _ _ _)).
    rewrite add_events_app. reflexivity.
  - rewrite String.eqb_refl.
    rewrite (bind_Return _ _ _ _ _ (forEach_emit _ _ _)). reflexivity.
Qed.

(** X8: a search that cannot be fetched is not reported: [Post]'s error is
    dropped, [collectRegistrations] returns the empty list after the one
    request, and with the selector ["csv"] the run prints the header alone
    and ends with a nil error. *)
Theorem failed_search_is_silent fuel start_date end_date startDate endDate st :
  GoTime.Parse GoTime.layout_flag (TrimSpace start_date) = Some startDate →
  GoTime.Parse GoTime.layout_flag (TrimSpace end_date) = Some endDate →
  serve (POST searchURL (data startDate endDate)) = None →
  collect (S fuel) startDate endDate st
  = (Return [], mkState (trace st ++ [Http (POST searchURL (data startDate endDate))]) ∅ [])
  ∧ Action' (S fuel) "csv" start_date end_date st
    = (Return None,
       mkState (trace st ++ [Http (POST searchURL (data startDate endDate));
                             Stdout ("RegNo;Date;Name;Address;City;PostalCode" +:+ NL)])
               ∅ []).
Proof.
  intros Hs He Hserve.
  assert (collect (S fuel) startDate endDate st
          = (Return [], mkState (trace st ++ [Http (POST searchURL (data startDate endDate))]) ∅ []))
    as Hrun.
  { unfold collectRegistrations, c_Post. cbn [scrape]. rewrite Hserve. reflexivity. }
  split; [exact Hrun|].
  rewrite (proj1 (Action_prints_records_in_order (S fuel) "csv" start_date end_date
                    startDate endDate [] st _ Hs He Hrun) eq_refl).
  unfold add_events. cbn. rewrite <- List.app_assoc. reflexivity.
Qed.

End Run.

Lemma Action_rejects_dates_before_any_request_witness :
  Action (λ _ value, value) (λ _, "") (λ _, "") (λ _, None) 1 "csv" "2024-1-5" "2024-01-05"
         initial
  = (Return (Some ("unable to parse start date parameter: "
                   +:+ TrimSpace "2024-1-5")), initial)
  ∧ Action (λ _ value, value) (λ _, "") (λ _, "") (λ _, None) 1 "csv" "2024-01-05" "soon"
           initial
    = (Return (Some ("unable to parse end date parameter: "
                     +:+ TrimSpace "soon")), initial).
Proof.
  split.
  - apply (proj1 (Action_rejects_dates_before_any_request (λ _ value, value) (λ _, "")
                    (λ _, "") (λ _, None) 1 "csv" "2024-1-5" "2024-01-05" initial)).
    reflexivity.
  - apply (proj2 (Action_rejects_dates_before_any_request (λ _ value, value) (λ _, "")
                    (λ _, "") (λ _, None) 1 "csv" "2024-01-05" "soon" initial)).
    + eexists. reflexivity.
    + reflexivity.
Defined.

Lemma failed_search_is_silent_witness :
  collectRegistrations (λ _ value, value) (λ _, None) 1
    (GoTime.mkTime 2024 1 5 0 0) (GoTime.mkTime 2024 1 6 0 0) initial
  = (Return [],
     mkState (trace initial
              ++ [Http (POST searchURL (data (GoTime.mkTime 2024 1 5 0 0)
                                             (GoTime.mkTime 2024 1 6 0 0)))]) ∅ [])
  ∧ Action (λ _ value, value) (λ _, "") (λ _, "") (λ _, None) 1
           "csv" "2024-01-05" "2024-01-06" initial
    = (Return None,
       mkState (trace initial
                ++ [Http (POST searchURL (data (GoTime.mkTime 2024 1 5 0 0)
                                               (GoTime.mkTime 2024 1 6 0 0)));
                    Stdout ("RegNo;Date;Name;Address;City;PostalCode" +:+ NL)])
               ∅ []).
Proof.
  apply (failed_search_is_silent (λ _ value, value) (λ _, "") (λ _, "") (λ _, None) 0
           "2024-01-05" "2024-01-06" (GoTime.mkTime 2024 1 5 0 0) (GoTime.mkTime 2024 1 6 0 0)
           initial); reflexivity.
Defined.

Lemma Action_prints_records_in_order_witness :
  ∃ regs st1,
    collectRegistrations (λ _ value, value) one_announcement 1
      (GoTime.mkTime 2024 1 5 0 0) (GoTime.mkTime 2024 1 6 0 0) initial = (Return regs, st1)
    ∧ length regs = 1
    ∧ Action (λ _ value, value) (λ _, "{}") (λ _, "<nil>") one_announcement 1
             "csv" "2024-01-05" "2024-01-06" initial
      = (Return None,
         add_events (Stdout ("RegNo;Date;Name;Address;City;PostalCode" +:+ NL)
                     :: map (λ r, Stdout (csv_row (λ _, "<nil>") r)) regs) st1).
Proof.
  eexists _, _. split; [reflexivity|]. split; [reflexivity|].
  apply (proj1 (Action_prints_records_in_order (λ _ value, value) (λ _, "{}") (λ _, "<nil>")
                  one_announcement 1 "csv" "2024-01-05" "2024-01-06"
                  (GoTime.mkTime 2024 1 5 0 0) (GoTime.mkTime 2024 1 6 0 0) _ initial _
                  eq_refl eq_refl eq_refl)).
  reflexivity.
Defined.

(** * More about the request and the output rows *)

Lemma Sprintf_d_reads_back n :
  NilZero.int_of_string (Sprintf_d n) = Some (Z.to_int n).
Proof.
  unfold Sprintf_d. apply NilZero.isi; destruct n; simpl; try discriminate;
    intros [= H]; exact (DecimalPos.Unsigned.to_uint_nonnil _ H).
Qed.

Lemma Sprintf_d_inj n n' : Sprintf_d n = Sprintf_d n' → n = n'.
Proof.
  intros H. pose proof (Sprintf_d_reads_back n) as E. rewrite H, Sprintf_d_reads_back in E.
  injection E as E. rewrite <- (DecimalZ.of_to n), <- (DecimalZ.of_to n'), E. reflexivity.
Qed.

(** X9: the parameters of the search determine the two dates: two requests
    with the same parameters come from the same days, months and years,
    because [%d] prints every integer differently. *)
Theorem data_determines_the_dates (s e s' e' : GoTime.Time) :
  data s e = data s' e' →
  (GoTime.Day s = GoTime.Day s' ∧ GoTime.Month s = GoTime.Month s'
   ∧ GoTime.Year s = GoTime.Year s')
  ∧ (GoTime.Day e = GoTime.Day e' ∧ GoTime.Month e = GoTime.Month e'
     ∧ GoTime.Year e = GoTime.Year e').
Proof.
  intros H.
  assert (∀ k, data s e !! k = data s' e' !! k) as Hk by (intros k; rewrite H; reflexivity).
  pose proof (Hk "vt") as Hvt. pose proof (Hk "vm") as Hvm. pose proof (Hk "vj") as Hvj.
  pose proof (Hk "bt") as Hbt. pose proof (Hk "bm") as Hbm. pose proof (Hk "bj") as Hbj.
  change (Some (Sprintf_d (GoTime.Day s)) = Some (Sprintf_d (GoTime.Day s'))) in Hvt.
  change (Some (Sprintf_d (GoTime.Month s)) = Some (Sprintf_d (GoTime.Month s'))) in Hvm.
  change (Some (Sprintf_d (GoTime.Year s)) = Some (Sprintf_d (GoTime.Year s'))) in Hvj.
  change (Some (Sprintf_d (GoTime.Day e)) = Some (Sprintf_d (GoTime.Day e'))) in Hbt.
  change (Some (Sprintf_d (GoTime.Month e)) = Some (Sprintf_d (GoTime.Month e'))) in Hbm.
  change (Some (Sprintf_d (GoTime.Year e)) = Some (Sprintf_d (GoTime.Year e'))) in Hbj.
  repeat split; apply Sprintf_d_inj; congruence.
Qed.

Lemma data_determines_the_dates_witness :
  (GoTime.Day (GoTime.mkTime 2024 1 5 0 0) = GoTime.Day (GoTime.mkTime 2024 1 5 23 59)
   ∧ GoTime.Month (GoTime.mkTime 2024 1 5 0 0) = GoTime.Month (GoTime.mkTime 2024 1 5 23 59)
   ∧ GoTime.Year (GoTime.mkTime 2024 1 5 0 0) = GoTime.Year (GoTime.mkTime 2024 1 5 23 59))
  ∧ (GoTime.Day (GoTime.mkTime 2024 1 6 0 0) = GoTime.Day (GoTime.mkTime 2024 1 6 0 0)
     ∧ GoTime.Month (GoTime.mkTime 2024 1 6 0 0) = GoTime.Month (GoTime.mkTime 2024 1 6 0 0)
     ∧ GoTime.Year (GoTime.mkTime 2024 1 6 0 0) = GoTime.Year (GoTime.mkTime 2024 1 6 0 0)).
Proof.
  apply (data_determines_the_dates (GoTime.mkTime 2024 1 5 0 0) (GoTime.mkTime 2024 1 6 0 0)
           (GoTime.mkTime 2024 1 5 23 59) (GoTime.mkTime 2024 1 6 0 0)).
  reflexivity.
Defined.

(** X10: a CSV row is written without quoting: it holds the five
    separators and every semicolon of the fields, so a field with a
    semicolon in it yields a row of more than six columns. *)
Theorem csv_row_does_not_quote (Sprintf_v : option GoTime.Time → string) reg :
  count_byte ";" (csv_row Sprintf_v reg)
  = 5 + count_byte ";" (RegNo reg) + count_byte ";" (Sprintf_v (Date reg))
    + count_byte ";" (Name reg) + count_byte ";" (Address reg)
    + count_byte ";" (City reg) + count_byte ";" (PostalCode reg).
Proof.
  unfold csv_row. rewrite !CountFacts.count_byte_app. simpl. lia.
Qed.

(** * More about the crawl: what the callbacks keep, and what stops it *)

Module RecordFacts.

Lemma keeps_same {A} (m : Go A) :
  (∀ st o st', m st = (o, st') →
     registrations st' = registrations st ∧ visited st' = visited st) →
  keeps_records m.
Proof.
  intros H st o st' E. destruct (H _ _ _ E) as [Hr Hv]. split.
  - exists []. rewrite Hr, List.app_nil_r. reflexivity.
  - rewrite Hv. reflexivity.
Qed.

Lemma keeps_ret {A} (a : A) : keeps_records (ret a).
Proof. apply keeps_same. intros st o st' [= <- <-]. auto. Qed.

Lemma keeps_raise {A} p : keeps_records (@raise A p).
Proof. apply keeps_same. intros st o st' [= <- <-]. auto. Qed.

Lemma keeps_out_of_fuel {A} : keeps_records (@out_of_fuel A).
Proof. apply keeps_same. intros st o st' [= <- <-]. auto. Qed.

Lemma keeps_emit e : keeps_records (emit e).
Proof. apply keeps_same. intros st o st' [= <- <-]. auto. Qed.

Lemma keeps_bind {A B} (m : Go A) (f : A → Go B) :
  keeps_records m → (∀ a, keeps_records (f a)) → keeps_records (m ≫= f).
Proof.
  intros Hm Hf st o st'. unfold mbind, Go_bind, bind.
  destruct (m st) as [[a|p|] st1] eqn:E; destruct (Hm _ _ _ E) as [[n1 H1] V1].
  - intros H. destruct (Hf a _ _ _ H) as [[n2 H2] V2]. split.
    + exists (n1 ++ n2). rewrite H2, H1, List.app_assoc. reflexivity.
    + etrans; eassumption.
  - intros [= <- <-]. eauto.
  - intros [= <- <-]. eauto.
Qed.

Lemma keeps_index {A} (l : list A) i : keeps_records (index l i).
Proof. unfold index. destruct (l !! i); [apply keeps_ret|apply keeps_raise]. Qed.

Lemma keeps_log_error err : keeps_records (log_error err).
Proof. destruct err; [apply keeps_emit|apply keeps_ret]. Qed.

Lemma keeps_forEach {A} (l : list A) (f : A → Go unit) :
  (∀ x, keeps_records (f x)) → keeps_records (forEach l f).
Proof.
  intros Hf. induction l as [|x l IH]; simpl; [apply keeps_ret|].
  apply keeps_bind; [apply Hf|intros _; exact IH].
Qed.

Lemma keeps_append_registration reg : keeps_records (append_registration reg).
Proof.
  intros st o st' [= <- <-]. split; [exists [reg]; reflexivity|reflexivity].
Qed.

Ltac keeps_prim :=
  first [ apply keeps_ret | apply keeps_raise | apply keeps_out_of_fuel
        | apply keeps_emit | apply keeps_index | apply keeps_log_error
        | apply keeps_append_registration ].

Ltac keeps :=
  repeat first
    [ apply keeps_bind; [|intros ?]
    | keeps_prim
    | match goal with
      | |- keeps_records (match ?x with _ => _ end) => destruct x
      | |- keeps_records (if ?b then _ else _) => destruct b
      end ].

Section Engine.
Variable ParseError_Error : list GoTime.chunk → string → string.
Variable serve : request → option Page.

Lemma keeps_onFont lines : keeps_records (onFont ParseError_Error lines).
Proof.
  unfold onFont, extractCompanyName, extractCompanyAddress, extractCity, Println. keeps.
Qed.

Lemma keeps_onLink V href : (∀ url, keeps_records (V url)) → keeps_records (onLink V href).
Proof. intros HV. unfold onLink. destruct (_ : option string); [apply HV|apply keeps_ret]. Qed.

Lemma keeps_c_Visit_with sc url :
  (∀ r, keeps_records (sc r)) → keeps_records (c_Visit_with sc url).
Proof.
  intros Hsc st o st'. unfold c_Visit_with. case_bool_decide.
  - intros [= <- <-]. split; [exists []; rewrite List.app_nil_r|]; reflexivity.
  - intros E. destruct (Hsc _ _ _ _ E) as [Hreg Hvis]. split; [exact Hreg|].
    simpl in Hvis. etrans; [|exact Hvis]. apply union_subseteq_r.
Qed.

Lemma keeps_scrape fuel : ∀ r, keeps_records (scrape ParseError_Error serve fuel r).
Proof.
  induction fuel as [|n IH]; intros r; cbn [scrape]; [apply keeps_out_of_fuel|].
  apply keeps_bind; [apply keeps_emit|intros _].
  destruct (serve r) as [page|]; [|apply keeps_ret].
  apply keeps_bind; [|intros _].
  - apply keeps_forEach. intros href. apply keeps_onLink. intros url.
    apply keeps_c_Visit_with. exact IH.
  - apply keeps_forEach. intros lines. apply keeps_onFont.
Qed.

End Engine.

End RecordFacts.

Section Crawl.
Variable ParseError_Error : list GoTime.chunk → string → string.
Variable json_Marshal : CompanyRegistration → string.
Variable Sprintf_v : option GoTime.Time → string.
Variable serve : request → option Page.

(** X11: the records are append-only: whatever a request and the callbacks
    it triggers do, however deep the visits nest and however it ends, the
    records collected before are still there, unchanged and in front, and no
    URL is forgotten as visited. *)
Theorem crawl_only_appends_records fuel r st o st' :
  scrape ParseError_Error serve fuel r st = (o, st') →
  (∃ new, registrations st' = registrations st ++ new) ∧ visited st ⊆ visited st'.
Proof. apply RecordFacts.keeps_scrape. Qed.

(** X12: one short detail page stops the whole run: when both date flags
    parse, the search is answered with a page whose first selected link the
    identifier pattern matches leads to a detail page that holds no selected
    link the pattern matches and whose first [font] element has one to five
    rows, the panic of the callback passes through [Visit], [Post],
    [collectRegistrations] and [Action] up to [main]: after the search
    request and the request of that one page nothing is requested, nothing
    is printed and no record is kept. *)
Theorem short_detail_page_aborts_the_run fuel output start_date end_date startDate endDate
    skipped href hrefs fonts regID links lines more st :
  GoTime.Parse GoTime.layout_flag (TrimSpace start_date) = Some startDate →
  GoTime.Parse GoTime.layout_flag (TrimSpace end_date) = Some endDate →
  serve (POST searchURL (data startDate endDate))
  = Some (mkPage (skipped ++ href :: hrefs) fonts) →
  Forall (λ h, FindStringSubmatch1 re_rb_id h = None) skipped →
  FindStringSubmatch1 re_rb_id href = Some regID →
  serve (GET (regURL regID)) = Some (mkPage links (lines :: more)) →
  Forall (λ h, FindStringSubmatch1 re_rb_id h = None) links →
  0 < length lines → length lines < 6 →
  ∃ t,
    main ParseError_Error json_Marshal Sprintf_v serve (S (S fuel))
         output start_date end_date st
    = (Panic (IndexOutOfRange 5 (length lines)),
       mkState (trace st ++ Http (POST searchURL (data startDate endDate))
                 :: Http (GET (regURL regID)) :: t)
               {[regURL regID]} [])
    ∧ requests t = [] ∧ ∀ text, ¬ In (Stdout text) t.
Proof.
  intros Hs He Hpost Hskip Hid Hget Hlinks Hpos Hlt.
  destruct (lookup_lt_is_Some_2 lines 0 Hpos) as [l0 H0].
  eexists. split; [|split].
  - unfold main, Action. rewrite Hs, He.
    apply bind_Panic, bind_Panic.
    unfold collectRegistrations, c_Post. apply bind_Panic.
    cbn [scrape]. rewrite (bind_Return _ _ _ _ _ (emit_add _ _)), Hpost.
    cbn [li_a_href font_tr]. apply bind_Panic.
    rewrite (forEach_onLink_skip _ _ _ _ Hskip). cbn [forEach]. apply bind_Panic.
    rewrite (onLink_Some _ _ _ Hid). unfold c_Visit_with.
    rewrite bool_decide_false by (cbn; set_solver).
    cbn [scrape]. rewrite (bind_Return _ _ _ _ _ (emit_add _ _)), Hget.
    cbn [li_a_href font_tr].
    rewrite (bind_Return _ _ _ _ _ (forEach_onLink_none _ _ _ Hlinks)).
    cbn [forEach]. apply bind_Panic.
    rewrite (onFont_missing_line5 _ lines l0 _ H0) by lia.
    unfold add_events. cbn [trace visited registrations].
    rewrite <- !List.app_assoc. cbn [app].
    rewrite (right_id_L ∅ (∪)). reflexivity.
  - rewrite RequestFacts.requests_app.
    destruct (extractCompanyNumber l0) as [? [?|]];
      destruct (extractCompanyRegistrationDate _ l0) as [? [?|]]; reflexivity.
  - intros text Hin. apply in_app_or in Hin as [Hin|Hin].
    + destruct (extractCompanyNumber l0) as [? [?|]]; simpl in Hin; intuition congruence.
    + destruct (extractCompanyRegistrationDate _ l0) as [? [?|]]; simpl in Hin;
        intuition congruence.
Qed.

End Crawl.

Lemma short_detail_page_aborts_the_run_witness :
  ∃ t,
    main (λ _ value, value) (λ _, "") (λ _, "") one_short_page 2
         "csv" "2024-01-05" "2024-01-06" initial
    = (Panic (IndexOutOfRange 5 (length ["Aktenzeichen: HRB 7"; ""; ""])),
       mkState (trace initial
                ++ Http (POST searchURL (data (GoTime.mkTime 2024 1 5 0 0)
                                              (GoTime.mkTime 2024 1 6 0 0)))
                :: Http (GET (regURL "7")) :: t)
               {[regURL "7"]} [])
    ∧ requests t = [] ∧ ∀ text, ¬ In (Stdout text) t.
Proof.
  apply (short_detail_page_aborts_the_run (λ _ value, value) (λ _, "") (λ _, "")
           one_short_page 0 "csv" "2024-01-05" "2024-01-06"
           (GoTime.mkTime 2024 1 5 0 0) (GoTime.mkTime 2024 1 6 0 0)
           ["https://www.bundesanzeiger.de"]
           "javascript:NeuFenster('rb_id=7&land_abk=bw')" [] [] "7" ["suche.php"]
           ["Aktenzeichen: HRB 7"; ""; ""] [] initial);
    try reflexivity; try (repeat constructor); simpl; lia.
Defined.

Lemma crawl_only_appends_records_witness :
  (∃ new, registrations
            (scrape (λ _ value, value) one_announcement 1 (POST searchURL ∅)
                    (mkState [] ∅ [zeroReg])).2
          = registrations (mkState [] ∅ [zeroReg]) ++ new)
  ∧ visited (mkState [] ∅ [zeroReg])
    ⊆ visited (scrape (λ _ value, value) one_announcement 1 (POST searchURL ∅)
                      (mkState [] ∅ [zeroReg])).2.
Proof.
  apply (crawl_only_appends_records (λ _ value, value) one_announcement 1
           (POST searchURL ∅) (mkState [] ∅ [zeroReg])
           (scrape (λ _ value, value) one_announcement 1 (POST searchURL ∅)
                   (mkState [] ∅ [zeroReg])).1).
  destruct (scrape _ _ _ _ _). reflexivity.
Defined.

(** * More about [TrimSpace] *)

Module TrimFacts.
Import Str StrFacts GoStrings.

Lemma rev_app_rev_app s a b :
  String.rev_app (String.rev_app s a) b = String.rev_app a (s +:+ b).
Proof.
  revert a b. induction s as [|c s IH]; intros a b; [reflexivity|].
  simpl. rewrite IH. reflexivity.
Qed.

Lemma rev_rev s : String.rev (String.rev s) = s.
Proof. unfold String.rev. rewrite rev_app_rev_app. simpl. apply app_nil_r. Qed.

Lemma rev_app_acc s a : String.rev_app s a = String.rev s +:+ a.
Proof.
  revert a. unfold String.rev. induction s as [|c s IH]; intros a; [reflexivity|].
  simpl. rewrite IH, (IH (String c "")), app_assoc. reflexivity.
Qed.

Lemma rev_app_distr a b : String.rev (a +:+ b) = String.rev b +:+ String.rev a.
Proof.
  induction a as [|c a IH].
  - rewrite app_nil_l, app_nil_r. reflexivity.
  - rewrite app_cons. unfold String.rev at 1 3. simpl.
    rewrite !rev_app_acc, IH, app_assoc. reflexivity.
Qed.

Lemma rev_snoc r c : String.rev (r +:+ String c "") = String c (String.rev r).
Proof. rewrite rev_app_distr. reflexivity. Qed.

(** What [TrimLeftSpace] leaves is the rest of the text behind what it
    removed, and does not start with white space. *)
Lemma TrimLeftSpace_suffix_n n : ∀ s, String.length s ≤ n →
  ∃ p, s = p +:+ TrimLeftSpace s.
Proof.
  induction n as [|n IH]; intros s Hn.
  - destruct s; [exists ""; reflexivity|simpl in Hn; lia].
  - destruct s as [|c1 r1]; [exists ""; reflexivity|]. simpl in Hn. cbn [TrimLeftSpace].
    destruct (asciiSpace c1).
    { destruct (IH r1 ltac:(lia)) as [p Hp]. exists (String c1 p).
      rewrite app_cons, <- Hp. reflexivity. }
    destruct r1 as [|c2 r2]; [exists ""; reflexivity|]. simpl in Hn.
    destruct (space2 c1 c2).
    { destruct (IH r2 ltac:(lia)) as [p Hp]. exists (String c1 (String c2 p)).
      rewrite !app_cons, <- Hp. reflexivity. }
    destruct r2 as [|c3 r3]; [exists ""; reflexivity|]. simpl in Hn.
    destruct (space3 c1 c2 c3); [|exists ""; reflexivity].
    destruct (IH r3 ltac:(lia)) as [p Hp]. exists (String c1 (String c2 (String c3 p))).
    rewrite !app_cons, <- Hp. reflexivity.
Qed.

Lemma TrimLeftSpace_head_n n : ∀ s c r, String.length s ≤ n →
  TrimLeftSpace s = String c r → asciiSpace c = false.
Proof.
  induction n as [|n IH]; intros s c r Hn.
  - destruct s; [discriminate|simpl in Hn; lia].
  - destruct s as [|c1 r1]; [discriminate|]. simpl in Hn. cbn [TrimLeftSpace].
    destruct (asciiSpace c1) eqn:H1; [apply IH; lia|].
    destruct r1 as [|c2 r2]; [intros [= <- _]; exact H1|]. simpl in Hn.
    destruct (space2 c1 c2); [apply IH; lia|].
    destruct r2 as [|c3 r3]; [intros [= <- _]; exact H1|]. simpl in Hn.
    destruct (space3 c1 c2 c3); [apply IH; lia|intros [= <- _]; exact H1].
Qed.

Lemma trimRevSpace_suffix_n n : ∀ s, String.length s ≤ n →
  ∃ p, s = p +:+ trimRevSpace s.
Proof.
  induction n as [|n IH]; intros s Hn.
  - destruct s; [exists ""; reflexivity|simpl in Hn; lia].
  - destruct s as [|c1 r1]; [exists ""; reflexivity|]. simpl in Hn. cbn [trimRevSpace].
    destruct (asciiSpace c1).
    { destruct (IH r1 ltac:(lia)) as [p Hp]. exists (String c1 p).
      rewrite app_cons, <- Hp. reflexivity. }
    destruct r1 as [|c2 r2]; [exists ""; reflexivity|]. simpl in Hn.
    destruct (space2 c2 c1).
    { destruct (IH r2 ltac:(lia)) as [p Hp]. exists (String c1 (String c2 p)).
      rewrite !app_cons, <- Hp. reflexivity. }
    destruct r2 as [|c3 r3]; [exists ""; reflexivity|]. simpl in Hn.
    destruct (space3 c3 c2 c1); [|exists ""; reflexivity].
    destruct (IH r3 ltac:(lia)) as [p Hp]. exists (String c1 (String c2 (String c3 p))).
    rewrite !app_cons, <- Hp. reflexivity.
Qed.

Lemma trimRevSpace_head_n n : ∀ s c r, String.length s ≤ n →
  trimRevSpace s = String c r → asciiSpace c = false.
Proof.
  induction n as [|n IH]; intros s c r Hn.
  - destruct s; [discriminate|simpl in Hn; lia].
  - destruct s as [|c1 r1]; [discriminate|]. simpl in Hn. cbn [trimRevSpace].
    destruct (asciiSpace c1) eqn:H1; [apply IH; lia|].
    destruct r1 as [|c2 r2]; [intros [= <- _]; exact H1|]. simpl in Hn.
    destruct (space2 c2 c1); [apply IH; lia|].
    destruct r2 as [|c3 r3]; [intros [= <- _]; exact H1|]. simpl in Hn.
    destruct (space3 c3 c2 c1); [apply IH; lia|intros [= <- _]; exact H1].
Qed.

(** [TrimRightSpace] leaves the front of the text. *)
Lemma TrimRightSpace_prefix t : ∃ q, t = TrimRightSpace t +:+ q.
Proof.
  unfold TrimRightSpace.
  destruct (trimRevSpace_suffix_n _ (String.rev t) (le_n _)) as [p Hp].
  exists (String.rev p). rewrite <- rev_app_distr, <- Hp, rev_rev. reflexivity.
Qed.

(** What [TrimSpace] returns has no ASCII white space at either end. *)
Lemma TrimSpace_trimmed s : trimmed (TrimSpace s).
Proof.
  unfold TrimSpace. split.
  - intros c r E.
    destruct (TrimRightSpace_prefix (TrimLeftSpace s)) as [q Hq].
    rewrite E, app_cons in Hq.
    exact (TrimLeftSpace_head_n _ s c _ (le_n _) Hq).
  - intros r c E. apply (f_equal String.rev) in E.
    unfold TrimRightSpace in E. rewrite rev_rev, rev_snoc in E.
    exact (trimRevSpace_head_n _ _ c _ (le_n _) E).
Qed.

(** Nothing is removed from a text with digits at both ends. *)
Lemma digit_code c :
  GoTime.isDigit c = true → (48 ≤ N_of_ascii c ≤ 57)%N.
Proof. destruct c as [[] [] [] [] [] [] [] []]; try discriminate; intros _; cbv; split; discriminate. Qed.

Lemma digit_asciiSpace c : GoTime.isDigit c = true → asciiSpace c = false.
Proof. destruct c as [[] [] [] [] [] [] [] []]; try discriminate; reflexivity. Qed.

Lemma digit_space2_l c x : GoTime.isDigit c = true → space2 c x = false.
Proof. destruct c as [[] [] [] [] [] [] [] []]; try discriminate; reflexivity. Qed.

Lemma digit_space2_r c x : GoTime.isDigit c = true → space2 x c = false.
Proof.
  intros H. unfold space2. repeat case_match; try reflexivity; subst; discriminate H.
Qed.

Lemma digit_space3_l c x y : GoTime.isDigit c = true → space3 c x y = false.
Proof. destruct c as [[] [] [] [] [] [] [] []]; try discriminate; reflexivity. Qed.

Lemma digit_space3_r c x y : GoTime.isDigit c = true → space3 x y c = false.
Proof.
  intros H. apply digit_code in H. unfold space3.
  repeat case_match; try reflexivity;
    rewrite ?orb_false_iff, ?andb_false_iff, ?N.eqb_neq, ?N.leb_gt; lia.
Qed.

Lemma isDigit_no_space c :
  GoTime.isDigit c = true →
  asciiSpace c = false ∧ (∀ x, space2 c x = false) ∧ (∀ x y, space3 c x y = false)
  ∧ (∀ x, space2 x c = false) ∧ (∀ x y, space3 x y c = false).
Proof.
  intros H. split; [apply digit_asciiSpace, H|].
  split; [intros; apply digit_space2_l, H|]. split; [intros; apply digit_space3_l, H|].
  split; [intros; apply digit_space2_r, H|intros; apply digit_space3_r, H].
Qed.

Lemma TrimSpace_digit_ends a r z :
  GoTime.isDigit a = true → GoTime.isDigit z = true →
  TrimSpace (String a (r +:+ String z "")) = String a (r +:+ String z "").
Proof.
  intros Ha Hz.
  destruct (isDigit_no_space a Ha) as (A1 & A2 & A3 & _).
  destruct (isDigit_no_space z Hz) as (Z1 & _ & _ & Z2 & Z3).
  assert (∀ s, TrimLeftSpace (String a s) = String a s) as HL.
  { intros s. cbn [TrimLeftSpace]. rewrite A1.
    destruct s as [|c2 s]; [reflexivity|]. rewrite A2.
    destruct s as [|c3 s]; [reflexivity|]. rewrite A3. reflexivity. }
  assert (∀ s, trimRevSpace (String z s) = String z s) as HR.
  { intros s. cbn [trimRevSpace]. rewrite Z1.
    destruct s as [|c2 s]; [reflexivity|]. rewrite Z2.
    destruct s as [|c3 s]; [reflexivity|]. rewrite Z3. reflexivity. }
  unfold TrimSpace, TrimRightSpace. rewrite HL.
  change (String a (r +:+ String z "")) with (String a r +:+ String z "").
  rewrite rev_snoc, HR, <- rev_snoc, rev_rev. reflexivity.
Qed.

End TrimFacts.

(** * More about the flags: the default dates *)

Module DefaultFacts.
Import Str StrFacts GoStrings GoTime Spec TimeFacts TrimFacts.

Lemma range_check (f : Z → bool) (lo len : Z) :
  forallb f (map (λ k, lo + Z.of_nat k)%Z (seq 0 (Z.to_nat len))) = true →
  ∀ n, (lo ≤ n < lo + len)%Z → f n = true.
Proof.
  intros H n Hn. rewrite forallb_forall in H. apply H.
  replace n with (lo + Z.of_nat (Z.to_nat (n - lo)))%Z by lia.
  apply (in_map (λ k, lo + Z.of_nat k)%Z), in_seq. lia.
Qed.

Lemma prints_one_digit_range n : (1 ≤ n ≤ 9)%Z → prints_one_digit n = true.
Proof. intros H. apply (range_check prints_one_digit 1 9); [vm_compute; reflexivity|lia]. Qed.

Lemma prints_two_digits_range n : (10 ≤ n ≤ 99)%Z → prints_two_digits n = true.
Proof. intros H. apply (range_check prints_two_digits 10 90); [vm_compute; reflexivity|lia]. Qed.

Lemma prints_four_digits_range n : (1000 ≤ n ≤ 9999)%Z → prints_four_digits n = true.
Proof.
  intros H. apply (range_check prints_four_digits 1000 9000); [vm_compute; reflexivity|lia].
Qed.

Lemma one_digit_shape n :
  (1 ≤ n ≤ 9)%Z → ∃ a, Sprintf_d n = bytes [a] ∧ isDigit a = true ∧ digit a = n.
Proof.
  intros H. apply prints_one_digit_range in H. unfold prints_one_digit in H.
  destruct (Sprintf_d n) as [|a [|]]; try discriminate.
  apply andb_prop in H as [Ha Hn]. apply Z.eqb_eq in Hn. eauto.
Qed.

Lemma two_digits_shape n :
  (10 ≤ n ≤ 99)%Z →
  ∃ a b, Sprintf_d n = bytes [a; b] ∧ isDigit a = true ∧ isDigit b = true ∧ two a b = n.
Proof.
  intros H. apply prints_two_digits_range in H. unfold prints_two_digits in H.
  destruct (Sprintf_d n) as [|a [|b [|]]]; try discriminate.
  apply andb_prop in H as [H Hn]. apply andb_prop in H as [Ha Hb].
  apply Z.eqb_eq in Hn. exists a, b. auto.
Qed.

Lemma four_digits_shape n :
  (1000 ≤ n ≤ 9999)%Z →
  ∃ a b c d, Sprintf_d n = bytes [a; b; c; d]
             ∧ (isDigit a = true ∧ isDigit b = true ∧ isDigit c = true ∧ isDigit d = true)
             ∧ four a b c d = n.
Proof.
  intros H. apply prints_four_digits_range in H. unfold prints_four_digits in H.
  destruct (Sprintf_d n) as [|a [|b [|c [|d [|]]]]]; try discriminate.
  apply andb_prop in H as [H Hn]. apply andb_prop in H as [H Hd].
  apply andb_prop in H as [H Hc]. apply andb_prop in H as [Ha Hb].
  apply Z.eqb_eq in Hn. exists a, b, c, d. repeat split; assumption.
Qed.

Lemma month_needs_two_digits a c v l t :
  isDigit c = false → parse_chunks (stdZeroMonth :: l) (String a (String c v)) t = None.
Proof.
  intros Hc. rewrite parse_chunks_cons.
  destruct (parse_chunk stdZeroMonth _ t) as [[t' v']|] eqn:E; [|reflexivity].
  apply parse_stdZeroMonth in E as (a' & b' & [= <- <- <-] & _ & Hb & _). congruence.
Qed.

Lemma day_needs_two_digits a l t :
  parse_chunks (stdZeroDay :: l) (String a "") t = None.
Proof.
  rewrite parse_chunks_cons.
  destruct (parse_chunk stdZeroDay _ t) as [[t' v']|] eqn:E; [|reflexivity].
  apply parse_stdZeroDay in E as (a' & b' & [=] & _).
Qed.

(** The default of a date flag against the layout of the flags. *)
Lemma Parse_default_date y m d :
  (1000 ≤ y ≤ 9999)%Z → (1 ≤ m ≤ 12)%Z → (1 ≤ d ≤ daysIn m y)%Z →
  Parse layout_flag (TrimSpace (default_date y m d))
  = if ((10 <=? m) && (10 <=? d))%Z then Some (mkTime y m d 0 0) else None.
Proof.
  intros Hy Hm Hd.
  assert (d ≤ 31)%Z as Hd31.
  { unfold daysIn in Hd. repeat case_match; lia. }
  destruct (four_digits_shape y Hy) as (a & b & c & e & Ey & (Da & Db & Dc & De) & Fy).
  unfold default_date, Parse, layout_flag. rewrite Ey.
  destruct (Z.leb_spec 10 m) as [Hm10|Hm10]; cbn [andb].
  - destruct (two_digits_shape m ltac:(lia)) as (m1 & m2 & Em & M1 & M2 & Fm). rewrite Em.
    destruct (Z.leb_spec 10 d) as [Hd10|Hd10].
    + destruct (two_digits_shape d ltac:(lia)) as (d1 & d2 & Ed & D1 & D2 & Fd). rewrite Ed.
      change (bytes [a; b; c; e] +:+ "-" +:+ bytes [m1; m2] +:+ "-" +:+ bytes [d1; d2])
        with (String a (bytes [b; c; e; "-"%char; m1; m2; "-"%char; d1] +:+ String d2 "")).
      rewrite TrimSpace_digit_ends by assumption.
      cbn [bytes String.string_of_list_ascii]. rewrite !app_cons, !app_nil_l.
      rewrite step_year, step_byte, step_month, step_byte, step_day
        by (try assumption; try reflexivity; lia).
      cbn [parse_chunks Year Month Day Hour Minute unset]. rewrite Fy, Fm, Fd.
      destruct ((d <? 1) || (daysIn m y <? d))%Z eqn:Hr; [lia|reflexivity].
    + destruct (one_digit_shape d ltac:(lia)) as (d1 & Ed & D1 & Fd). rewrite Ed.
      change (bytes [a; b; c; e] +:+ "-" +:+ bytes [m1; m2] +:+ "-" +:+ bytes [d1])
        with (String a (bytes [b; c; e; "-"%char; m1; m2; "-"%char] +:+ String d1 "")).
      rewrite TrimSpace_digit_ends by assumption.
      cbn [bytes String.string_of_list_ascii]. rewrite !app_cons, !app_nil_l.
      rewrite step_year, step_byte, step_month, step_byte
        by (try assumption; try reflexivity; lia).
      rewrite day_needs_two_digits. reflexivity.
  - destruct (one_digit_shape m ltac:(lia)) as (m1 & Em & M1 & Fm). rewrite Em.
    assert (∃ r z, Sprintf_d d = r +:+ String z "" ∧ isDigit z = true) as (r & z & Ed & Dz).
    { destruct (Z.leb_spec 10 d) as [Hd10|Hd10].
      - destruct (two_digits_shape d ltac:(lia)) as (d1 & d2 & Ed & D1 & D2 & Fd).
        exists (String d1 ""), d2. auto.
      - destruct (one_digit_shape d ltac:(lia)) as (d1 & Ed & D1 & Fd).
        exists "", d1. auto. }
    rewrite Ed.
    change (bytes [a; b; c; e] +:+ "-" +:+ bytes [m1] +:+ "-" +:+ r +:+ String z "")
      with (String a (bytes [b; c; e; "-"%char; m1; "-"%char] +:+ r +:+ String z "")).
    rewrite <- app_assoc, TrimSpace_digit_ends by assumption.
    rewrite app_assoc. cbn [bytes String.string_of_list_ascii]. rewrite !app_cons, !app_nil_l.
    rewrite step_year, step_byte by (try assumption; reflexivity).
    rewrite month_needs_two_digits by reflexivity. reflexivity.
Qed.

End DefaultFacts.

Section Defaults.
Variable ParseError_Error : list GoTime.chunk → string → string.
Variable json_Marshal : CompanyRegistration → string.
Variable Sprintf_v : option GoTime.Time → string.
Variable serve : request → option Page.

(** X13: the default of the date flags is printed with [%d-%d-%d] but read
    with the layout [2006-01-02]: it parses exactly when both the month and
    the day have two digits.  On every other day a run that leaves
    [start_date] at its default logs the parse error and exits with status 1
    without a request. *)
Theorem default_date_needs_two_digit_month_and_day fuel output end_date y m d st :
  (1000 ≤ y ≤ 9999)%Z → (1 ≤ m ≤ 12)%Z → (1 ≤ d ≤ GoTime.daysIn m y)%Z →
  GoTime.Parse GoTime.layout_flag (TrimSpace (default_date y m d))
  = (if ((10 <=? m) && (10 <=? d))%Z then Some (GoTime.mkTime y m d 0 0) else None)
  ∧ ((m < 10 ∨ d < 10)%Z →
     main ParseError_Error json_Marshal Sprintf_v serve fuel output (default_date y m d)
          end_date st
     = (Return 1%Z,
        add_events
          [LogPrintln ("unable to parse start date parameter: "
                       +:+ ParseError_Error GoTime.layout_flag
                             (TrimSpace (default_date y m d)))] st)).
Proof.
  intros Hy Hm Hd. pose proof (DefaultFacts.Parse_default_date y m d Hy Hm Hd) as P.
  split; [exact P|]. intros Hlt.
  assert (((10 <=? m) && (10 <=? d))%Z = false) as Hb.
  { apply andb_false_iff. rewrite !Z.leb_gt. lia. }
  rewrite Hb in P. unfold main, Action. rewrite P. reflexivity.
Qed.

End Defaults.

Lemma default_date_needs_two_digit_month_and_day_witness :
  main (λ _ value, value) (λ _, "") (λ _, "") (λ _, None) 1 "csv" (default_date 2026 1 5)
       (default_date 2026 1 5) initial
  = (Return 1%Z,
     add_events
       [LogPrintln ("unable to parse start date parameter: "
                    +:+ TrimSpace (default_date 2026 1 5))] initial).
Proof.
  apply (proj2 (default_date_needs_two_digit_month_and_day (λ _ value, value) (λ _, "")
                  (λ _, "") (λ _, None) 1 "csv" (default_date 2026 1 5) 2026 1 5 initial
                  ltac:(lia) ltac:(lia) ltac:(vm_compute; split; discriminate))).
  left. lia.
Defined.

(** * More about the record parser: what a page can do to the records *)

Section Records.
Variable ParseError_Error : list GoTime.chunk → string → string.

(** X14: on every page the callback for [font] does one of three things:
    nothing at all (no rows), a panic that leaves the records as they were,
    or the append of exactly one record all of whose text fields are free of
    white space at both ends.  It never removes or changes a record and
    never touches the visited URLs. *)
Theorem onFont_appends_one_trimmed_record_or_nothing lines st o st' :
  onFont ParseError_Error lines st = (o, st') →
  visited st' = visited st ∧
  match o with
  | Return _ =>
      (lines = [] ∧ st' = st)
      ∨ (∃ reg, registrations st' = registrations st ++ [reg] ∧ trimmed_record reg)
  | Panic (IndexOutOfRange i n) =>
      registrations st' = registrations st ∧ lines ≠ [] ∧ n ≤ i
  | OutOfFuel => False
  end.
Proof.
  unfold onFont. case_bool_decide as Hlen.
  2:{ intros [= <- <-]. split; [reflexivity|]. left. split; [|reflexivity].
      destruct lines; [reflexivity|simpl in Hlen; lia]. }
  assert (lines ≠ []) as Hne by (intros ->; simpl in Hlen; lia).
  destruct (lookup_lt_is_Some_2 lines 0 Hlen) as [l0 H0].
  destruct (lines !! 5) as [l5|] eqn:H5.
  2:{ intros E. apply lookup_ge_None in H5.
      pose proof (onFont_missing_line5 ParseError_Error lines l0 st H0 H5) as R.
      unfold onFont in R. rewrite bool_decide_true in R by exact Hlen.
      rewrite R in E. injection E as <- <-. split; [reflexivity|].
      split; [reflexivity|]. split; [exact Hne|exact H5]. }
  destruct (Split_first l5 ",") as [s0 Hs0].
  destruct (Split s0 ": " !! 1) as [name|] eqn:Hname;
    [destruct (Split l5 "," !! 2) as [addr|] eqn:Haddr;
     [destruct (Split l5 "," !! 1) as [city|] eqn:Hcity|]|].
  - intros E.
    pose proof (onFont_run ParseError_Error lines l0 l5 s0 name city addr st
                  H0 H5 Hs0 Hname Hcity Haddr) as R.
    unfold onFont in R. rewrite bool_decide_true in R by exact Hlen.
    rewrite R in E. injection E as <- <-. split; [reflexivity|]. right.
    eexists. split; [reflexivity|].
    repeat split; cbn [RegNo Address City PostalCode Name]; apply TrimFacts.TrimSpace_trimmed.
  - (* no second section: impossible when there is a third *)
    apply lookup_ge_None in Hcity. apply lookup_lt_Some in Haddr. lia.
  - (* [extractCompanyAddress] panics *)
    intros E.
    rewrite (bind_Return _ _ _ _ _ (index_Some _ _ _ _ H0)) in E.
    destruct (extractCompanyNumber l0) as [num e1].
    rewrite (bind_Return _ _ _ _ _ (log_error_add _ _)) in E.
    rewrite (bind_Return _ _ _ _ _ (index_Some _ _ _ _ H0)) in E.
    destruct (extractCompanyRegistrationDate ParseError_Error l0) as [date e2].
    rewrite (bind_Return _ _ _ _ _ (log_error_add _ _)) in E.
    rewrite (bind_Return _ _ _ _ _ (index_Some _ _ _ _ H5)) in E.
    erewrite bind_Return in E
      by (rewrite (extractCompanyName_run _ _ _ Hs0), Hname; reflexivity).
    cbv beta iota in E.
    rewrite (bind_Return _ _ _ _ _ (log_error_add _ _)) in E.
    rewrite (bind_Return _ _ _ _ _ (index_Some _ _ _ _ H5)) in E.
    erewrite bind_Panic in E by (rewrite extractCompanyAddress_run, Haddr; reflexivity).
    injection E as <- <-. split; [reflexivity|]. split; [reflexivity|].
    split; [exact Hne|]. apply lookup_ge_None in Haddr. exact Haddr.
  - (* [extractCompanyName] panics *)
    intros E.
    rewrite (bind_Return _ _ _ _ _ (index_Some _ _ _ _ H0)) in E.
    destruct (extractCompanyNumber l0) as [num e1].
    rewrite (bind_Return _ _ _ _ _ (log_error_add _ _)) in E.
    rewrite (bind_Return _ _ _ _ _ (index_Some _ _ _ _ H0)) in E.
    destruct (extractCompanyRegistrationDate ParseError_Error l0) as [date e2].
    rewrite (bind_Return _ _ _ _ _ (log_error_add _ _)) in E.
    rewrite (bind_Return _ _ _ _ _ (index_Some _ _ _ _ H5)) in E.
    erewrite bind_Panic in E
      by (rewrite (extractCompanyName_run _ _ _ Hs0), Hname; reflexivity).
    injection E as <- <-. split; [reflexivity|]. split; [reflexivity|].
    split; [exact Hne|]. apply lookup_ge_None in Hname. exact Hname.
Qed.

End Records.

Lemma onFont_appends_one_trimmed_record_or_nothing_witness :
  visited (onFont (λ _ value, value) ["x"; ""; ""; ""; ""; "n: Acme , Ulm ,  Weg 1 "]
                  initial).2
  = visited initial ∧
  ((["x"; ""; ""; ""; ""; "n: Acme , Ulm ,  Weg 1 "] = []
    ∧ (onFont (λ _ value, value) ["x"; ""; ""; ""; ""; "n: Acme , Ulm ,  Weg 1 "]
              initial).2 = initial)
   ∨ (∃ reg,
        registrations
          (onFont (λ _ value, value) ["x"; ""; ""; ""; ""; "n: Acme , Ulm ,  Weg 1 "]
                  initial).2
        = registrations initial ++ [reg] ∧ trimmed_record reg)).
Proof.
  apply (onFont_appends_one_trimmed_record_or_nothing (λ _ value, value)
           ["x"; ""; ""; ""; ""; "n: Acme , Ulm ,  Weg 1 "] initial (Return tt)
           (onFont (λ _ value, value) ["x"; ""; ""; ""; ""; "n: Acme , Ulm ,  Weg 1 "]
                   initial).2).
  reflexivity.
Defined.
